(** * hw_seckill: time synchronisation, countdown, configuration, retry
      and cookie persistence

    A shallow embedding of [tools/time_utils.py], [config.py],
    [tools/utils.py] and the options of [browser/chrome.py], with the
    properties their specification states and further ones read off the
    code. *)

From Stdlib Require Import ZArith QArith Qround Qminmax Bool List Ascii String.
From Stdlib Require Import Permutation Sorted Lia Lqa.
From Stdlib Require Import DecimalString DecimalZ DecimalPos.
From stdpp Require Import gmap strings.
Import ListNotations.

Local Open Scope Q_scope.

(** ** Exceptions and results *)
Module Py.

Inductive exn : Type :=
| NoSectionError (section : string)
| NoOptionError (opt section : string)
| InterpolationError (opt section : string)
| ValueError (text : string)
| OSError (path : string)
| JSONDecodeError.

Inductive result (A : Type) : Type :=
| Ok (a : A)
| Raise (e : exn).
Arguments Ok {A} a.
Arguments Raise {A} e.

(** [try: return c / except: return handler] with a bare [except]. *)
Definition try_except {A} (c : result A) (handler : A) : A :=
  match c with
  | Ok a => a
  | Raise _ => handler
  end.

(** [x if x is not None else d] *)
Definition if_not_None {A} (x : option A) (d : A) : A :=
  match x with
  | Some v => v
  | None => d
  end.

End Py.

(** ** Python numbers

    An [int] is an integer; a [float] is carried as the rational it
    denotes.  The floats of [time_utils] are millisecond timestamps,
    their halves and differences, far below 2^52, which binary64
    represents exactly. *)
Module PyNum.

Inductive num : Type :=
| Int (z : Z)
| Float (q : Q).

Definition value (x : num) : Q :=
  match x with
  | Int z => inject_Z z
  | Float q => q
  end.

Definition is_float (x : num) : bool :=
  match x with
  | Int _ => false
  | Float _ => true
  end.

(** [a + b] and [a - b]: an [int] only from two [int]s. *)
Definition add (a b : num) : num :=
  match a, b with
  | Int x, Int y => Int (x + y)
  | _, _ => Float (value a + value b)
  end.

Definition sub (a b : num) : num :=
  match a, b with
  | Int x, Int y => Int (x - y)
  | _, _ => Float (value a - value b)
  end.

(** [a / b]: always a [float]. *)
Definition truediv (a b : num) : num := Float (value a / value b).

(** [a // b]: the floor of the quotient, an [int] only from two [int]s. *)
Definition floordiv (a b : num) : num :=
  match a, b with
  | Int x, Int y => Int (x / y)
  | _, _ => Float (inject_Z (Qfloor (value a / value b)))
  end.

(** [a % b], with the sign of the divisor. *)
Definition pymod (a b : num) : num :=
  match a, b with
  | Int x, Int y => Int (x mod y)
  | _, _ => Float (value a - value b * inject_Z (Qfloor (value a / value b)))
  end.

(** [a <= b] and [a < b] *)
Definition le (a b : num) : bool := Qle_bool (value a) (value b).
Definition lt (a b : num) : bool := negb (Qle_bool (value b) (value a)).

(** [max(a, b)]: the first of the two unless the second is greater. *)
Definition py_max (a b : num) : num := if lt a b then b else a.

(** The truth value of a number: false for zero only. *)
Definition truthy (x : num) : bool := negb (Qeq_bool (value x) 0).

(** [int(x)] of a float: truncation toward zero. *)
Definition int_of_float (x : Q) : Z :=
  if Qle_bool 0 x then Qfloor x else Qceiling x.

End PyNum.

(** ** tools/time_utils.py *)
Module TimeUtils.
Import Py PyNum.

(** How one request to the server-time endpoint ends: [session.get]
    raises, or there is a response with its [ok] flag and its body,
    [None] when [response.json()] raises and [Some field] otherwise,
    [field] being [data.get('serverTimeMs')], an integer of
    milliseconds when the key is there. *)
Inductive reply : Type :=
| RequestFailed
| Response (ok : bool) (serverTimeMs : option (option Z)).

(** What the module reads and does outside itself: the wall clock
    ([time.time]), the server-time endpoint, [time.sleep], and the range
    of timestamps the platform's [datetime.fromtimestamp] accepts.  The
    k-th clock reading and the k-th request outcome are given by
    oracles, so every run of the code is a run against some [World]. *)
Record World : Type := mkWorld {
  clock : nat -> Z;            (* k-th value of int(time.time() * 1000) *)
  clock_reads : nat;           (* readings taken so far *)
  endpoint : nat -> reply;     (* how the k-th request to the endpoint ends *)
  requests : nat;              (* requests made so far *)
  slept : list Q;              (* arguments of time.sleep, latest first *)
  fromtimestamp_ok : Q -> bool (* seconds that datetime.fromtimestamp accepts *)
}.

Definition M (A : Type) : Type := World -> A * World.
Definition ret {A} (a : A) : M A := fun w => (a, w).
Definition bind {A B} (c : M A) (k : A -> M B) : M B :=
  fun w => let (a, w') := c w in k a w'.

Notation "'do' x <- c ; k" := (bind c (fun x => k))
  (at level 10, x name, c at level 100, k at level 200).
Notation "'run' c ; k" := (bind c (fun _ => k))
  (at level 10, c at level 100, k at level 200).

(** [r] is computed, and an exception in it ends the computation. *)
Definition bind_ok {A B} (c : M (result A)) (k : A -> M (result B))
  : M (result B) :=
  do r <- c;
  match r with
  | Ok a => k a
  | Raise e => ret (Raise e)
  end.

Notation "'try' x <- c ; k" := (bind_ok c (fun x => k))
  (at level 10, x name, c at level 100, k at level 200).

(** [for _ in range(n)] threading an accumulator. *)
Fixpoint for_range {A} (n : nat) (body : A -> M A) (acc : A) : M A :=
  match n with
  | O => ret acc
  | S n' => do acc' <- body acc; for_range n' body acc'
  end.

(** [TimeSync._local_time] *)
Definition _local_time : M Z := fun w =>
  (clock w (clock_reads w),
   mkWorld (clock w) (S (clock_reads w)) (endpoint w) (requests w) (slept w)
           (fromtimestamp_ok w)).

(** What [_server_time] makes of a reply (lines 107-114): the field of
    an ok response, [None] for everything else. *)
Definition answer (r : reply) : option Z :=
  match r with
  | RequestFailed => None
  | Response true (Some field) => field
  | Response _ _ => None
  end.

(** The outcome of the k-th call of [_server_time]. *)
Definition server (w : World) (k : nat) : option Z := answer (endpoint w k).

(** [TimeSync._server_time] *)
Definition _server_time : M (option Z) := fun w =>
  (server w (requests w),
   mkWorld (clock w) (clock_reads w) (endpoint w) (S (requests w)) (slept w)
           (fromtimestamp_ok w)).

Definition sleep (d : Q) : M unit := fun w =>
  (tt, mkWorld (clock w) (clock_reads w) (endpoint w) (requests w)
               (d :: slept w) (fromtimestamp_ok w)).

(** [TimeSync.timestamp_to_str], for the log: the text is left out, the
    exception of [datetime.fromtimestamp(timestamp / 1000)] on a
    timestamp out of its range is kept. *)
Definition timestamp_to_str (timestamp : num) : M (result unit) := fun w =>
  (if fromtimestamp_ok w (value (truediv timestamp (Int 1000)))
   then Ok tt else Raise (ValueError "timestamp out of range"), w).

(** The object state of [TimeSync]. *)
Record TimeSync : Type := mkTimeSync {
  _server_timestamp : option num;
  _local_timestamp : option num;
  _time_diff : num
}.

(** [TimeSync.__init__] *)
Definition TimeSync_init : TimeSync := mkTimeSync None None (Int 0).

(** A sample [(server_ts, local_ts, diff)]. *)
Definition sample : Type := (num * num * num)%type.
Definition sample_diff (s : sample) : num := snd s.

(** One pass of the sampling loop of [sync] (lines 68-82).  On integer
    timestamps nothing inside the [try] raises, so the [except] branch,
    which only logs, never runs. *)
Definition sample_round (samples : list sample) : M (list sample) :=
  do start_ts <- _local_time;
  do server_ts <- _server_time;
  do end_ts <- _local_time;
  let samples' :=
    match server_ts with
    | Some s =>
        if truthy (Int s) then                 (* [if server_ts:] *)
          let latency := truediv (sub (Int end_ts) (Int start_ts)) (Int 2) in
          let local_ts := add (Int start_ts) latency in
          let diff := sub local_ts (Int s) in
          samples ++ [(Int s, local_ts, diff)]
        else samples
    | None => samples
    end in
  run sleep 0.1;
  ret samples'.

Definition collect_samples : M (list sample) := for_range 3 sample_round [].

(** [samples.sort(key=lambda x: x[2])]: a stable sort that compares keys
    with [<] only. *)
Fixpoint insert_by_diff (x : sample) (l : list sample) : list sample :=
  match l with
  | [] => [x]
  | y :: l' =>
      if lt (sample_diff y) (sample_diff x) then y :: insert_by_diff x l'
      else x :: y :: l'
  end.

Fixpoint sort_by_diff (l : list sample) : list sample :=
  match l with
  | [] => []
  | x :: l' => insert_by_diff x (sort_by_diff l')
  end.

(** [samples[len(samples) // 2]] after the sort. *)
Definition median_sample (first : sample) (rest : list sample) : sample :=
  let samples := first :: rest in
  nth (length samples / 2)%nat (sort_by_diff samples) first.

(** [TimeSync.sync]: the returned triple, or the exception that leaves
    it, and the updated object. *)
Definition sync (self : TimeSync) : M (result sample * TimeSync) :=
  do samples <- collect_samples;
  match samples with
  | [] =>
      do local_ts <- _local_time;
      ret (Ok (Int local_ts, Int local_ts, Int 0), self)
  | first :: rest =>
      let '(s, l, d) := median_sample first rest in
      let self' := mkTimeSync (Some s) (Some l) d in
      do r <- (try _ <- timestamp_to_str s;    (* log of the server time *)
               try _ <- timestamp_to_str l;    (* log of the local time *)
               ret (Ok (s, l, d)));
      ret (r, self')
  end.

(** The order of the sort keys. *)
Definition diff_le (a b : sample) : Prop :=
  value (sample_diff a) <= value (sample_diff b).

(** What round [k] (0, 1, 2) of a [sync] started in [w] adds to the
    samples, read off the oracles of [w]. *)
Definition round_sample (w : World) (k : nat) : list sample :=
  match server w (requests w + k) with
  | Some s =>
      if truthy (Int s) then
        let start_ts := Int (clock w (clock_reads w + 2 * k)) in
        let end_ts := Int (clock w (clock_reads w + 2 * k + 1)) in
        let local_ts := add start_ts (truediv (sub end_ts start_ts) (Int 2)) in
        [(Int s, local_ts, sub local_ts (Int s))]
      else []
  | None => []
  end.

(** Round [k] (0, 1, 2) of a [sync] started in [w] succeeds: the server
    answers with a timestamp that is not falsy. *)
Definition round_succeeds (w : World) (k : nat) : Prop :=
  exists s, server w (requests w + k) = Some s /\ s <> 0%Z.

Definition round_fails (w : World) (k : nat) : Prop :=
  server w (requests w + k) = None \/ server w (requests w + k) = Some 0%Z.

(** The world after the three rounds: six clock readings, three requests
    and three pauses of 0.1 s later. *)
Definition after_rounds (w : World) : World :=
  mkWorld (clock w) (clock_reads w + 6) (endpoint w) (requests w + 3)
    (0.1 :: 0.1 :: 0.1 :: slept w) (fromtimestamp_ok w).

(** What the two log lines of [sync] leave of the adopted sample [m]:
    the sample, or the exception of the formatting. *)
Definition log_lines (m : sample) (w : World) : result sample :=
  if fromtimestamp_ok w (value (fst (fst m)) / 1000) then
    if fromtimestamp_ok w (value (snd (fst m)) / 1000) then Ok m
    else Raise (ValueError "timestamp out of range")
  else Raise (ValueError "timestamp out of range").

(** [TimeSync.get_server_time] *)
Definition get_server_time (self : TimeSync) : M num :=
  do now <- _local_time;
  ret (sub (Int now) (_time_diff self)).

(** A [datetime], as far as the module looks at it: the float of seconds
    since the epoch that [timestamp()] returns. *)
Record datetime : Type := mkDatetime { timestamp : Q }.

(** The object state of [CountdownTimer]. *)
Record CountdownTimer : Type := mkCountdownTimer {
  time_sync : TimeSync;
  _target_time : option datetime
}.

(** [CountdownTimer.__init__] *)
Definition CountdownTimer_init (ts : TimeSync) : CountdownTimer :=
  mkCountdownTimer ts None.

(** [CountdownTimer.set_target] *)
Definition set_target (self : CountdownTimer) (target_time : datetime)
  : CountdownTimer :=
  mkCountdownTimer (time_sync self) (Some target_time).

(** [CountdownTimer.get_remaining_ms].  The product
    [timestamp() * 1000] is taken exactly; binary64 may round it. *)
Definition get_remaining_ms (self : CountdownTimer) : M num :=
  match _target_time self with
  | None => ret (Int 0)
  | Some target =>
      let target_ts := Int (int_of_float (timestamp target * 1000)) in
      do current_server_ts <- get_server_time (time_sync self);
      ret (py_max (sub target_ts current_server_ts) (Int 0))
  end.

(** The parts [(days, hours, minutes, seconds, milliseconds)]. *)
Definition parts : Type := (num * num * num * num * num)%type.

(** The arithmetic of [get_remaining_parts] (lines 167-179) on a given
    number of remaining milliseconds. *)
Definition split_parts (remaining_ms : num) : parts :=
  let days := floordiv remaining_ms (Int (24 * 60 * 60 * 1000)) in
  let remaining_ms := pymod remaining_ms (Int (24 * 60 * 60 * 1000)) in
  let hours := floordiv remaining_ms (Int (60 * 60 * 1000)) in
  let remaining_ms := pymod remaining_ms (Int (60 * 60 * 1000)) in
  let minutes := floordiv remaining_ms (Int (60 * 1000)) in
  let remaining_ms := pymod remaining_ms (Int (60 * 1000)) in
  let seconds := floordiv remaining_ms (Int 1000) in
  let milliseconds := pymod remaining_ms (Int 1000) in
  (days, hours, minutes, seconds, milliseconds).

(** [CountdownTimer.get_remaining_parts] *)
Definition get_remaining_parts (self : CountdownTimer) : M parts :=
  do remaining_ms <- get_remaining_ms self;
  ret (split_parts remaining_ms).

(** [CountdownTimer.is_time_to_start] *)
Definition is_time_to_start (self : CountdownTimer) : M bool :=
  do remaining <- get_remaining_ms self;
  ret (le remaining (Int 0)).

(** The format specification [02d] or [03d]: only an [int] has it. *)
Definition format_d (x : num) : result unit :=
  if is_float x then Raise (ValueError "Unknown format code 'd'") else Ok tt.

(** [CountdownTimer.format_remaining]: the text is left out, the
    exception of a float under a [d] format is kept. *)
Definition format_remaining (self : CountdownTimer) : M (result unit) :=
  do p <- get_remaining_parts self;
  let '(days, hours, minutes, seconds, ms) := p in
  ret (match (if lt (Int 0) hours || lt (Int 0) days
              then format_d hours else Ok tt) with
       | Raise e => Raise e
       | Ok _ =>
           match format_d minutes with
           | Raise e => Raise e
           | Ok _ =>
               match format_d seconds with
               | Raise e => Raise e
               | Ok _ => format_d ms
               end
           end
       end).

(** [CountdownTimer.wait_until_ready].  The [while True] loop runs on
    fuel: [None] means the fuel ran out before the loop ended. *)
Fixpoint wait_until_ready (fuel : nat) (self : CountdownTimer)
    (advance_ms : num) : M (option (result unit)) :=
  match fuel with
  | O => ret None
  | S fuel' =>
      do remaining <- get_remaining_ms self;
      if le remaining advance_ms then ret (Some (Ok tt))
      else
        let log_and_sleep (d : Q) : M (option (result unit)) :=
          do r <- format_remaining self;
          match r with
          | Raise e => ret (Some (Raise e))
          | Ok _ => run sleep d; wait_until_ready fuel' self advance_ms
          end in
        if lt (Int 60000) remaining then log_and_sleep 10
        else if lt (Int 10000) remaining then log_and_sleep 1
        else if lt (Int 1000) remaining then log_and_sleep 0.1
        else run sleep 0.001; wait_until_ready fuel' self advance_ms
  end.

End TimeUtils.

(** ** Text of configuration values: [str.lower], [str.strip], [int], [float] *)
Module PyStr.
Import Ascii String.
Local Open Scope string_scope.

Definition lower_char (c : ascii) : ascii :=
  let n := nat_of_ascii c in
  if ((65 <=? n) && (n <=? 90))%nat then ascii_of_nat (n + 32) else c.

Fixpoint lower (s : string) : string :=
  match s with
  | EmptyString => EmptyString
  | String c s' => String (lower_char c) (lower s')
  end.

Definition is_space (c : ascii) : bool :=
  let n := nat_of_ascii c in
  (((9 <=? n) && (n <=? 13)) || ((28 <=? n) && (n <=? 32)))%nat.

Fixpoint lstrip (s : string) : string :=
  match s with
  | EmptyString => EmptyString
  | String c s' => if is_space c then lstrip s' else s
  end.

Fixpoint rstrip (s : string) : string :=
  match s with
  | EmptyString => EmptyString
  | String c s' =>
      match rstrip s' with
      | EmptyString => if is_space c then EmptyString else String c EmptyString
      | r => String c r
      end
  end.

Definition strip (s : string) : string := rstrip (lstrip s).

Definition digit_of (c : ascii) : option Z :=
  let n := nat_of_ascii c in
  if ((48 <=? n) && (n <=? 57))%nat then Some (Z.of_nat (n - 48)) else None.

(** A digit part [digit (["_"] digit)*]: its value and its number of
    digits, from the accumulator [acc] with [cnt] digits read;
    [after_digit] tells whether the previous character was a digit. *)
Fixpoint digitpart (acc : Z) (cnt : nat) (after_digit : bool) (s : string)
  : option (Z * nat) :=
  match s with
  | EmptyString => if after_digit then Some (acc, cnt) else None
  | String c s' =>
      match digit_of c with
      | Some d => digitpart (acc * 10 + d) (S cnt) true s'
      | None =>
          if (Ascii.eqb c "_" && after_digit)%bool
          then digitpart acc cnt false s'
          else None
      end
  end.

(** An optional sign: [(negative, rest)]. *)
Definition split_sign (s : string) : bool * string :=
  match s with
  | String "-" s' => (true, s')
  | String "+" s' => (false, s')
  | _ => (false, s)
  end.

(** [int(s)] for a [str] in base 10; [None] stands for [ValueError]. *)
Definition py_int (s : string) : option Z :=
  let (neg, body) := split_sign (strip s) in
  match digitpart 0 0 false body with
  | Some (v, _) => Some (if neg then (- v)%Z else v)
  | None => None
  end.

(** A Python [float]: a finite value (carried as the rational it
    denotes), an infinity or a NaN. *)
Inductive pyfloat : Type :=
| Finite (q : Q)
| Inf (negative : bool)
| NaN.

(** [a < b] on floats: false as soon as one side is a NaN. *)
Definition float_lt (a b : pyfloat) : bool :=
  match a, b with
  | NaN, _ | _, NaN => false
  | Finite x, Finite y => negb (Qle_bool y x)
  | Finite _, Inf neg => negb neg
  | Inf neg, Finite _ => neg
  | Inf n1, Inf n2 => n1 && negb n2
  end.

(** [s] cut at the first character satisfying [p]:
    [(before, Some after)], or [(s, None)] when there is none. *)
Fixpoint cut_at (p : ascii -> bool) (s : string) : string * option string :=
  match s with
  | EmptyString => (EmptyString, None)
  | String c s' =>
      if p c then (EmptyString, Some s')
      else let (a, b) := cut_at p s' in (String c a, b)
  end.

Definition is_e (c : ascii) : bool := Ascii.eqb c "e" || Ascii.eqb c "E".
Definition is_dot (c : ascii) : bool := Ascii.eqb c ".".

(** A digit part that may be missing: value and number of digits. *)
Definition opt_digitpart (s : string) : option (Z * nat) :=
  match s with
  | EmptyString => Some (0%Z, O)
  | _ => digitpart 0 0 false s
  end.

(** The mantissa [digitpart], [digitpart "."], [[digitpart] "." digitpart]. *)
Definition mantissa (s : string) : option Q :=
  match cut_at is_dot s with
  | (ip, None) =>
      match digitpart 0 0 false ip with
      | Some (v, _) => Some (inject_Z v)
      | None => None
      end
  | (ip, Some fp) =>
      match opt_digitpart ip, opt_digitpart fp with
      | Some (vi, ci), Some (vf, cf) =>
          if ((ci + cf =? 0)%nat) then None
          else Some (inject_Z vi + inject_Z vf / inject_Z (10 ^ Z.of_nat cf))
      | _, _ => None
      end
  end.

(** The exponent ["e" ["+" | "-"] digitpart] after its letter. *)
Definition exponent (s : string) : option Z :=
  let (neg, body) := split_sign s in
  match digitpart 0 0 false body with
  | Some (v, _) => Some (if neg then (- v)%Z else v)
  | None => None
  end.

(** [float(s)] for a [str]; [None] stands for [ValueError].  The value is
    the decimal's own: the rounding to binary64 is left out. *)
Definition py_float (s : string) : option pyfloat :=
  let (neg, body) := split_sign (strip s) in
  let low := lower body in
  if (String.eqb low "inf" || String.eqb low "infinity")%bool then Some (Inf neg)
  else if String.eqb low "nan" then Some NaN
  else
    let sgn (q : Q) := if neg then - q else q in
    match cut_at is_e body with
    | (m, None) =>
        match mantissa m with
        | Some q => Some (Finite (sgn q))
        | None => None
        end
    | (m, Some e) =>
        match mantissa m, exponent e with
        | Some q, Some k => Some (Finite (sgn (q * Qpower 10 k)))
        | _, _ => None
        end
    end.

End PyStr.

(** ** The standard [configparser.ConfigParser], after [read] *)
Module ConfigParser.
Import Py PyStr.
Local Open Scope string_scope.

Record t : Type := mk {
  _sections : gmap string (gmap string string);
  _defaults : gmap string string
}.

Definition default_section : string := "DEFAULT".
Definition optionxform (opt : string) : string := lower opt.
Definition MAX_INTERPOLATION_DEPTH : nat := 10.

(** [_unify_values]: the section's options over the defaults. *)
Definition _unify_values (self : t) (section : string)
  : result (gmap string string) :=
  match _sections self !! section with
  | Some sectiondict => Ok (sectiondict ∪ _defaults self)
  | None =>
      if String.eqb section default_section then Ok (_defaults self)
      else Raise (NoSectionError section)
  end.

Definition is_percent (c : ascii) : bool := Ascii.eqb c "%".
Definition is_rparen (c : ascii) : bool := Ascii.eqb c ")".

Fixpoint has_percent (s : string) : bool :=
  match s with
  | EmptyString => false
  | String c s' => is_percent c || has_percent s'
  end.

(** The reference [%(name)s] after its ["%("]: the name and what follows. *)
Definition key_match (s : string) : option (string * string) :=
  match cut_at is_rparen s with
  | (String c name, Some (String "s" tail)) => Some (String c name, tail)
  | _ => None
  end.

(** [BasicInterpolation._interpolate_some]; [depth] counts the levels
    still allowed, the inner loop is the [while rest:]. *)
Fixpoint _interpolate_some (depth : nat) (opt section : string)
    (map : gmap string string) (rest accum : string) : result string :=
  match depth with
  | O => Raise (InterpolationError opt section)
  | S depth' =>
      (fix loop (n : nat) (rest accum : string) {struct n} : result string :=
         match n with
         | O => Ok accum
         | S n' =>
             match cut_at is_percent rest with
             | (pre, None) => Ok (accum ++ pre)
             | (pre, Some (String "%" tail)) => loop n' tail (accum ++ pre ++ "%")
             | (pre, Some (String "(" tail)) =>
                 match key_match tail with
                 | None => Raise (InterpolationError opt section)
                 | Some (name, tail') =>
                     match map !! optionxform name with
                     | None => Raise (InterpolationError opt section)
                     | Some v =>
                         if has_percent v then
                           match _interpolate_some depth' opt section map v
                                   (accum ++ pre) with
                           | Ok accum' => loop n' tail' accum'
                           | Raise e => Raise e
                           end
                         else loop n' tail' (accum ++ pre ++ v)
                     end
                 end
             | (_, Some _) => Raise (InterpolationError opt section)
             end
         end) (S (String.length rest)) rest accum
  end.

(** [BasicInterpolation.before_get] *)
Definition before_get (opt section : string) (value : string)
    (defaults : gmap string string) : result string :=
  _interpolate_some MAX_INTERPOLATION_DEPTH opt section defaults value "".

(** [ConfigParser.get(section, option)] *)
Definition get (self : t) (section opt : string) : result string :=
  match _unify_values self section with
  | Raise e => Raise e
  | Ok d =>
      let opt := optionxform opt in
      match d !! opt with
      | None => Raise (NoOptionError opt section)
      | Some value => before_get opt section value d
      end
  end.

(** [_get_conv]: the value of [get] through a converter that raises
    [ValueError] where it gives [None]. *)
Definition _get_conv {A} (self : t) (section opt : string)
    (conv : string -> option A) : result A :=
  match get self section opt with
  | Raise e => Raise e
  | Ok value =>
      match conv value with
      | Some v => Ok v
      | None => Raise (ValueError value)
      end
  end.

(** [_convert_to_boolean] with [BOOLEAN_STATES]. *)
Definition _convert_to_boolean (value : string) : option bool :=
  let v := lower value in
  if (String.eqb v "1" || String.eqb v "yes" || String.eqb v "true"
      || String.eqb v "on")%bool then Some true
  else if (String.eqb v "0" || String.eqb v "no" || String.eqb v "false"
           || String.eqb v "off")%bool then Some false
  else None.

Definition getboolean (self : t) (section opt : string) : result bool :=
  _get_conv self section opt _convert_to_boolean.
Definition getint (self : t) (section opt : string) : result Z :=
  _get_conv self section opt py_int.
Definition getfloat (self : t) (section opt : string) : result pyfloat :=
  _get_conv self section opt py_float.

End ConfigParser.

(** ** config.py *)
Module Config.
Import Py PyStr.
Local Open Scope string_scope.

Module UserConfig.
Record t : Type := mk { name : string; password : string }.
End UserConfig.

Module ProductConfig.
Record t : Type := mk {
  name : string; id : string; color : string; version : string;
  payment : string; sets : string
}.
End ProductConfig.

Module BrowserConfig.
Record t : Type := mk {
  type : string; driver_path : string; headless : bool;
  user_agent : string; proxy : string
}.
End BrowserConfig.

Module ProcessConfig.
Record t : Type := mk {
  thread : Z; interval : pyfloat; retry_times : Z; timeout : Z
}.
End ProcessConfig.

Module NotifyConfig.
Record t : Type := mk {
  enable_sound : bool; enable_email : bool; email_to : string;
  email_from : string; email_password : string
}.
End NotifyConfig.

Record AppConfig : Type := mkAppConfig {
  user : UserConfig.t;
  product : ProductConfig.t;
  browser : BrowserConfig.t;
  process : ProcessConfig.t;
  notify : NotifyConfig.t
}.

Definition SUPPORTED_BROWSERS : list string :=
  ["chrome"; "firefox"; "edge"; "safari"].
Definition MAX_THREADS : Z := 20.
Definition MIN_INTERVAL : pyfloat := Finite 0.001.

(** [Config.get] *)
Definition get (config : ConfigParser.t) (section opt : string)
    (default_value : option string) : string :=
  try_except (ConfigParser.get config section opt)
             (if_not_None default_value "").

(** [Config.getboolean] *)
Definition getboolean (config : ConfigParser.t) (section opt : string)
    (default_value : option bool) : bool :=
  try_except (ConfigParser.getboolean config section opt)
             (if_not_None default_value false).

(** [Config.getint] *)
Definition getint (config : ConfigParser.t) (section opt : string)
    (default_value : option Z) : Z :=
  try_except (ConfigParser.getint config section opt)
             (if_not_None default_value 0%Z).

(** [Config.getfloat] *)
Definition getfloat (config : ConfigParser.t) (section opt : string)
    (default_value : option pyfloat) : pyfloat :=
  try_except (ConfigParser.getfloat config section opt)
             (if_not_None default_value (Finite 0)).

(** [Config._parse_config] *)
Definition _parse_config (config : ConfigParser.t) : AppConfig :=
  mkAppConfig
    (UserConfig.mk
       (get config "user" "name" (Some ""))
       (get config "user" "password" (Some "")))
    (ProductConfig.mk
       (get config "product" "name" (Some ""))
       (get config "product" "id" (Some ""))
       (get config "product" "color" (Some ""))
       (get config "product" "version" (Some ""))
       (get config "product" "payment" (Some "全款购买"))
       (get config "product" "sets" (Some "")))
    (BrowserConfig.mk
       (get config "browser" "type" (Some "chrome"))
       (get config "browser" "driverPath" (Some ""))
       (getboolean config "browser" "headless" (Some false))
       (get config "browser" "userAgent" (Some ""))
       (get config "browser" "proxy" (Some "")))
    (ProcessConfig.mk
       (getint config "process" "thread" (Some 1%Z))
       (getfloat config "process" "interval" (Some (Finite 0.001)))
       (getint config "process" "retryTimes" (Some 3%Z))
       (getint config "process" "timeout" (Some 30%Z)))
    (NotifyConfig.mk
       (getboolean config "notify" "enableSound" (Some true))
       (getboolean config "notify" "enableEmail" (Some false))
       (get config "notify" "emailTo" (Some ""))
       (get config "notify" "emailFrom" (Some ""))
       (get config "notify" "emailPassword" (Some ""))).

(** [not s] for a [str]. *)
Definition str_empty (s : string) : bool := String.eqb s "".

(** [x in l] for a list of [str]. *)
Definition str_in (x : string) (l : list string) : bool :=
  existsb (String.eqb x) l.

Definition set_thread (c : AppConfig) (n : Z) : AppConfig :=
  let p := process c in
  mkAppConfig (user c) (product c) (browser c)
    (ProcessConfig.mk n (ProcessConfig.interval p)
       (ProcessConfig.retry_times p) (ProcessConfig.timeout p))
    (notify c).

Definition set_interval (c : AppConfig) (x : pyfloat) : AppConfig :=
  let p := process c in
  mkAppConfig (user c) (product c) (browser c)
    (ProcessConfig.mk (ProcessConfig.thread p) x
       (ProcessConfig.retry_times p) (ProcessConfig.timeout p))
    (notify c).

(** What [validate] leaves behind: the returned errors, the warnings it
    logged, and [app_config] as mutated. *)
Record validation : Type := mkValidation {
  errors : list string;
  warnings : list string;
  app_config : AppConfig
}.

Definition add_if (cond : bool) (msg : string) (l : list string) : list string :=
  if cond then (l ++ [msg])%list else l.

Definition err_name : string := "❌ 用户名不能为空".
Definition err_password : string := "❌ 密码不能为空".
Definition err_product_id : string := "❌ 商品ID不能为空".
Definition err_browser (type : string) : string :=
  "❌ 不支持的浏览器类型: " ++ type.
Definition err_thread : string := "❌ 线程数不能小于1".
Definition warn_color : string := "⚠️ 未配置商品颜色，将使用默认选项".
Definition warn_version : string := "⚠️ 未配置商品版本，将使用默认选项".
Definition warn_headless : string := "⚠️ 无头模式建议配置 userAgent".
Definition warn_thread : string := "⚠️ 线程数超过20，已自动调整".
Definition warn_interval : string := "⚠️ 间隔时间过小，已调整为0.001秒".

(** The errors of the user, product and browser checks, in the order
    [validate] appends them. *)
Definition field_errors (cfg : AppConfig) : list string :=
  (if str_empty (UserConfig.name (user cfg)) then [err_name] else [])
  ++ (if str_empty (UserConfig.password (user cfg)) then [err_password] else [])
  ++ (if str_empty (ProductConfig.id (product cfg)) then [err_product_id] else [])
  ++ (if str_in (BrowserConfig.type (browser cfg)) SUPPORTED_BROWSERS then []
      else [err_browser (BrowserConfig.type (browser cfg))]).

(** [Config.validate] *)
Definition validate (cfg : AppConfig) : validation :=
  let errors := [] in
  let warnings := [] in
  (* user *)
  let errors := add_if (str_empty (UserConfig.name (user cfg))) err_name errors in
  let errors :=
    add_if (str_empty (UserConfig.password (user cfg))) err_password errors in
  (* product *)
  let errors :=
    add_if (str_empty (ProductConfig.id (product cfg))) err_product_id errors in
  let warnings :=
    add_if (str_empty (ProductConfig.color (product cfg))) warn_color warnings in
  let warnings :=
    add_if (str_empty (ProductConfig.version (product cfg))) warn_version warnings in
  (* browser *)
  let errors :=
    add_if (negb (str_in (BrowserConfig.type (browser cfg)) SUPPORTED_BROWSERS))
           (err_browser (BrowserConfig.type (browser cfg))) errors in
  let warnings :=
    add_if (BrowserConfig.headless (browser cfg)
            && str_empty (BrowserConfig.user_agent (browser cfg)))
           warn_headless warnings in
  (* process *)
  let '(errors, warnings, cfg) :=
    if (ProcessConfig.thread (process cfg) <? 1)%Z then
      ((errors ++ [err_thread])%list, warnings, cfg)
    else if (MAX_THREADS <? ProcessConfig.thread (process cfg))%Z then
      (errors, (warnings ++ [warn_thread])%list, set_thread cfg MAX_THREADS)
    else (errors, warnings, cfg) in
  let '(warnings, cfg) :=
    if float_lt (ProcessConfig.interval (process cfg)) MIN_INTERVAL then
      ((warnings ++ [warn_interval])%list, set_interval cfg MIN_INTERVAL)
    else (warnings, cfg) in
  mkValidation errors warnings cfg.

End Config.

(** ** tools/utils.py: the [retry] decorator *)
Module Retry.

(** How a call of the wrapper ends. *)
Inductive outcome (A E : Type) : Type :=
| Returned (a : A)
| Raised (e : E)
| RaisedNone.        (* [raise None]: a TypeError *)
Arguments Returned {A E} a.
Arguments Raised {A E} e.
Arguments RaisedNone {A E}.

Inductive log_record : Type :=
| Warning (attempt : Z)   (* "第{attempt}次执行失败，{delay}秒后重试" *)
| Error.                  (* "执行失败，已重试{max_attempts}次" *)

(** The wrapped function and what the wrapper does around it.  [func k]
    is how the k-th call of the wrapped function ends (it gets the same
    arguments every time); [inl e] raises [e], [inr a] returns [a]. *)
Record Env (A E : Type) : Type := mkEnv {
  func : nat -> E + A;
  calls : nat;             (* calls of [func] made so far *)
  slept : list Q;          (* arguments of time.sleep, latest first *)
  logged : list log_record (* latest first *)
}.
Arguments mkEnv {A E}.
Arguments func {A E}.
Arguments calls {A E}.
Arguments slept {A E}.
Arguments logged {A E}.

Section Wrapper.
Context {A E : Type}.
Variable max_attempts : Z.
Variable delay : Q.
(** [isinstance(e, exceptions)] *)
Variable exceptions : E -> bool.

Definition call (env : Env A E) : (E + A) * Env A E :=
  (func env (calls env),
   mkEnv (func env) (S (calls env)) (slept env) (logged env)).

Definition log (r : log_record) (env : Env A E) : Env A E :=
  mkEnv (func env) (calls env) (slept env) (r :: logged env).

Definition sleep (d : Q) (env : Env A E) : Env A E :=
  mkEnv (func env) (calls env) (d :: slept env) (logged env).

(** The [for attempt in range(1, max_attempts + 1)] loop with [todo]
    passes left, then [raise last_exception]. *)
Fixpoint attempts (todo : nat) (attempt : Z) (last_exception : option E)
    (env : Env A E) : outcome A E * Env A E :=
  match todo with
  | O =>
      (match last_exception with
       | Some e => Raised e
       | None => RaisedNone
       end, env)
  | S todo' =>
      let (r, env) := call env in
      match r with
      | inr a => (Returned a, env)
      | inl e =>
          if exceptions e then
            let env :=
              if (attempt <? max_attempts)%Z
              then sleep delay (log (Warning attempt) env)
              else log Error env in
            attempts todo' (attempt + 1)%Z (Some e) env
          else (Raised e, env)
      end
  end.

(** The [wrapper] that [retry(max_attempts, delay, exceptions)] puts
    around [func]. *)
Definition wrapper (env : Env A E) : outcome A E * Env A E :=
  attempts (Z.to_nat max_attempts) 1%Z None env.

(** The [j]-th call from [env] on raises an exception of the filter. *)
Definition fails_at (env : Env A E) (j : nat) : Prop :=
  exists e, func env (calls env + j) = inl e /\ exceptions e = true.

End Wrapper.

End Retry.

(** ** tools/utils.py: [CookieManager] *)
Module Cookies.
Local Open Scope string_scope.

(** The Python values [json] writes and reads back. *)
#[warnings="-register-all"]
Inductive pyvalue : Type :=
| PyNone
| PyBool (b : bool)
| PyInt (z : Z)
| PyStr (s : string)
| PyList (items : list pyvalue)
| PyDict (items : list (string * pyvalue)).

(** A list of cookie maps. *)
Definition cookie : Type := list (string * pyvalue).
Definition cookie_list (cookies : list cookie) : pyvalue :=
  PyList (map PyDict cookies).

(** The standard [json] module, as an interface: [dumps v] is the text
    [json.dump(v, f, ensure_ascii=False, indent=2)] writes, [loads] is
    [json.load]; reading back what was written gives the value. *)
Class Json : Type := {
  dumps : pyvalue -> string;
  loads : string -> Py.result pyvalue;
  loads_dumps : forall v, loads (dumps v) = Py.Ok v
}.

(** The file system: regular files with their text, and directories. *)
Inductive node : Type :=
| File (text : string)
| Dir.

Abbreviation filesystem := (gmap string node).

(** [os.path.exists] *)
Definition exists_ (fs : filesystem) (path : string) : bool :=
  match fs !! path with
  | Some _ => true
  | None => false
  end.

(** [open(path, 'w')] and writing [text]: creates or truncates a regular
    file; a directory raises. *)
Definition write_text (fs : filesystem) (path text : string)
  : Py.result filesystem :=
  match fs !! path with
  | Some Dir => Py.Raise (Py.OSError path)
  | _ => Py.Ok (<[path := File text]> fs)
  end.

(** [open(path, 'r')] and reading everything. *)
Definition read_text (fs : filesystem) (path : string) : Py.result string :=
  match fs !! path with
  | Some (File text) => Py.Ok text
  | _ => Py.Raise (Py.OSError path)
  end.

(** [os.remove] *)
Definition remove (fs : filesystem) (path : string) : Py.result filesystem :=
  match fs !! path with
  | Some (File _) => Py.Ok (delete path fs)
  | _ => Py.Raise (Py.OSError path)
  end.

Record CookieManager : Type := mkCookieManager { cookie_file : string }.

Section Manager.
Context `{Json}.
(** [constants.COOKIES_FILE], a path under the project directory. *)
Variable COOKIES_FILE : string.

(** [CookieManager.__init__]: [cookie_file or constants.COOKIES_FILE] *)
Definition CookieManager_init (cookie_file : option string) : CookieManager :=
  match cookie_file with
  | Some (String c p) => mkCookieManager (String c p)
  | _ => mkCookieManager COOKIES_FILE
  end.

(** [CookieManager.write] *)
Definition write (self : CookieManager) (cookies : pyvalue)
    (fs : filesystem) : bool * filesystem :=
  match write_text fs (cookie_file self) (dumps cookies) with
  | Py.Ok fs' => (true, fs')
  | Py.Raise _ => (false, fs)
  end.

(** [CookieManager.read]; [PyNone] is the absent value. *)
Definition read (self : CookieManager) (fs : filesystem) : pyvalue :=
  Py.try_except
    (if negb (exists_ fs (cookie_file self)) then Py.Ok PyNone
     else
       match read_text fs (cookie_file self) with
       | Py.Ok text => loads text
       | Py.Raise e => Py.Raise e
       end)
    PyNone.

(** [CookieManager.delete] *)
Definition delete_ (self : CookieManager) (fs : filesystem)
    : bool * filesystem :=
  if exists_ fs (cookie_file self) then
    match remove fs (cookie_file self) with
    | Py.Ok fs' => (true, fs')
    | Py.Raise _ => (false, fs)
    end
  else (true, fs).

End Manager.

End Cookies.

(** ** The JSON text of [json.dump(.., ensure_ascii=False, indent=2)]

    An instance of the interface [Json]: the printer writes what
    [json.dump] writes for these values, the reader is a JSON reader for
    them (numbers with a fraction or an exponent, which no value here
    has, are refused). *)
Module JsonText.
Import Cookies.
Local Open Scope string_scope.

Definition dquote : ascii := "034"%char.
Definition backslash : ascii := "092"%char.
Definition newline : ascii := "010"%char.

Definition hex_digits : list ascii :=
  ["0"; "1"; "2"; "3"; "4"; "5"; "6"; "7"; "8"; "9";
   "a"; "b"; "c"; "d"; "e"; "f"]%char.

Definition hex (n : nat) : ascii := nth n hex_digits "0"%char.

(** The escape of one character of a string, with [ensure_ascii=False]. *)
Definition escape_char (c : ascii) : string :=
  let n := nat_of_ascii c in
  let esc (e : ascii) := String backslash (String e EmptyString) in
  if (n =? 34)%nat then esc dquote
  else if (n =? 92)%nat then esc backslash
  else if (n =? 8)%nat then esc "b"%char
  else if (n =? 12)%nat then esc "f"%char
  else if (n =? 10)%nat then esc "n"%char
  else if (n =? 13)%nat then esc "r"%char
  else if (n =? 9)%nat then esc "t"%char
  else if (n <? 32)%nat then
    String backslash (String "u" (String "0" (String "0"
      (String (hex (n / 16)) (String (hex (n mod 16)) EmptyString)))))
  else String c EmptyString.

Fixpoint escape (s : string) : string :=
  match s with
  | EmptyString => EmptyString
  | String c s' => escape_char c ++ escape s'
  end.

Definition print_string (s : string) : string :=
  String dquote (escape s ++ String dquote EmptyString).

Definition print_int (z : Z) : string := NilZero.string_of_int (Z.to_int z).

Fixpoint indent (level : nat) : string :=
  match level with
  | O => EmptyString
  | S level' => "  " ++ indent level'
  end.

(** A line break and the indentation of [level]. *)
Definition break (level : nat) : string := String newline (indent level).

(** The texts [f x] of the items of [l], one after the other. *)
Fixpoint join {A} (f : A -> string) (l : list A) : string :=
  match l with
  | [] => EmptyString
  | x :: l' => f x ++ join f l'
  end.

Fixpoint print (level : nat) (v : pyvalue) : string :=
  match v with
  | PyNone => "null"
  | PyBool true => "true"
  | PyBool false => "false"
  | PyInt z => print_int z
  | PyStr s => print_string s
  | PyList [] => "[]"
  | PyList (x :: xs) =>
      "[" ++ break (S level) ++ print (S level) x
      ++ join (fun y => "," ++ break (S level) ++ print (S level) y) xs
      ++ break level ++ "]"
  | PyDict [] => "{}"
  | PyDict (m :: ms) =>
      let member (m : string * pyvalue) :=
        print_string (fst m) ++ ": " ++ print (S level) (snd m) in
      "{" ++ break (S level) ++ member m
      ++ join (fun m' => "," ++ break (S level) ++ member m') ms
      ++ break level ++ "}"
  end.

Definition json_dumps (v : pyvalue) : string := print 0 v.

(** Reading *)

Definition is_ws (c : ascii) : bool :=
  let n := nat_of_ascii c in
  ((n =? 32) || (n =? 10) || (n =? 13) || (n =? 9))%nat.

Fixpoint skip_ws (s : string) : string :=
  match s with
  | String c s' => if is_ws c then skip_ws s' else s
  | EmptyString => EmptyString
  end.

Fixpoint index_of (c : ascii) (l : list ascii) : option nat :=
  match l with
  | [] => None
  | x :: l' => if Ascii.eqb c x then Some O else option_map S (index_of c l')
  end.

Definition unhex (c : ascii) : option nat :=
  match index_of c hex_digits with
  | Some n => Some n
  | None =>
      match index_of c ["A"; "B"; "C"; "D"; "E"; "F"]%char with
      | Some n => Some (10 + n)%nat
      | None => None
      end
  end.

(** The UTF-8 bytes of a code point of the basic plane outside the
    surrogates; [None] for the others. *)
Definition utf8 (code : N) : option string :=
  if (code <? 128)%N then Some (String (ascii_of_N code) EmptyString)
  else if (code <? 2048)%N then
    Some (String (ascii_of_N (192 + code / 64))
           (String (ascii_of_N (128 + code mod 64)) EmptyString))
  else if ((55296 <=? code) && (code <? 57344))%N then None
  else
    Some (String (ascii_of_N (224 + code / 4096))
           (String (ascii_of_N (128 + (code / 64) mod 64))
             (String (ascii_of_N (128 + code mod 64)) EmptyString))).

(** The characters of a string after its opening quote: the string and
    what follows the closing quote. *)
Fixpoint read_chars (s : string) : option (string * string) :=
  match s with
  | EmptyString => None
  | String c r =>
      if Ascii.eqb c dquote then Some (EmptyString, r)
      else if Ascii.eqb c backslash then
        match r with
        | String e r' =>
            let plain (x : ascii) :=
              match read_chars r' with
              | Some (t, rest) => Some (String x t, rest)
              | None => None
              end in
            if Ascii.eqb e dquote then plain dquote
            else if Ascii.eqb e backslash then plain backslash
            else if Ascii.eqb e "/" then plain "/"%char
            else if Ascii.eqb e "b" then plain "008"%char
            else if Ascii.eqb e "f" then plain "012"%char
            else if Ascii.eqb e "n" then plain "010"%char
            else if Ascii.eqb e "r" then plain "013"%char
            else if Ascii.eqb e "t" then plain "009"%char
            else if Ascii.eqb e "u" then
              match r' with
              | String h1 (String h2 (String h3 (String h4 r''))) =>
                  match unhex h1, unhex h2, unhex h3, unhex h4 with
                  | Some a, Some b, Some c', Some d =>
                      match utf8 (N.of_nat (((a * 16 + b) * 16 + c') * 16 + d)),
                            read_chars r'' with
                      | Some bytes, Some (t, rest) => Some (bytes ++ t, rest)
                      | _, _ => None
                      end
                  | _, _, _, _ => None
                  end
              | _ => None
              end
            else None
        | EmptyString => None
        end
      else if (nat_of_ascii c <? 32)%nat then None
      else
        match read_chars r with
        | Some (t, rest) => Some (String c t, rest)
        | None => None
        end
  end.

Definition is_digit (c : ascii) : bool :=
  let n := nat_of_ascii c in ((48 <=? n) && (n <=? 57))%nat.

(** The longest prefix of digits, and the rest. *)
Fixpoint span_digits (s : string) : string * string :=
  match s with
  | String c s' =>
      if is_digit c then let (d, r) := span_digits s' in (String c d, r)
      else (EmptyString, s)
  | EmptyString => (EmptyString, EmptyString)
  end.

(** After a number no fraction and no exponent may follow: those are
    floats, which the values here do not have. *)
Definition starts_fraction (s : string) : bool :=
  match s with
  | String c _ => Ascii.eqb c "." || Ascii.eqb c "e" || Ascii.eqb c "E"
  | EmptyString => false
  end.

(** The text of an integer at the head of [s], an optional minus sign
    and the digits after it, and the rest. *)
Definition read_token (s : string) : string * string :=
  match s with
  | String "-" s' => let (digits, rest) := span_digits s' in
                     (String "-" digits, rest)
  | _ => span_digits s
  end.

(** An integer: its value and the rest.  The text has to be the one the
    value is written as (so no leading zero), apart from [-0]. *)
Definition read_int (s : string) : option (Z * string) :=
  let (token, rest) := read_token s in
  if starts_fraction rest then None
  else
    match NilZero.int_of_string token with
    | Some d =>
        if String.eqb (print_int (Z.of_int d)) token
        then Some (Z.of_int d, rest)
        else if String.eqb token "-0" then Some (0%Z, rest)
        else None
    | None => None
    end.

(** What may follow a value: nothing, or a character that continues no
    number. *)
Definition value_end (s : string) : bool :=
  match s with
  | EmptyString => true
  | String c _ =>
      negb (is_digit c || Ascii.eqb c "." || Ascii.eqb c "e" || Ascii.eqb c "E")
  end.

(** [s] without the prefix [p], when it starts with it. *)
Fixpoint strip_prefix (p s : string) : option string :=
  match p, s with
  | EmptyString, _ => Some s
  | String a p', String b s' => if Ascii.eqb a b then strip_prefix p' s' else None
  | String _ _, EmptyString => None
  end.

(** The items of an array after its bracket, each read by [rd]; [n]
    bounds their number. *)
Fixpoint read_items (rd : string -> option (pyvalue * string)) (n : nat)
    (s : string) (acc : list pyvalue) : option (pyvalue * string) :=
  match n with
  | O => None
  | S n' =>
      match rd s with
      | Some (v, rest) =>
          match skip_ws rest with
          | String "," rest' => read_items rd n' rest' (v :: acc)
          | String "]" rest' => Some (PyList (rev (v :: acc)), rest')
          | _ => None
          end
      | None => None
      end
  end.

(** The members of an object after its brace. *)
Fixpoint read_members (rd : string -> option (pyvalue * string)) (n : nat)
    (s : string) (acc : list (string * pyvalue)) : option (pyvalue * string) :=
  match n with
  | O => None
  | S n' =>
      match skip_ws s with
      | String q s1 =>
          if Ascii.eqb q dquote then
            match read_chars s1 with
            | Some (k, s2) =>
                match skip_ws s2 with
                | String ":" s3 =>
                    match rd s3 with
                    | Some (v, rest) =>
                        match skip_ws rest with
                        | String "," rest' =>
                            read_members rd n' rest' ((k, v) :: acc)
                        | String "}" rest' =>
                            Some (PyDict (rev ((k, v) :: acc)), rest')
                        | _ => None
                        end
                    | None => None
                    end
                | _ => None
                end
            | None => None
            end
          else None
      | EmptyString => None
      end
  end.

(** A value, and what follows it.  [fuel] bounds the nesting. *)
Fixpoint read (fuel : nat) (s : string) : option (pyvalue * string) :=
  match fuel with
  | O => None
  | S fuel' =>
      match skip_ws s with
      | EmptyString => None
      | String c r =>
          if Ascii.eqb c "n" then option_map (pair PyNone) (strip_prefix "ull" r)
          else if Ascii.eqb c "t" then
            option_map (pair (PyBool true)) (strip_prefix "rue" r)
          else if Ascii.eqb c "f" then
            option_map (pair (PyBool false)) (strip_prefix "alse" r)
          else if Ascii.eqb c dquote then
            match read_chars r with
            | Some (t, rest) => Some (PyStr t, rest)
            | None => None
            end
          else if Ascii.eqb c "[" then
            match skip_ws r with
            | String "]" rest => Some (PyList [], rest)
            | _ => read_items (read fuel') (String.length r) r []
            end
          else if Ascii.eqb c "{" then
            match skip_ws r with
            | String "}" rest => Some (PyDict [], rest)
            | _ => read_members (read fuel') (String.length r) r []
            end
          else
            match read_int (String c r) with
            | Some (z, rest) => Some (PyInt z, rest)
            | None => None
            end
      end
  end.

(** [json.load]: one value and nothing but white space after it. *)
Definition json_loads (s : string) : option pyvalue :=
  match read (String.length s) s with
  | Some (v, rest) =>
      match skip_ws rest with
      | EmptyString => Some v
      | _ => None
      end
  | None => None
  end.

(** [json.load], with its exception. *)
Definition json_load (s : string) : Py.result pyvalue :=
  match json_loads s with
  | Some v => Py.Ok v
  | None => Py.Raise Py.JSONDecodeError
  end.

(** An item of an array after the first, and a member of an object, as
    [print] writes them at [level]. *)
Definition print_item (level : nat) (y : pyvalue) : string :=
  "," ++ break (S level) ++ print (S level) y.

Definition print_member (level : nat) (m : string * pyvalue) : string :=
  print_string (fst m) ++ ": " ++ print (S level) (snd m).

Definition print_more (level : nat) (m : string * pyvalue) : string :=
  "," ++ break (S level) ++ print_member level m.

(** A character that starts a value and closes nothing. *)
Definition opens_value (c : ascii) : bool :=
  negb (is_ws c) && negb (Ascii.eqb c "]") && negb (Ascii.eqb c "}").

End JsonText.

(** ** Sample inputs *)
Module Examples.
Import TimeUtils Config Cookies.
Local Open Scope string_scope.

(** Three rounds that succeed with diffs -50, 10 and 1000. *)
Definition world_three : World :=
  mkWorld (fun k => nth k [1000; 1000; 2000; 2000; 3000; 3000] 4000)%Z 0
          (fun k => nth k [Response true (Some (Some 1050%Z));
                           Response true (Some (Some 1990%Z));
                           Response true (Some (Some 2000%Z))] RequestFailed)
          0 []
          (fun _ => true).

(** A server that never answers. *)
Definition world_offline : World :=
  mkWorld (fun k => 5000 + Z.of_nat k)%Z 0 (fun _ => RequestFailed) 0 []
          (fun _ => true).

(** A timer that opens at second 100 of the epoch. *)
Definition timer_open_at_100 : CountdownTimer :=
  set_target (CountdownTimer_init TimeSync_init) (mkDatetime 100).

(** The least configuration that validates. *)
Definition cfg_minimal : AppConfig :=
  mkAppConfig (UserConfig.mk "user" "secret")
    (ProductConfig.mk "" "10086" "" "" "全款购买" "")
    (BrowserConfig.mk "chrome" "" false "" "")
    (ProcessConfig.mk 1 (PyStr.Finite 0.001) 3 30)
    (NotifyConfig.mk true false "" "" "").

(** A file whose only line is [thread=abc] under [[process]]. *)
Definition file_thread_abc : ConfigParser.t :=
  ConfigParser.mk {[ "process" := {[ "thread" := "abc" ]} ]} ∅.

(** A function that raises twice and then returns 7. *)
Definition flaky : Retry.Env Z string :=
  Retry.mkEnv (fun k => if (k <? 2)%nat then inl "boom" else inr 7%Z) 0 [] [].

(** A function that raises on every call, naming the call. *)
Definition hopeless : Retry.Env Z nat :=
  Retry.mkEnv (fun k => inl k) 0 [] [].

(** Two cookie maps. *)
Definition two_cookies : list cookie :=
  [[("name", PyStr "sid"); ("value", PyStr "abc"); ("secure", PyBool true)];
   [("name", PyStr "uid"); ("value", PyStr "42"); ("expiry", PyInt 1700000000)]].

End Examples.

(** ** tools/time_utils.py: the functions of the old interface *)
Module TimeLegacy.
Import Py PyNum TimeUtils.
Local Open Scope string_scope.

(** [local_time] *)
Definition local_time : M Z := _local_time.

(** [local_hw_time_diff]: a [sync] on a new [TimeSync]. *)
Definition local_hw_time_diff : M (result sample) :=
  do r <- sync TimeSync_init;
  ret (fst r).

(** [milliseconds_diff] *)
Definition milliseconds_diff (local_timestamp hw_server_timestamp : num) : num :=
  sub local_timestamp hw_server_timestamp.

(** [calc_countdown_ms_diff] *)
Definition calc_countdown_ms_diff (target_date_time : datetime) (ms_diff : num)
  : M num :=
  do now <- local_time;
  let local_timestamp := sub (Int now) ms_diff in
  let target_timestamp :=
    Int (int_of_float (timestamp target_date_time * 1000)) in
  ret (sub target_timestamp local_timestamp).

Definition countdown_time_units : list string :=
  ["天"; "时"; "分"; "秒"; "毫秒"].

(** The loop of [format_countdown_time] from index [i] on; [None] stands
    for the [IndexError] of [countdown_time_units[i]]. *)
Fixpoint format_units (i : nat) (countdown_times : list string)
  : option (list string) :=
  match countdown_times with
  | [] => Some []
  | t :: rest =>
      match nth_error countdown_time_units i with
      | None => None
      | Some unit =>
          match format_units (S i) rest with
          | None => None
          | Some parts => Some ((t ++ unit) :: parts)
          end
      end
  end.

(** [format_countdown_time] *)
Definition format_countdown_time (countdown_times : list string)
  : option string :=
  match format_units 0 countdown_times with
  | None => None
  | Some parts => Some (String.concat " " parts)
  end.

End TimeLegacy.

(** ** tools/utils.py: [write_cookies] and [read_cookies] *)
Module CookiesLegacy.
Import Cookies.

Section Legacy.
Context `{Json}.
Variable COOKIES_FILE : string.

(** [write_cookies]: [CookieManager().write(cookies)], its result
    dropped. *)
Definition write_cookies (cookies : pyvalue) (fs : filesystem) : filesystem :=
  snd (write (CookieManager_init COOKIES_FILE None) cookies fs).

(** [read_cookies] *)
Definition read_cookies (fs : filesystem) : pyvalue :=
  read (CookieManager_init COOKIES_FILE None) fs.

End Legacy.

End CookiesLegacy.

(** ** tools/utils.py: [get_profile_path] and [Statistics] *)
Module Utils.
Import Py PyNum.
Local Open Scope string_scope.

Definition is_sep (c : ascii) : bool := Ascii.eqb c "/".

Fixpoint endswith_sep (s : string) : bool :=
  match s with
  | EmptyString => false
  | String c EmptyString => is_sep c
  | String _ s' => endswith_sep s'
  end.

(** [os.path.join(a, b)] of [posixpath]: an absolute [b] replaces [a];
    otherwise [b] is appended, after a separator unless [a] is empty or
    ends with one. *)
Definition path_join (a b : string) : string :=
  match b with
  | String "/" _ => b
  | _ =>
      if (String.eqb a "" || endswith_sep a)%bool then a ++ b
      else a ++ "/" ++ b
  end.

(** [get_profile_path] *)
Definition get_profile_path (base_profile_path browser_type : string)
    (serial_no : Z) : string :=
  let base_browser_profile_path := path_join base_profile_path browser_type in
  let profile_path :=
    path_join base_browser_profile_path
              ("profile_" ++ JsonText.print_int serial_no) in
  profile_path.

(** [time.time()]: the k-th reading of the clock, in seconds. *)
Record Clock : Type := mkClock {
  time : nat -> Q;
  time_reads : nat
}.

Definition time_time (clk : Clock) : Q * Clock :=
  (time clk (time_reads clk), mkClock (time clk) (S (time_reads clk))).

(** The object state of [Statistics]. *)
Record Statistics : Type := mkStatistics {
  start_time : option Q;
  attempt_count : Z;
  success : bool;
  error_count : Z;
  last_error : string
}.

(** [Statistics.__init__] *)
Definition Statistics_init : Statistics := mkStatistics None 0 false 0 "".

(** [Statistics.start] *)
Definition start (self : Statistics) (clk : Clock) : Statistics * Clock :=
  let (now, clk) := time_time clk in
  (mkStatistics (Some now) 0 false 0 (last_error self), clk).

(** [Statistics.record_attempt] *)
Definition record_attempt (self : Statistics) : Statistics :=
  mkStatistics (start_time self) (attempt_count self + 1) (success self)
    (error_count self) (last_error self).

(** [Statistics.record_error] *)
Definition record_error (self : Statistics) (error : string) : Statistics :=
  mkStatistics (start_time self) (attempt_count self) (success self)
    (error_count self + 1) error.

(** [Statistics.record_success] *)
Definition record_success (self : Statistics) : Statistics :=
  mkStatistics (start_time self) (attempt_count self) true
    (error_count self) (last_error self).

(** [Statistics.get_elapsed_time]: [if self.start_time] is false for
    [None] and for 0.0. *)
Definition get_elapsed_time (self : Statistics) (clk : Clock) : num * Clock :=
  match start_time self with
  | Some t =>
      if Qeq_bool t 0 then (Int 0, clk)
      else let (now, clk) := time_time clk in (Float (now - t), clk)
  | None => (Int 0, clk)
  end.

(** A use of a [Statistics] object: the calls made on it, in order. *)
Inductive call : Type :=
| Start
| RecordAttempt
| RecordError (error : string)
| RecordSuccess.

Definition do_call (c : call) (self : Statistics) (clk : Clock)
  : Statistics * Clock :=
  match c with
  | Start => start self clk
  | RecordAttempt => (record_attempt self, clk)
  | RecordError error => (record_error self error, clk)
  | RecordSuccess => (record_success self, clk)
  end.

Fixpoint do_calls (cs : list call) (self : Statistics) (clk : Clock)
  : Statistics * Clock :=
  match cs with
  | [] => (self, clk)
  | c :: cs' => let (self, clk) := do_call c self clk in do_calls cs' self clk
  end.

Definition is_start (c : call) : bool :=
  match c with Start => true | _ => false end.
Definition is_attempt (c : call) : bool :=
  match c with RecordAttempt => true | _ => false end.
Definition is_error (c : call) : bool :=
  match c with RecordError _ => true | _ => false end.
Definition is_success (c : call) : bool :=
  match c with RecordSuccess => true | _ => false end.

(** The error recorded last in [cs], [d] when there is none. *)
Fixpoint last_recorded (cs : list call) (d : string) : string :=
  match cs with
  | [] => d
  | RecordError error :: cs' => last_recorded cs' error
  | _ :: cs' => last_recorded cs' d
  end.

End Utils.

(** ** config.py: [validate_and_display] *)
Module ConfigReport.
Import Config.

(** [Config.validate_and_display]: what it returns, and [app_config] as
    [validate] leaves it.  The panel, the table of [display] and the
    lines it prints change nothing and are left out. *)
Definition validate_and_display (cfg : AppConfig) : bool * AppConfig :=
  let v := validate cfg in
  (match errors v with
   | [] => true       (* [if errors:] is false *)
   | _ :: _ => false
   end, app_config v).

End ConfigReport.

(** ** config.py: the defaults of the dataclasses *)
Module ConfigDefaults.
Import PyStr Config.
Local Open Scope string_scope.

(** [UserConfig()], [ProductConfig()], [BrowserConfig()],
    [ProcessConfig()], [NotifyConfig()] and [AppConfig()]: every field
    at the default its dataclass declares. *)
Definition UserConfig_default : UserConfig.t := UserConfig.mk "" "".
Definition ProductConfig_default : ProductConfig.t :=
  ProductConfig.mk "" "" "" "" "全款购买" "".
Definition BrowserConfig_default : BrowserConfig.t :=
  BrowserConfig.mk "chrome" "" false "" "".
Definition ProcessConfig_default : ProcessConfig.t :=
  ProcessConfig.mk 1 (Finite 0.001) 3 30.
Definition NotifyConfig_default : NotifyConfig.t :=
  NotifyConfig.mk true false "" "" "".
Definition AppConfig_default : AppConfig :=
  mkAppConfig UserConfig_default ProductConfig_default BrowserConfig_default
    ProcessConfig_default NotifyConfig_default.

End ConfigDefaults.

(** ** browser/chrome.py: the options of [ChromeBrowser.setting] *)
Module Chrome.
Import Py Cookies Config.
Local Open Scope string_scope.

(** [constants.Defaults.USER_AGENT] *)
Definition USER_AGENT : string :=
  "Mozilla/5.0 (Windows NT 10.0; Win64; x64) "
  ++ "AppleWebKit/537.36 (KHTML, like Gecko) "
  ++ "Chrome/120.0.0.0 Safari/537.36".

(** [webdriver.ChromeOptions], as far as [setting] writes it: the
    command-line arguments in the order they were added, the page load
    strategy and the experimental options. *)
Record ChromeOptions : Type := mkChromeOptions {
  arguments : list string;
  page_load_strategy : string;
  experimental_options : gmap string pyvalue
}.

(** [webdriver.ChromeOptions()] *)
Definition ChromeOptions_init : ChromeOptions := mkChromeOptions [] "normal" ∅.

(** [options.add_argument(argument)].  Every argument of this module is
    a non-empty text, which [add_argument] appends. *)
Definition add_argument (argument : string) (options : ChromeOptions)
  : ChromeOptions :=
  mkChromeOptions (arguments options ++ [argument])
    (page_load_strategy options) (experimental_options options).

(** [options.page_load_strategy = strategy] *)
Definition set_page_load_strategy (strategy : string) (options : ChromeOptions)
  : ChromeOptions :=
  mkChromeOptions (arguments options) strategy (experimental_options options).

(** [options.add_experimental_option(name, value)] *)
Definition add_experimental_option (name : string) (value : pyvalue)
    (options : ChromeOptions) : ChromeOptions :=
  mkChromeOptions (arguments options) (page_load_strategy options)
    (<[name := value]> (experimental_options options)).

(** [ChromeBrowser._add_performance_options] *)
Definition _add_performance_options (options : ChromeOptions) : ChromeOptions :=
  let options := add_argument "--disable-gpu" options in
  let options := add_argument "--disable-extensions" options in
  let options := add_argument "--disable-dev-shm-usage" options in
  let options := add_argument "--no-sandbox" options in
  let options := add_argument "--disable-infobars" options in
  let options := set_page_load_strategy "eager" options in
  let options := add_argument "--disable-background-networking" options in
  let options := add_argument "--no-default-browser-check" options in
  let options := add_argument "--disable-translate" options in
  let options := add_argument "--disable-sync" options in
  options.

(** [ChromeBrowser._add_security_options] *)
Definition _add_security_options (options : ChromeOptions) : ChromeOptions :=
  let options := add_argument "--ignore-certificate-errors" options in
  let options := add_argument "--ignore-certificate-errors-spki-list" options in
  let options := add_argument "--ignore-ssl-errors" options in
  let options := add_argument "--ignore-ssl-error" options in
  let options := add_argument "--log-level=3" options in
  let options := add_argument "--allow-running-insecure-content" options in
  options.

(** [ChromeBrowser._add_anti_detection_options] *)
Definition _add_anti_detection_options (options : ChromeOptions)
  : ChromeOptions :=
  let options :=
    add_experimental_option "excludeSwitches"
      (PyList [PyStr "enable-logging"; PyStr "enable-automation"]) options in
  let options :=
    add_experimental_option "useAutomationExtension" (PyBool false) options in
  let prefs :=
    PyDict [("credentials_enable_service", PyBool false);
            ("profile.password_manager_enabled", PyBool false);
            ("profile.default_content_setting_values.notifications", PyInt 2)] in
  let options := add_experimental_option "prefs" prefs options in
  options.

(** The options that [ChromeBrowser.setting] hands to [_create_browser]
    (lines 36-67); [config] is [None] or a [Config] object, which is
    always true as a condition. *)
Definition setting_options (config : option ConfigParser.t)
    (user_data_dir : string) : ChromeOptions :=
  let options := ChromeOptions_init in
  let options :=
    if negb (str_empty user_data_dir) then
      let options :=
        add_argument ("--user-data-dir=" ++ user_data_dir) options in
      add_argument "--profile-directory=Default" options
    else options in
  let options :=
    match config with
    | Some config =>
        if getboolean config "browser" "headless" (Some false) then
          let options := add_argument "--headless=new" options in
          let default_user_agent := USER_AGENT in
          let user_agent :=
            get config "browser" "userAgent" (Some default_user_agent) in
          let options := add_argument ("user-agent=" ++ user_agent) options in
          add_argument "--window-size=1920,1080" options
        else options
    | None => options
    end in
  let options :=
    match config with
    | Some config =>
        let proxy := get config "browser" "proxy" (Some "") in
        if negb (str_empty proxy)
        then add_argument ("--proxy-server=" ++ proxy) options
        else options
    | None => options
    end in
  let options := _add_performance_options options in
  let options := _add_security_options options in
  let options := _add_anti_detection_options options in
  options.

(** The arguments that the three helper methods add, whatever the
    configuration. *)
Definition fixed_arguments : list string :=
  arguments (_add_anti_detection_options
               (_add_security_options
                  (_add_performance_options ChromeOptions_init))).

End Chrome.

(** ** More sample inputs *)
Module MoreExamples.
Import PyNum TimeUtils Config Cookies Utils.
Local Open Scope string_scope.

(** The sample of a round with the clock readings [t0] and [t1] around
    the answer [srv]. *)
Definition sample_at (t0 t1 srv : Z) : sample :=
  let local_ts := add (Int t0) (truediv (sub (Int t1) (Int t0)) (Int 2)) in
  (Int srv, local_ts, sub local_ts (Int srv)).

(** A first request that fails, then two rounds with diffs 10 and 0. *)
Definition world_two : World :=
  mkWorld (fun k => nth k [1000; 1000; 2000; 2000; 3000; 3000] 4000)%Z 0
          (fun k => nth k [RequestFailed;
                           Response true (Some (Some 1990%Z));
                           Response true (Some (Some 3000%Z))] RequestFailed)
          0 []
          (fun _ => true).

(** A clock at 98 s for two readings and at 99.95 s from then on. *)
Definition world_countdown : World :=
  mkWorld (fun k => if (k <? 2)%nat then 98000 else 99950)%Z 0
          (fun _ => RequestFailed) 0 [] (fun _ => true).

(** A function that raises a retryable exception once and then one that
    is not. *)
Definition fatal_second : Retry.Env Z string :=
  Retry.mkEnv (fun k => if (k <? 1)%nat then inl "busy" else inl "fatal") 0 [] [].

Definition only_busy (e : string) : bool := String.eqb e "busy".

(** A clock that reads 100.5, 101.5, 102.5, ... seconds. *)
Definition clock_from_100 : Clock :=
  mkClock (fun k => inject_Z (Z.of_nat k) + 100.5) 0.

(** A file whose password ends with a percent sign. *)
Definition file_password_percent : ConfigParser.t :=
  ConfigParser.mk {[ "user" := {[ "name" := "user"; "password" := "abc%" ]} ]} ∅.

(** A file that turns the headless mode on and says nothing else. *)
Definition file_headless : ConfigParser.t :=
  ConfigParser.mk {[ "browser" := {[ "headless" := "true" ]} ]} ∅.

End MoreExamples.

(** * Properties *)

(** ** Sorting by [diff] *)
Module SortFacts.
Import PyNum TimeUtils.

Lemma lt_false_le (a b : num) : lt a b = false -> value b <= value a.
Proof.
  unfold lt. intros H. apply negb_false_iff in H. now apply Qle_bool_iff.
Qed.

Lemma lt_true_le (a b : num) : lt a b = true -> value a <= value b.
Proof.
  unfold lt. intros H. apply negb_true_iff in H.
  apply Qlt_le_weak, Qnot_le_lt. intros Hle.
  apply Qle_bool_iff in Hle. congruence.
Qed.

Lemma insert_by_diff_perm (x : sample) (l : list sample) :
  Permutation (insert_by_diff x l) (x :: l).
Proof.
  induction l as [|y l IH]; simpl.
  - reflexivity.
  - destruct (lt (sample_diff y) (sample_diff x)).
    + rewrite IH. apply perm_swap.
    + reflexivity.
Qed.

Lemma sort_by_diff_perm (l : list sample) : Permutation (sort_by_diff l) l.
Proof.
  induction l as [|x l IH]; simpl.
  - reflexivity.
  - rewrite insert_by_diff_perm. now apply perm_skip.
Qed.

Lemma sort_by_diff_length (l : list sample) :
  length (sort_by_diff l) = length l.
Proof. apply Permutation_length, sort_by_diff_perm. Qed.

Lemma insert_by_diff_sorted (x : sample) (l : list sample) :
  StronglySorted diff_le l -> StronglySorted diff_le (insert_by_diff x l).
Proof.
  induction 1 as [|y l Hs IH Hy]; simpl.
  - repeat constructor.
  - destruct (lt (sample_diff y) (sample_diff x)) eqn:E.
    + apply lt_true_le in E.
      constructor; [exact IH|].
      eapply Permutation_Forall; [symmetry; apply insert_by_diff_perm|].
      now constructor.
    + apply lt_false_le in E.
      constructor; [now constructor|].
      constructor; [exact E|].
      eapply Forall_impl; [exact Hy|].
      intros z Hz. unfold diff_le in *.
      now apply Qle_trans with (value (sample_diff y)).
Qed.

Lemma sort_by_diff_sorted (l : list sample) :
  StronglySorted diff_le (sort_by_diff l).
Proof.
  induction l as [|x l IH]; simpl.
  - constructor.
  - now apply insert_by_diff_sorted.
Qed.

(** The index [len(samples) // 2] is inside a non-empty list. *)
Lemma median_index_in_range (first : sample) (rest : list sample) :
  nth_error (sort_by_diff (first :: rest)) (length (first :: rest) / 2)
  = Some (median_sample first rest).
Proof.
  unfold median_sample. apply nth_error_nth'.
  rewrite sort_by_diff_length.
  apply Nat.div_lt; simpl; lia.
Qed.

Lemma perm3_cases {A} (x y z a b c : A) :
  Permutation [x; y; z] [a; b; c] ->
  (x = a /\ y = b /\ z = c) \/ (x = a /\ y = c /\ z = b) \/
  (x = b /\ y = a /\ z = c) \/ (x = b /\ y = c /\ z = a) \/
  (x = c /\ y = a /\ z = b) \/ (x = c /\ y = b /\ z = a).
Proof.
  intros P.
  assert (Hx : In x [a; b; c]).
  { eapply Permutation_in; [exact P|]. now left. }
  destruct Hx as [->|[->|[->|[]]]].
  - apply Permutation_cons_inv, Permutation_length_2_inv in P.
    destruct P as [P|P]; injection P as -> ->; intuition.
  - assert (P' : Permutation (x :: [y; z]) (x :: [a; c])).
    { rewrite P. apply perm_swap. }
    apply Permutation_cons_inv, Permutation_length_2_inv in P'.
    destruct P' as [P'|P']; injection P' as -> ->; intuition.
  - assert (P' : Permutation (x :: [y; z]) (x :: [a; b])).
    { rewrite P. change [a; b; x] with ([a; b] ++ [x]).
      symmetry. apply Permutation_cons_append. }
    apply Permutation_cons_inv, Permutation_length_2_inv in P'.
    destruct P' as [P'|P']; injection P' as -> ->; intuition.
Qed.

End SortFacts.

(** ** [TimeSync.sync] *)
Module TimeSyncSpec.
Import Py PyNum TimeUtils SortFacts.

Lemma sample_round_eq (samples : list sample) (w : World) :
  sample_round samples w =
  (samples ++ round_sample w 0,
   mkWorld (clock w) (S (S (clock_reads w))) (endpoint w) (S (requests w))
     (0.1 :: slept w) (fromtimestamp_ok w)).
Proof.
  unfold round_sample.
  replace (requests w + 0)%nat with (requests w) by lia.
  replace (clock_reads w + 2 * 0 + 1)%nat with (S (clock_reads w)) by lia.
  replace (clock_reads w + 2 * 0)%nat with (clock_reads w) by lia.
  unfold sample_round, bind, ret, _local_time, _server_time, sleep, server.
  cbn [clock clock_reads endpoint requests slept fromtimestamp_ok].
  destruct (answer (endpoint w (requests w))) as [s|];
    [destruct (truthy (Int s))|]; rewrite ?app_nil_r; reflexivity.
Qed.

Lemma collect_samples_eq (w : World) :
  collect_samples w =
  (round_sample w 0 ++ round_sample w 1 ++ round_sample w 2, after_rounds w).
Proof.
  unfold collect_samples, for_range, bind, ret, after_rounds.
  rewrite !sample_round_eq. cbn [fst app].
  unfold round_sample at 2 3. unfold server.
  cbn [clock clock_reads endpoint requests slept fromtimestamp_ok].
  unfold round_sample at 2 3. unfold server.
  replace (S (requests w) + 0)%nat with (requests w + 1)%nat by lia.
  replace (S (S (requests w)) + 0)%nat with (requests w + 2)%nat by lia.
  replace (S (S (clock_reads w)) + 2 * 0)%nat
    with (clock_reads w + 2 * 1)%nat by lia.
  replace (S (S (S (S (clock_reads w)))) + 2 * 0)%nat
    with (clock_reads w + 2 * 2)%nat by lia.
  replace (S (S (S (S (S (S (clock_reads w)))))))
    with (clock_reads w + 6)%nat by lia.
  replace (S (S (S (requests w)))) with (requests w + 3)%nat by lia.
  rewrite app_assoc. reflexivity.
Qed.

Lemma truthy_Int (s : Z) : truthy (Int s) = negb (s =? 0)%Z.
Proof.
  unfold truthy, value, Qeq_bool. cbn [Qnum Qden inject_Z].
  f_equal. rewrite Z.mul_1_r. reflexivity.
Qed.

Lemma round_sample_succeeds (w : World) (k : nat) :
  round_succeeds w k -> exists s, round_sample w k = [s].
Proof.
  intros (s & Hs & Hnz). unfold round_sample. rewrite Hs, truthy_Int.
  apply Z.eqb_neq in Hnz. rewrite Hnz. cbn [negb]. eauto.
Qed.

Lemma round_sample_fails (w : World) (k : nat) :
  round_fails w k -> round_sample w k = [].
Proof. unfold round_sample. intros [-> | ->]; reflexivity. Qed.

Lemma collect_samples_nonempty (w : World) :
  (exists k, (k < 3)%nat /\ round_succeeds w k) ->
  exists first rest, fst (collect_samples w) = first :: rest.
Proof.
  intros (k & Hk & Hok).
  apply round_sample_succeeds in Hok as [s Hs].
  rewrite collect_samples_eq. cbn [fst].
  assert (Hcases : (k = 0 \/ k = 1 \/ k = 2)%nat) by lia.
  destruct Hcases as [-> | [-> | ->]]; rewrite Hs.
  - simpl. eauto.
  - destruct (round_sample w 0); simpl; eauto.
  - destruct (round_sample w 0); [destruct (round_sample w 1)|]; simpl; eauto.
Qed.

Lemma collect_samples_empty (w : World) :
  (forall k, (k < 3)%nat -> round_fails w k) -> fst (collect_samples w) = [].
Proof.
  intros Hfail. rewrite collect_samples_eq. cbn [fst].
  rewrite !round_sample_fails by (apply Hfail; lia). reflexivity.
Qed.

Lemma sync_some_samples (self : TimeSync) (w : World)
    (first : sample) (rest : list sample) :
  fst (collect_samples w) = first :: rest ->
  sync self w =
  (let m := median_sample first rest in
   (log_lines m w,
    mkTimeSync (Some (fst (fst m))) (Some (snd (fst m))) (snd m)),
   after_rounds w).
Proof.
  rewrite collect_samples_eq. cbn [fst]. intros Hs.
  unfold sync, bind. rewrite collect_samples_eq, Hs.
  destruct (median_sample first rest) as [[s l] d].
  unfold log_lines, bind_ok, bind, ret, timestamp_to_str, truediv, after_rounds.
  cbn [fst snd value fromtimestamp_ok].
  change (inject_Z 1000) with 1000.
  destruct (fromtimestamp_ok w (value s / 1000)); [|reflexivity].
  cbn [fromtimestamp_ok].
  destruct (fromtimestamp_ok w (value l / 1000)); reflexivity.
Qed.

Lemma sync_no_samples (self : TimeSync) (w : World) :
  fst (collect_samples w) = [] ->
  sync self w =
  (let t := Int (clock w (clock_reads w + 6)) in (Ok (t, t, Int 0), self),
   mkWorld (clock w) (S (clock_reads w + 6)) (endpoint w) (requests w + 3)
     (0.1 :: 0.1 :: 0.1 :: slept w) (fromtimestamp_ok w)).
Proof.
  rewrite collect_samples_eq. cbn [fst]. intros Hs.
  unfold sync, bind. rewrite collect_samples_eq, Hs. reflexivity.
Qed.

(** The three keys -50, 10, 1000 compare as they should, whatever
    fractions stand for them. *)
Lemma keys_order (a b c : sample) :
  value (sample_diff a) == -50 -> value (sample_diff b) == 10 ->
  value (sample_diff c) == 1000 ->
  lt (sample_diff a) (sample_diff b) = true
  /\ lt (sample_diff a) (sample_diff c) = true
  /\ lt (sample_diff b) (sample_diff c) = true
  /\ lt (sample_diff b) (sample_diff a) = false
  /\ lt (sample_diff c) (sample_diff a) = false
  /\ lt (sample_diff c) (sample_diff b) = false.
Proof.
  intros Ha Hb Hc. unfold lt. rewrite Ha, Hb, Hc. repeat split; reflexivity.
Qed.

Lemma median_of_three (s1 s2 s3 a b c : sample) :
  Permutation [s1; s2; s3] [a; b; c] ->
  value (sample_diff a) == -50 -> value (sample_diff b) == 10 ->
  value (sample_diff c) == 1000 ->
  median_sample s1 [s2; s3] = b.
Proof.
  intros P Ha Hb Hc.
  destruct (keys_order a b c Ha Hb Hc) as (Hab & Hac & Hbc & Hba & Hca & Hcb).
  unfold median_sample.
  apply perm3_cases in P.
  destruct P as [(-> & -> & ->)|[(-> & -> & ->)|[(-> & -> & ->)|
                [(-> & -> & ->)|[(-> & -> & ->)|(-> & -> & ->)]]]]];
    cbn [sort_by_diff insert_by_diff length Nat.div Nat.divmod fst nth];
    rewrite ?Hab, ?Hac, ?Hbc, ?Hba, ?Hca, ?Hcb;
    cbn [insert_by_diff]; rewrite ?Hab, ?Hac, ?Hbc, ?Hba, ?Hca, ?Hcb;
    cbn [insert_by_diff]; rewrite ?Hab, ?Hac, ?Hbc, ?Hba, ?Hca, ?Hcb;
    reflexivity.
Qed.


(** C5.  When all three sampling rounds fail, [sync] returns
    [(t, t, 0)] with [t] one reading of the local clock and leaves the
    object as it was.  A stored offset of 0, the value [__init__] gives
    it, is therefore still 0, and [get_server_time] then returns the raw
    local clock. *)
Theorem sync_all_rounds_fail (self : TimeSync) (w : World) :
  (forall k, (k < 3)%nat -> round_fails w k) ->
  let t := Int (clock w (clock_reads w + 6)) in
  let self' := snd (fst (sync self w)) in
  fst (fst (sync self w)) = Ok (t, t, Int 0)
  /\ self' = self
  /\ (_time_diff self = Int 0 ->
      _time_diff self' = Int 0
      /\ forall w' : World,
           fst (get_server_time self' w') = Int (clock w' (clock_reads w')))
  /\ _time_diff (snd (fst (sync TimeSync_init w))) = Int 0.
Proof.
  intros Hfail t.
  rewrite !(sync_no_samples _ w (collect_samples_empty w Hfail)).
  cbn [fst snd]. repeat apply conj; try reflexivity.
  intros Hzero. split; [exact Hzero|].
  intros w'. unfold get_server_time, bind, ret, _local_time. cbn [fst].
  rewrite Hzero. cbn [sub]. now rewrite Z.sub_0_r.
Qed.

End TimeSyncSpec.

(** ** [CountdownTimer] *)
Module CountdownSpec.
Import Py PyNum TimeUtils.

Lemma value_sub (a b : num) : value (sub a b) == value a - value b.
Proof.
  destruct a as [x|p], b as [y|q]; cbn [sub value]; try reflexivity.
  unfold Z.sub. now rewrite inject_Z_plus, inject_Z_opp.
Qed.

Lemma value_py_max (a b : num) :
  value (py_max a b) == Qmax (value a) (value b).
Proof.
  unfold py_max, lt. destruct (Qle_bool (value b) (value a)) eqn:E; cbn [negb].
  - apply Qle_bool_iff in E. symmetry. now apply Q.max_l.
  - assert (Hab : value a <= value b).
    { apply Qlt_le_weak, Qnot_le_lt. intros Hle.
      apply Qle_bool_iff in Hle. congruence. }
    symmetry. now apply Q.max_r.
Qed.

Lemma py_max_zero_nonneg (a : num) : 0 <= value (py_max a (Int 0)).
Proof.
  rewrite value_py_max. apply Q.le_max_r.
Qed.

Lemma get_remaining_ms_nonneg (self : CountdownTimer) (w : World) :
  0 <= value (fst (get_remaining_ms self w)).
Proof.
  unfold get_remaining_ms. destruct (_target_time self) as [target|].
  - unfold bind, ret, get_server_time, _local_time. cbn [fst].
    apply py_max_zero_nonneg.
  - apply Qle_refl.
Qed.

Lemma get_remaining_ms_target (self : CountdownTimer) (target : datetime)
    (w : World) :
  _target_time self = Some target ->
  fst (get_remaining_ms self w) =
  py_max (sub (Int (int_of_float (timestamp target * 1000)))
              (fst (get_server_time (time_sync self) w))) (Int 0).
Proof.
  intros Ht. unfold get_remaining_ms. rewrite Ht.
  unfold bind, ret, get_server_time, _local_time. reflexivity.
Qed.

Lemma is_time_to_start_eq (self : CountdownTimer) (w : World) :
  fst (is_time_to_start self w)
  = Qle_bool (value (fst (get_remaining_ms self w))) 0.
Proof.
  unfold is_time_to_start, bind, ret.
  destruct (get_remaining_ms self w). reflexivity.
Qed.


Lemma floor_le (a b : Q) : 0 < b -> b * inject_Z (Qfloor (a / b)) <= a.
Proof.
  intros Hb.
  assert (Hf : inject_Z (Qfloor (a / b)) <= a / b) by apply Qfloor_le.
  apply (Qmult_le_l _ _ b Hb) in Hf.
  assert (Hab : b * (a / b) == a) by (apply Qmult_div_r; lra).
  lra.
Qed.

Lemma floor_gt (a b : Q) : 0 < b -> a < b * inject_Z (Qfloor (a / b)) + b.
Proof.
  intros Hb.
  assert (Hf : a / b < inject_Z (Qfloor (a / b) + 1)) by apply Qlt_floor.
  rewrite inject_Z_plus in Hf.
  apply (Qmult_lt_l _ _ b Hb) in Hf.
  assert (Hab : b * (a / b) == a) by (apply Qmult_div_r; lra).
  change (inject_Z 1) with 1 in Hf. lra.
Qed.

Lemma value_floordiv (a b : num) :
  value (floordiv a b) = inject_Z (Qfloor (value a / value b)).
Proof.
  destruct a as [x|p], b as [y|q]; cbn [floordiv value]; try reflexivity.
  now rewrite Zdiv_Qdiv.
Qed.

Lemma value_pymod (a b : num) :
  ~ value b == 0 ->
  value (pymod a b) == value a - value b * value (floordiv a b).
Proof.
  intros Hb. rewrite value_floordiv.
  destruct a as [x|p], b as [y|q]; cbn [pymod value]; try reflexivity.
  assert (Hy : y <> 0%Z).
  { intros ->. apply Hb. reflexivity. }
  rewrite (Z.mod_eq x y Hy), <- Zdiv_Qdiv.
  unfold Z.sub. now rewrite inject_Z_plus, inject_Z_opp, inject_Z_mult.
Qed.

Lemma pymod_bounds (a b : num) :
  0 < value b -> 0 <= value (pymod a b) /\ value (pymod a b) < value b.
Proof.
  intros Hb. rewrite value_pymod, value_floordiv by lra.
  pose proof (floor_le (value a) (value b) Hb).
  pose proof (floor_gt (value a) (value b) Hb).
  split; lra.
Qed.

Lemma floordiv_nonneg (a b : num) :
  0 <= value a -> 0 < value b -> 0 <= value (floordiv a b).
Proof.
  intros Ha Hb. rewrite value_floordiv.
  change 0 with (inject_Z 0). rewrite <- Zle_Qle.
  change 0%Z with (Qfloor 0). apply Qfloor_resp_le.
  apply Qle_shift_div_l; [exact Hb | lra].
Qed.

Lemma floordiv_lt (a b : num) (n : Q) :
  0 < value b -> value a < n * value b -> value (floordiv a b) < n.
Proof.
  intros Hb Ha. rewrite value_floordiv.
  apply Qle_lt_trans with (value a / value b); [apply Qfloor_le|].
  now apply Qlt_shift_div_r.
Qed.

(** C7.  [get_remaining_parts] splits the remaining milliseconds [R]
    that [get_remaining_ms] gives; for every [R >= 0] the parts add up
    to [R] again, days*86400000 + hours*3600000 + minutes*60000 +
    seconds*1000 + milliseconds = R, with hours < 24, minutes < 60,
    seconds < 60 and milliseconds < 1000 (none negative); and
    R = 90061500 gives (1, 1, 1, 1, 500). *)
Theorem get_remaining_parts_decomposition (self : CountdownTimer) (w : World)
    (R : num) :
  0 <= value R ->
  fst (get_remaining_parts self w) = split_parts (fst (get_remaining_ms self w))
  /\ (let '(days, hours, minutes, seconds, milliseconds) := split_parts R in
      value days * 86400000 + value hours * 3600000 + value minutes * 60000
        + value seconds * 1000 + value milliseconds == value R
      /\ 0 <= value days
      /\ (0 <= value hours /\ value hours < 24)
      /\ (0 <= value minutes /\ value minutes < 60)
      /\ (0 <= value seconds /\ value seconds < 60)
      /\ (0 <= value milliseconds /\ value milliseconds < 1000))
  /\ split_parts (Int 90061500) = (Int 1, Int 1, Int 1, Int 1, Int 500).
Proof.
  intros HR. split; [|split].
  - unfold get_remaining_parts, bind, ret.
    destruct (get_remaining_ms self w). reflexivity.
  - unfold split_parts.
    set (D := Int (24 * 60 * 60 * 1000)). set (H := Int (60 * 60 * 1000)).
    set (M := Int (60 * 1000)). set (S := Int 1000).
    assert (HD : value D == 86400000) by reflexivity.
    assert (HH : value H == 3600000) by reflexivity.
    assert (HM : value M == 60000) by reflexivity.
    assert (HS : value S == 1000) by reflexivity.
    set (r1 := pymod R D). set (r2 := pymod r1 H). set (r3 := pymod r2 M).
    destruct (pymod_bounds R D) as [L1 U1]; [lra|].
    destruct (pymod_bounds r1 H) as [L2 U2]; [lra|].
    destruct (pymod_bounds r2 M) as [L3 U3]; [lra|].
    destruct (pymod_bounds r3 S) as [L4 U4]; [lra|].
    fold r1 in L1, U1. fold r2 in L2, U2. fold r3 in L3, U3.
    assert (E4 : value (pymod r3 S) == value r3 - 1000 * value (floordiv r3 S)).
    { rewrite value_pymod by lra. now rewrite HS. }
    assert (E3 : value r3 == value r2 - 60000 * value (floordiv r2 M)).
    { unfold r3. rewrite value_pymod by lra. now rewrite HM. }
    assert (E2 : value r2 == value r1 - 3600000 * value (floordiv r1 H)).
    { unfold r2. rewrite value_pymod by lra. now rewrite HH. }
    assert (E1 : value r1 == value R - 86400000 * value (floordiv R D)).
    { unfold r1. rewrite value_pymod by lra. now rewrite HD. }
    repeat split.
    + lra.
    + apply floordiv_nonneg; lra.
    + apply floordiv_nonneg; lra.
    + apply floordiv_lt; lra.
    + apply floordiv_nonneg; lra.
    + apply floordiv_lt; lra.
    + apply floordiv_nonneg; lra.
    + apply floordiv_lt; lra.
    + exact L4.
    + lra.
  - reflexivity.
Qed.

(** C10.  A timer whose target was never set: [get_remaining_ms] is 0,
    [is_time_to_start] is true, and [wait_until_ready] with any
    [advance_ms >= 0] ends in the first pass of its loop, with no sleep
    and no clock reading.  [__init__] stores no target. *)
Theorem no_target_is_ready (self : CountdownTimer) (w : World)
    (advance_ms : num) (fuel : nat) :
  _target_time self = None ->
  0 <= value advance_ms ->
  get_remaining_ms self w = (Int 0, w)
  /\ is_time_to_start self w = (true, w)
  /\ wait_until_ready (S fuel) self advance_ms w = (Some (Ok tt), w)
  /\ _target_time (CountdownTimer_init (time_sync self)) = None.
Proof.
  intros Hnone Hadv.
  assert (Hrem : get_remaining_ms self w = (Int 0, w)).
  { unfold get_remaining_ms. now rewrite Hnone. }
  repeat split.
  - exact Hrem.
  - unfold is_time_to_start, bind. now rewrite Hrem.
  - cbn [wait_until_ready]. unfold bind. rewrite Hrem.
    unfold le. cbn [value]. apply Qle_bool_iff in Hadv.
    change (inject_Z 0) with 0. now rewrite Hadv.
Qed.

(** After a successful [sync] the offset is a float, so are the parts of
    a remaining time, and the [02d] of [format_remaining] raises: here
    [wait_until_ready], 95 s before its target, ends with the
    exception in its first pass. *)
Example wait_until_ready_after_sync :
  let ts := snd (fst (sync TimeSync_init Examples.world_three)) in
  let timer := set_target (CountdownTimer_init ts) (mkDatetime 100) in
  is_float (_time_diff ts) = true
  /\ fst (wait_until_ready 3 timer (Int 100) Examples.world_offline)
     = Some (Raise (ValueError "Unknown format code 'd'")).
Proof. split; vm_compute; reflexivity. Qed.

End CountdownSpec.

(** ** [Config]: the getters *)
Module ConfigGetSpec.
Import Py PyStr Config.
Local Open Scope string_scope.

Lemma try_except_cases {A} (c : result A) (d : A) :
  (exists v, c = Ok v /\ try_except c d = v) \/ try_except c d = d.
Proof. destruct c as [v|e]; [left; eauto | now right]. Qed.

Lemma get_missing_section (config : ConfigParser.t) (section opt : string) :
  ConfigParser._sections config !! section = None ->
  section <> ConfigParser.default_section ->
  ConfigParser.get config section opt = Raise (NoSectionError section).
Proof.
  intros Hs Hd. unfold ConfigParser.get, ConfigParser._unify_values.
  rewrite Hs. apply String.eqb_neq in Hd. now rewrite Hd.
Qed.

Lemma get_missing_option (config : ConfigParser.t) (section opt : string)
    (d : gmap string string) :
  ConfigParser._unify_values config section = Ok d ->
  d !! ConfigParser.optionxform opt = None ->
  ConfigParser.get config section opt
  = Raise (NoOptionError (ConfigParser.optionxform opt) section).
Proof.
  intros Hd Ho. unfold ConfigParser.get. now rewrite Hd, Ho.
Qed.

Lemma get_conv_raise {A} (config : ConfigParser.t) (section opt : string)
    (conv : string -> option A) (e : exn) :
  ConfigParser.get config section opt = Raise e ->
  ConfigParser._get_conv config section opt conv = Raise e.
Proof. intros H. unfold ConfigParser._get_conv. now rewrite H. Qed.

Lemma get_conv_malformed {A} (config : ConfigParser.t) (section opt : string)
    (conv : string -> option A) (value : string) :
  ConfigParser.get config section opt = Ok value ->
  conv value = None ->
  ConfigParser._get_conv config section opt conv = Raise (ValueError value).
Proof. intros H Hc. unfold ConfigParser._get_conv. now rewrite H, Hc. Qed.

(** What the getters return once the lookup itself raises. *)
Lemma getters_on_raise (config : ConfigParser.t) (section opt : string)
    (e : exn) (ds : string) (db : bool) (di : Z) (df : pyfloat) :
  ConfigParser.get config section opt = Raise e ->
  get config section opt (Some ds) = ds
  /\ getboolean config section opt (Some db) = db
  /\ getint config section opt (Some di) = di
  /\ getfloat config section opt (Some df) = df.
Proof.
  intros H.
  unfold get, getboolean, getint, getfloat, ConfigParser.getboolean,
    ConfigParser.getint, ConfigParser.getfloat.
  rewrite !(get_conv_raise _ _ _ _ e H), H. repeat split.
Qed.


End ConfigGetSpec.

(** ** [Config.validate] *)
Module ValidateSpec.
Import Py PyStr Config.
Local Open Scope string_scope.

(** The returned errors: the field errors, then the thread error when
    the thread count is below 1. *)
Lemma validate_errors (cfg : AppConfig) :
  errors (validate cfg) =
  (field_errors cfg ++
   if (ProcessConfig.thread (process cfg) <? 1)%Z then [err_thread] else [])%list.
Proof.
  unfold validate, field_errors, add_if.
  destruct (str_empty (UserConfig.name (user cfg)));
    destruct (str_empty (UserConfig.password (user cfg)));
    destruct (str_empty (ProductConfig.id (product cfg)));
    destruct (str_in (BrowserConfig.type (browser cfg)) SUPPORTED_BROWSERS);
    destruct (ProcessConfig.thread (process cfg) <? 1)%Z;
    destruct (MAX_THREADS <? ProcessConfig.thread (process cfg))%Z;
    cbn [negb app];
    match goal with
    | |- context [float_lt ?a ?b] => destruct (float_lt a b)
    end; reflexivity.
Qed.

(** The thread count [validate] leaves in [app_config]. *)
Lemma validate_thread (cfg : AppConfig) :
  ProcessConfig.thread (process (app_config (validate cfg))) =
  let thread := ProcessConfig.thread (process cfg) in
  if (thread <? 1)%Z then thread
  else if (MAX_THREADS <? thread)%Z then MAX_THREADS else thread.
Proof.
  unfold validate. cbv zeta.
  destruct (ProcessConfig.thread (process cfg) <? 1)%Z;
    [|destruct (MAX_THREADS <? ProcessConfig.thread (process cfg))%Z];
    match goal with
    | |- context [float_lt ?a ?b] => destruct (float_lt a b)
    end; reflexivity.
Qed.

(** The interval [validate] leaves in [app_config]. *)
Lemma validate_interval (cfg : AppConfig) :
  ProcessConfig.interval (process (app_config (validate cfg))) =
  if float_lt (ProcessConfig.interval (process cfg)) MIN_INTERVAL
  then MIN_INTERVAL else ProcessConfig.interval (process cfg).
Proof.
  unfold validate. cbv zeta.
  destruct (ProcessConfig.thread (process cfg) <? 1)%Z;
    [|destruct (MAX_THREADS <? ProcessConfig.thread (process cfg))%Z];
    cbn [set_thread process ProcessConfig.interval];
    destruct (float_lt (ProcessConfig.interval (process cfg)) MIN_INTERVAL);
    reflexivity.
Qed.

Lemma validate_warn_thread (cfg : AppConfig) :
  (MAX_THREADS < ProcessConfig.thread (process cfg))%Z ->
  In warn_thread (warnings (validate cfg)).
Proof.
  intros Hgt. unfold validate. cbv zeta.
  assert (H1 : (ProcessConfig.thread (process cfg) <? 1)%Z = false).
  { apply Z.ltb_ge. unfold MAX_THREADS in Hgt. lia. }
  apply Z.ltb_lt in Hgt. rewrite H1, Hgt.
  match goal with
  | |- context [float_lt ?a ?b] => destruct (float_lt a b)
  end; cbn [warnings]; rewrite ?in_app_iff; simpl; tauto.
Qed.

Lemma validate_warn_interval (cfg : AppConfig) :
  float_lt (ProcessConfig.interval (process cfg)) MIN_INTERVAL = true ->
  In warn_interval (warnings (validate cfg)).
Proof.
  intros Hlt. unfold validate. cbv zeta.
  destruct (ProcessConfig.thread (process cfg) <? 1)%Z;
    [|destruct (MAX_THREADS <? ProcessConfig.thread (process cfg))%Z];
    cbn [set_thread process ProcessConfig.interval];
    rewrite Hlt; cbn [warnings]; rewrite in_app_iff; simpl; tauto.
Qed.

Lemma str_in_In (x : string) (l : list string) :
  str_in x l = true <-> In x l.
Proof.
  unfold str_in. rewrite existsb_exists. split.
  - intros (y & Hy & E). apply String.eqb_eq in E. now subst.
  - intros Hx. exists x. split; [exact Hx | apply String.eqb_refl].
Qed.

Lemma str_empty_true (s : string) : str_empty s = true <-> s = "".
Proof. apply String.eqb_eq. Qed.

Lemma in_field_errors (cfg : AppConfig) (msg : string) :
  In msg (field_errors cfg) -> In msg (errors (validate cfg)).
Proof. rewrite validate_errors, in_app_iff. tauto. Qed.

Lemma in_nonempty {A} (x : A) (l : list A) : In x l -> l <> [].
Proof. destruct l; [contradiction | discriminate]. Qed.

(** C3.  [validate] on the thread count and the interval.  A thread
    count above 20 is set to 20 with a warning and adds no error; one
    below 1 appends the thread error and stays as it is; an interval
    below 0.001 is set to 0.001 with a warning, and the errors are those
    of the same configuration with the interval already at 0.001.  So a
    file with [thread=50] ends with thread 20 and a warning, [thread=0]
    with an error and thread 0, [interval=0.0001] with interval 0.001. *)
Theorem validate_thread_and_interval (cfg : AppConfig) :
  let v := validate cfg in
  let thread := ProcessConfig.thread (process cfg) in
  let interval := ProcessConfig.interval (process cfg) in
  ((20 < thread)%Z ->
     ProcessConfig.thread (process (app_config v)) = 20%Z
     /\ In warn_thread (warnings v)
     /\ errors v = field_errors cfg)
  /\ ((thread < 1)%Z ->
     errors v = (field_errors cfg ++ [err_thread])%list
     /\ ProcessConfig.thread (process (app_config v)) = thread
     /\ ~ In warn_thread (warnings v))
  /\ (float_lt interval (Finite 0.001) = true ->
     ProcessConfig.interval (process (app_config v)) = Finite 0.001
     /\ In warn_interval (warnings v)
     /\ errors v = errors (validate (set_interval cfg (Finite 0.001))))
  /\ (let file (thread interval : string) :=
        ConfigParser.mk
          {[ "process" := {[ "thread" := thread; "interval" := interval ]} ]} ∅ in
      let loaded thread interval := validate (_parse_config (file thread interval)) in
      ProcessConfig.thread (process (app_config (loaded "50" "0.001"))) = 20%Z
      /\ In warn_thread (warnings (loaded "50" "0.001"))
      /\ ProcessConfig.thread (process (app_config (loaded "0" "0.001"))) = 0%Z
      /\ In err_thread (errors (loaded "0" "0.001"))
      /\ ProcessConfig.interval (process (app_config (loaded "1" "0.0001")))
         = Finite 0.001
      /\ In warn_interval (warnings (loaded "1" "0.0001"))).
Proof.
  cbv zeta. repeat apply conj.
  - intros Hgt. repeat split.
    + rewrite validate_thread. cbv zeta.
      replace (ProcessConfig.thread (process cfg) <? 1)%Z with false
        by (symmetry; apply Z.ltb_ge; lia).
      replace (MAX_THREADS <? ProcessConfig.thread (process cfg))%Z with true
        by (symmetry; apply Z.ltb_lt; unfold MAX_THREADS; lia).
      reflexivity.
    + apply validate_warn_thread. exact Hgt.
    + rewrite validate_errors.
      replace (ProcessConfig.thread (process cfg) <? 1)%Z with false
        by (symmetry; apply Z.ltb_ge; lia).
      apply app_nil_r.
  - intros Hlt. apply Z.ltb_lt in Hlt. repeat split.
    + rewrite validate_errors. now rewrite Hlt.
    + rewrite validate_thread. cbv zeta. now rewrite Hlt.
    + unfold validate, add_if. cbv zeta. rewrite Hlt.
      destruct (str_empty (ProductConfig.color (product cfg)));
        destruct (str_empty (ProductConfig.version (product cfg)));
        destruct (BrowserConfig.headless (browser cfg)
                  && str_empty (BrowserConfig.user_agent (browser cfg)));
        destruct (float_lt (ProcessConfig.interval (process cfg)) MIN_INTERVAL);
        cbn [warnings app In]; intros H;
        repeat (destruct H as [H|H]; [discriminate H|]); exact H.
  - intros Hlt. repeat split.
    + rewrite validate_interval. unfold MIN_INTERVAL. now rewrite Hlt.
    + apply validate_warn_interval. exact Hlt.
    + rewrite !validate_errors. reflexivity.
  - vm_compute. reflexivity.
  - vm_compute. tauto.
  - vm_compute. reflexivity.
  - vm_compute. tauto.
  - vm_compute. reflexivity.
  - vm_compute. tauto.
Qed.

(** C4.  [validate] returns an error for an empty user name, for an
    empty password, for an empty product id and for a browser type
    outside chrome, firefox, edge, safari, each on its own whatever the
    other fields are, so the list is then not empty; the list is empty
    for a configuration with name, password and product id filled in, a
    supported browser type, a thread count from 1 to 20 and an interval
    of at least 0.001.  The type opera gets the error that names it, and
    the four supported types get none. *)
Theorem validate_required_fields (cfg : AppConfig) :
  let v := validate cfg in
  let type := BrowserConfig.type (browser cfg) in
  (UserConfig.name (user cfg) = "" ->
     In err_name (errors v) /\ errors v <> [])
  /\ (UserConfig.password (user cfg) = "" ->
     In err_password (errors v) /\ errors v <> [])
  /\ (ProductConfig.id (product cfg) = "" ->
     In err_product_id (errors v) /\ errors v <> [])
  /\ (~ In type ["chrome"; "firefox"; "edge"; "safari"] ->
     In ("❌ 不支持的浏览器类型: " ++ type) (errors v) /\ errors v <> [])
  /\ (UserConfig.name (user cfg) <> "" ->
     UserConfig.password (user cfg) <> "" ->
     ProductConfig.id (product cfg) <> "" ->
     In type ["chrome"; "firefox"; "edge"; "safari"] ->
     (1 <= ProcessConfig.thread (process cfg) <= 20)%Z ->
     float_lt (ProcessConfig.interval (process cfg)) (Finite 0.001) = false ->
     errors v = [])
  /\ (type = "opera" -> In "❌ 不支持的浏览器类型: opera" (errors v))
  /\ (In type ["chrome"; "firefox"; "edge"; "safari"] ->
     ~ In (err_browser type) (errors v)
     /\ forall msg, In msg (errors v) ->
          msg = err_name \/ msg = err_password \/ msg = err_product_id
          \/ msg = err_thread).
Proof.
  cbv zeta.
  assert (Hin : forall msg, In msg (field_errors cfg) ->
                  In msg (errors (validate cfg)) /\ errors (validate cfg) <> []).
  { intros msg H. apply in_field_errors in H. split; [exact H|].
    eapply in_nonempty; exact H. }
  assert (Hbad : ~ In (BrowserConfig.type (browser cfg))
                     ["chrome"; "firefox"; "edge"; "safari"] ->
                 In (err_browser (BrowserConfig.type (browser cfg)))
                    (field_errors cfg)).
  { intros Hb. unfold field_errors.
    destruct (str_in (BrowserConfig.type (browser cfg)) SUPPORTED_BROWSERS) eqn:E.
    - apply str_in_In in E. contradiction.
    - rewrite !in_app_iff. right. right. right. now left. }
  repeat apply conj.
  - intros E. apply Hin. unfold field_errors.
    apply str_empty_true in E. rewrite E. now left.
  - intros E. apply Hin. unfold field_errors.
    apply str_empty_true in E. rewrite E.
    rewrite !in_app_iff. right. left. now left.
  - intros E. apply Hin. unfold field_errors.
    apply str_empty_true in E. rewrite E.
    rewrite !in_app_iff. right. right. left. now left.
  - intros Hb. apply Hin, Hbad, Hb.
  - intros Hn Hp Hi Hb Ht _. rewrite validate_errors. unfold field_errors.
    replace (str_empty (UserConfig.name (user cfg))) with false
      by (symmetry; apply not_true_is_false; now rewrite str_empty_true).
    replace (str_empty (UserConfig.password (user cfg))) with false
      by (symmetry; apply not_true_is_false; now rewrite str_empty_true).
    replace (str_empty (ProductConfig.id (product cfg))) with false
      by (symmetry; apply not_true_is_false; now rewrite str_empty_true).
    replace (str_in (BrowserConfig.type (browser cfg)) SUPPORTED_BROWSERS)
      with true by (symmetry; now apply str_in_In).
    replace (ProcessConfig.thread (process cfg) <? 1)%Z with false
      by (symmetry; apply Z.ltb_ge; lia).
    reflexivity.
  - intros E. change "❌ 不支持的浏览器类型: opera" with (err_browser "opera").
    rewrite <- E. apply Hin, Hbad. rewrite E. simpl.
    intros [H|[H|[H|[H|[]]]]]; discriminate H.
  - intros Hb. apply str_in_In in Hb.
    assert (Hall : forall msg, In msg (errors (validate cfg)) ->
              msg = err_name \/ msg = err_password \/ msg = err_product_id
              \/ msg = err_thread).
    { intros msg. rewrite validate_errors. unfold field_errors.
      change (str_in (BrowserConfig.type (browser cfg)) SUPPORTED_BROWSERS = true)
        in Hb. rewrite Hb.
      destruct (str_empty (UserConfig.name (user cfg)));
        destruct (str_empty (UserConfig.password (user cfg)));
        destruct (str_empty (ProductConfig.id (product cfg)));
        destruct (ProcessConfig.thread (process cfg) <? 1)%Z;
        cbn [app In]; intuition. }
    split; [|exact Hall].
    intros Hc. apply Hall in Hc. unfold err_browser in Hc.
    destruct Hc as [H|[H|[H|H]]]; vm_compute in H; discriminate H.
Qed.

End ValidateSpec.

(** ** The [retry] decorator *)
Module RetrySpec.
Import Retry.

Section Facts.
Context {A E : Type}.
Variable max_attempts : Z.
Variable delay : Q.
Variable exceptions : E -> bool.

Local Abbreviation attempts :=
  (@Retry.attempts A E max_attempts delay exceptions).
Local Abbreviation wrapper :=
  (@Retry.wrapper A E max_attempts delay exceptions).
Local Abbreviation fails_at := (@Retry.fails_at A E exceptions).

Lemma repeat_shift (n : nat) (l : list Q) :
  repeat delay n ++ delay :: l = repeat delay (S n) ++ l.
Proof. induction n as [|n IH]; simpl; [reflexivity | now rewrite IH]. Qed.

Lemma attempts_calls_le (todo : nat) :
  forall attempt last env,
    (calls (snd (attempts todo attempt last env)) <= calls env + todo)%nat.
Proof.
  induction todo as [|todo IH]; intros attempt last env; cbn [Retry.attempts].
  - simpl. lia.
  - unfold call. destruct (func env (calls env)) as [e|a].
    + destruct (exceptions e).
      * destruct (attempt <? max_attempts)%Z;
          match goal with
          | |- context [Retry.attempts _ _ _ todo ?a ?l ?env'] =>
              pose proof (IH a l env') as H
          end; cbn [calls sleep log] in H |- *; lia.
      * cbn [snd calls]. lia.
    + cbn [snd calls]. lia.
Qed.

Lemma attempts_success (k : nat) (a : A) :
  forall todo attempt last env,
    (k < todo)%nat ->
    (attempt + Z.of_nat todo = max_attempts + 1)%Z ->
    (forall j, (j < k)%nat -> fails_at env j) ->
    func env (calls env + k) = inr a ->
    let r := attempts todo attempt last env in
    fst r = Returned a
    /\ calls (snd r) = (calls env + S k)%nat
    /\ slept (snd r) = repeat delay k ++ slept env
    /\ func (snd r) = func env.
Proof.
  induction k as [|k IH]; intros todo attempt last env Hk Hatt Hfail Hok;
    (destruct todo as [|todo]; [lia|]); cbn [Retry.attempts]; unfold call.
  - replace (calls env + 0)%nat with (calls env) in Hok by lia.
    rewrite Hok. cbn. repeat split. lia.
  - destruct (Hfail 0%nat ltac:(lia)) as (e & He & Hc).
    replace (calls env + 0)%nat with (calls env) in He by lia.
    rewrite He, Hc.
    replace (attempt <? max_attempts)%Z with true
      by (symmetry; apply Z.ltb_lt; lia).
    match goal with
    | |- context [Retry.attempts _ _ _ todo ?a' ?l ?env'] =>
        specialize (IH todo a' l env')
    end.
    cbn [calls func slept sleep log] in IH.
    destruct IH as (H1 & H2 & H3 & H4).
    + lia.
    + lia.
    + intros j Hj. destruct (Hfail (S j) ltac:(lia)) as (e' & He' & Hc').
      exists e'. split; [|exact Hc']. cbn [func calls sleep log].
      replace (S (calls env) + j)%nat with (calls env + S j)%nat by lia.
      exact He'.
    + replace (S (calls env) + k)%nat with (calls env + S k)%nat by lia.
      exact Hok.
    + cbv zeta. rewrite H1, H2, H3, H4. repeat split.
      * lia.
      * apply repeat_shift.
Qed.

Lemma attempts_all_fail (todo : nat) :
  forall attempt last env,
    (attempt + Z.of_nat (S todo) = max_attempts + 1)%Z ->
    (forall j, (j < S todo)%nat -> fails_at env j) ->
    let r := attempts (S todo) attempt last env in
    (exists e, func env (calls env + todo) = inl e /\ fst r = Raised e)
    /\ calls (snd r) = (calls env + S todo)%nat
    /\ slept (snd r) = repeat delay todo ++ slept env.
Proof.
  induction todo as [|todo IH]; intros attempt last env Hatt Hfail;
    destruct (Hfail 0%nat ltac:(lia)) as (e & He & Hc);
    replace (calls env + 0)%nat with (calls env) in He by lia.
  - cbn [Retry.attempts]. unfold call. rewrite He, Hc.
    replace (attempt <? max_attempts)%Z with false
      by (symmetry; apply Z.ltb_ge; lia).
    cbn. repeat split.
    + exists e. split; [|reflexivity].
      now replace (calls env + 0)%nat with (calls env) by lia.
    + lia.
  - remember (S todo) as n eqn:Hn.
    cbn [Retry.attempts]. unfold call. rewrite He, Hc.
    replace (attempt <? max_attempts)%Z with true
      by (symmetry; apply Z.ltb_lt; lia).
    subst n.
    match goal with
    | |- context [Retry.attempts _ _ _ (S todo) ?a' ?l ?env'] =>
        specialize (IH a' l env')
    end.
    cbn [calls func slept sleep log] in IH.
    destruct IH as ((e' & He' & Hr) & H2 & H3).
    + lia.
    + intros j Hj. destruct (Hfail (S j) ltac:(lia)) as (e1 & He1 & Hc1).
      exists e1. split; [|exact Hc1]. cbn [func calls sleep log].
      replace (S (calls env) + j)%nat with (calls env + S j)%nat by lia.
      exact He1.
    + cbv zeta. rewrite Hr, H2, H3. repeat split.
      * exists e'. split; [|reflexivity].
        replace (calls env + S todo)%nat with (S (calls env) + todo)%nat by lia.
        exact He'.
      * lia.
      * apply repeat_shift.
Qed.


End Facts.

End RetrySpec.

(** ** [CookieManager] *)
Module CookiesSpec.
Import Py Cookies.

Section Facts.
Context `{Json}.

Lemma write_regular (self : CookieManager) (v : pyvalue) (fs : filesystem) :
  fs !! cookie_file self <> Some Dir ->
  write self v fs = (true, <[cookie_file self := File (dumps v)]> fs).
Proof.
  intros Hd. unfold write, write_text.
  destruct (fs !! cookie_file self) as [[text|]|]; congruence.
Qed.

Lemma read_file (self : CookieManager) (text : string) (fs : filesystem) :
  fs !! cookie_file self = Some (File text) ->
  read self fs = Py.try_except (loads text) PyNone.
Proof. intros Hf. unfold read, exists_, read_text. now rewrite Hf. Qed.

Lemma read_absent (self : CookieManager) (fs : filesystem) :
  fs !! cookie_file self = None -> read self fs = PyNone.
Proof. intros Hf. unfold read, exists_. now rewrite Hf. Qed.

Lemma read_directory (self : CookieManager) (fs : filesystem) :
  fs !! cookie_file self = Some Dir -> read self fs = PyNone.
Proof. intros Hf. unfold read, exists_, read_text. now rewrite Hf. Qed.

Lemma delete_then_lookup (self : CookieManager) (fs : filesystem) :
  snd (delete_ self fs) !! cookie_file self = None
  \/ snd (delete_ self fs) !! cookie_file self = Some Dir.
Proof.
  unfold delete_, exists_, remove.
  destruct (fs !! cookie_file self) as [[text|]|] eqn:E; cbn [snd].
  - left. apply lookup_delete_eq.
  - now right.
  - now left.
Qed.

Lemma write_succeeds_iff (self : CookieManager) (v : pyvalue) (fs : filesystem) :
fst (write self v fs) = true <-> fs !! cookie_file self <> Some Dir.
Proof.
split.
- unfold write, write_text.
  destruct (fs !! cookie_file self) as [[text|]|]; cbn [fst];
    congruence.
- intros Hd. now rewrite write_regular.
Qed.


End Facts.

End CookiesSpec.

(** ** The JSON text is a [Json] *)
Module JsonTextSpec.
Import Cookies JsonText.
Local Open Scope string_scope.

Lemma app_nil (b : string) : EmptyString ++ b = b.
Proof. reflexivity. Qed.

Lemma app_cons (c : ascii) (a b : string) : String c a ++ b = String c (a ++ b).
Proof. reflexivity. Qed.

Lemma append_assoc (a b c : string) : (a ++ b) ++ c = a ++ (b ++ c).
Proof.
  induction a as [|x a IH]; rewrite ?app_nil, ?app_cons;
    [reflexivity | now f_equal].
Qed.

Lemma length_append (a b : string) :
  String.length (a ++ b) = (String.length a + String.length b)%nat.
Proof.
  induction a as [|x a IH]; rewrite ?app_nil, ?app_cons;
    cbn [String.length Nat.add];
    [reflexivity | now f_equal].
Qed.

(** White space *)

Lemma skip_ws_indent (level : nat) (s : string) :
  skip_ws (indent level ++ s) = skip_ws s.
Proof.
  induction level as [|level IH]; [reflexivity|].
  cbn [indent]. rewrite !app_cons, app_nil. exact IH.
Qed.

Lemma skip_ws_break (level : nat) (s : string) :
  skip_ws (break level ++ s) = skip_ws s.
Proof. unfold break. rewrite app_cons. apply skip_ws_indent. Qed.

(** Strings *)

Lemma read_chars_escape_char (c : ascii) (tail : string) :
  read_chars (escape_char c ++ tail) =
  match read_chars tail with
  | Some (t, rest) => Some (String c t, rest)
  | None => None
  end.
Proof.
  destruct c as [[|] [|] [|] [|] [|] [|] [|] [|]]; reflexivity.
Qed.

Lemma read_chars_escape (s rest : string) :
  read_chars (escape s ++ String dquote rest) = Some (s, rest).
Proof.
  induction s as [|c s IH].
  - reflexivity.
  - cbn [escape]. rewrite append_assoc, read_chars_escape_char, IH.
    reflexivity.
Qed.

(** Integers *)

Lemma span_digits_end (rest : string) :
  value_end rest = true -> span_digits rest = (EmptyString, rest).
Proof.
  destruct rest as [|c r]; [reflexivity|]. cbn [value_end span_digits].
  intros H. apply negb_true_iff in H.
  destruct (is_digit c); [discriminate H | reflexivity].
Qed.

Lemma span_digits_uint (d : Decimal.uint) (rest : string) :
  value_end rest = true ->
  span_digits (NilEmpty.string_of_uint d ++ rest)
  = (NilEmpty.string_of_uint d, rest).
Proof.
  intros Hr. induction d as [|d IH|d IH|d IH|d IH|d IH|d IH|d IH|d IH|d IH|d IH];
    cbn [NilEmpty.string_of_uint]; rewrite ?app_nil, ?app_cons;
    [now apply span_digits_end|..];
    cbn [span_digits]; change (is_digit _) with true; cbn iota;
    now rewrite IH.
Qed.

Lemma string_of_pos_uint (p : positive) :
  NilZero.string_of_uint (Pos.to_uint p)
  = NilEmpty.string_of_uint (Pos.to_uint p)
  /\ exists c r, NilEmpty.string_of_uint (Pos.to_uint p) = String c r
                 /\ is_digit c = true.
Proof.
  pose proof (Unsigned.to_uint_nonnil p) as Hn.
  destruct (Pos.to_uint p) as [|d|d|d|d|d|d|d|d|d|d]; [now destruct Hn|..];
    (split; [reflexivity|]); cbn [NilEmpty.string_of_uint]; eauto.
Qed.

Lemma read_token_print_int (z : Z) (rest : string) :
  value_end rest = true ->
  read_token (print_int z ++ rest) = (print_int z, rest).
Proof.
  intros Hr. unfold print_int. destruct z as [|p|p]; cbn [Z.to_int NilZero.string_of_int].
  - change (NilZero.string_of_uint Decimal.zero) with "0".
    rewrite app_cons, app_nil. cbn [read_token span_digits].
    change (is_digit "0") with true. cbn iota.
    now rewrite (span_digits_end rest Hr).
  - destruct (string_of_pos_uint p) as (-> & c & r & E & Hc).
    pose proof (span_digits_uint (Pos.to_uint p) rest Hr) as Hs.
    rewrite E in *. rewrite app_cons in *.
    unfold read_token.
    destruct c as [[|] [|] [|] [|] [|] [|] [|] [|]]; try discriminate Hc;
      exact Hs.
  - destruct (string_of_pos_uint p) as (-> & _).
    rewrite app_cons. cbn [read_token].
    now rewrite (span_digits_uint (Pos.to_uint p) rest Hr).
Qed.

Lemma value_end_not_fraction (rest : string) :
  value_end rest = true -> starts_fraction rest = false.
Proof.
  destruct rest as [|c r]; [reflexivity|]. cbn [value_end starts_fraction].
  intros H. apply negb_true_iff in H.
  destruct (is_digit c); [discriminate H|]. exact H.
Qed.

Lemma int_of_string_print_int (z : Z) :
  NilZero.int_of_string (print_int z) = Some (Z.to_int z).
Proof.
  unfold print_int. apply NilZero.isi.
  - destruct z as [|p|p]; cbn [Z.to_int]; try discriminate.
    intros [= H]. now apply (Unsigned.to_uint_nonnil p).
  - destruct z as [|p|p]; cbn [Z.to_int]; try discriminate.
    intros [= H]. now apply (Unsigned.to_uint_nonnil p).
Qed.

Lemma read_int_print_int (z : Z) (rest : string) :
  value_end rest = true ->
  read_int (print_int z ++ rest) = Some (z, rest).
Proof.
  intros Hr. unfold read_int.
  rewrite (read_token_print_int z rest Hr), (value_end_not_fraction rest Hr).
  rewrite int_of_string_print_int, DecimalZ.of_to, String.eqb_refl.
  reflexivity.
Qed.

(** The first character of a printed value *)

Lemma print_int_head (z : Z) :
  exists c r, print_int z = String c r
              /\ (is_digit c || Ascii.eqb c "-") = true.
Proof.
  unfold print_int. destruct z as [|p|p]; cbn [Z.to_int NilZero.string_of_int].
  - exists "0"%char, EmptyString. split; reflexivity.
  - destruct (string_of_pos_uint p) as (-> & c & r & -> & Hc).
    exists c, r. split; [reflexivity|]. now rewrite Hc.
  - eexists _, _. split; reflexivity.
Qed.

Lemma number_opens (c : ascii) :
  (is_digit c || Ascii.eqb c "-") = true -> opens_value c = true.
Proof.
  destruct c as [[|] [|] [|] [|] [|] [|] [|] [|]]; intros H;
    try discriminate H; reflexivity.
Qed.

Lemma print_head (level : nat) (v : pyvalue) :
  exists c r, print level v = String c r /\ opens_value c = true.
Proof.
  destruct v as [ |[|]|z|s|[|x xs]|[|m ms]]; cbn [print];
    try (eexists _, _; split; reflexivity).
  destruct (print_int_head z) as (c & r & -> & Hc).
  exists c, r. split; [reflexivity | now apply number_opens].
Qed.

Lemma skip_ws_opens (c : ascii) (r : string) :
  opens_value c = true -> skip_ws (String c r) = String c r.
Proof.
  unfold opens_value. intros H. cbn [skip_ws].
  destruct (is_ws c); [discriminate H | reflexivity].
Qed.

Lemma skip_ws_idem (s : string) : skip_ws (skip_ws s) = skip_ws s.
Proof.
  induction s as [|c s IH]; [reflexivity|].
  cbn [skip_ws]. destruct (is_ws c) eqn:E; [exact IH|].
  cbn [skip_ws]. now rewrite E.
Qed.

Lemma read_skip_ws (fuel : nat) (s : string) :
  read fuel (skip_ws s) = read fuel s.
Proof. destruct fuel; cbn [read]; [reflexivity|]. now rewrite skip_ws_idem. Qed.

Lemma read_break (fuel level : nat) (s : string) :
  read fuel (break level ++ s) = read fuel s.
Proof. now rewrite <- read_skip_ws, skip_ws_break, read_skip_ws. Qed.

(** Reading by the first character *)

Lemma read_quote (fuel : nat) (r : string) :
  read (S fuel) (String dquote r) =
  match read_chars r with
  | Some (t, rest) => Some (PyStr t, rest)
  | None => None
  end.
Proof. reflexivity. Qed.

Lemma read_number (fuel : nat) (c : ascii) (r : string) :
  (is_digit c || Ascii.eqb c "-") = true ->
  read (S fuel) (String c r) =
  match read_int (String c r) with
  | Some (z, rest) => Some (PyInt z, rest)
  | None => None
  end.
Proof.
  destruct c as [[|] [|] [|] [|] [|] [|] [|] [|]]; intros H;
    try discriminate H; reflexivity.
Qed.

Lemma read_bracket (fuel : nat) (r : string) (c : ascii) (r' : string) :
  skip_ws r = String c r' -> opens_value c = true ->
  read (S fuel) (String "[" r) =
  read_items (read fuel) (String.length r) r [].
Proof.
  intros Hr Hc. cbn [read]. rewrite (skip_ws_opens "[") by reflexivity.
  change (Ascii.eqb "[" "n") with false. change (Ascii.eqb "[" "t") with false.
  change (Ascii.eqb "[" "f") with false.
  change (Ascii.eqb "[" dquote) with false.
  change (Ascii.eqb "[" "[") with true. cbn iota.
  rewrite Hr. unfold opens_value in Hc.
  destruct c as [[|] [|] [|] [|] [|] [|] [|] [|]]; try discriminate Hc;
    reflexivity.
Qed.

Lemma read_brace (fuel : nat) (r : string) (c : ascii) (r' : string) :
  skip_ws r = String c r' -> opens_value c = true ->
  read (S fuel) (String "{" r) =
  read_members (read fuel) (String.length r) r [].
Proof.
  intros Hr Hc. cbn [read]. rewrite (skip_ws_opens "{") by reflexivity.
  change (Ascii.eqb "{" "n") with false. change (Ascii.eqb "{" "t") with false.
  change (Ascii.eqb "{" "f") with false.
  change (Ascii.eqb "{" dquote) with false.
  change (Ascii.eqb "{" "[") with false.
  change (Ascii.eqb "{" "{") with true. cbn iota.
  rewrite Hr. unfold opens_value in Hc.
  destruct c as [[|] [|] [|] [|] [|] [|] [|] [|]]; try discriminate Hc;
    reflexivity.
Qed.

(** Arrays *)

Section Items.
Variable rd : string -> option (pyvalue * string).
Variable level : nat.

Local Abbreviation item := (print_item level).

Lemma read_items_join (xs : list pyvalue) :
  forall (x : pyvalue) (acc : list pyvalue) (n : nat) (rest : string),
    (forall y tail, In y (x :: xs) -> value_end tail = true ->
       rd (break (S level) ++ print (S level) y ++ tail) = Some (y, tail)) ->
    (length xs < n)%nat ->
    read_items rd n
      (break (S level) ++ print (S level) x ++ join item xs
       ++ break level ++ String "]" rest) acc
    = Some (PyList (rev acc ++ x :: xs), rest).
Proof.
  induction xs as [|y ys IH]; intros x acc n rest Hrd Hn;
    (destruct n as [|n]; [lia|]); cbn [read_items join].
  - rewrite app_nil, Hrd; [|now left|reflexivity].
    rewrite skip_ws_break. cbn [skip_ws].
    change (is_ws "]") with false. cbn iota. cbn [rev]. reflexivity.
  - unfold print_item at 1. rewrite !append_assoc.
    rewrite Hrd; [|now left|reflexivity].
    rewrite !app_cons, !app_nil.
    rewrite (skip_ws_opens ",") by reflexivity.
    rewrite IH.
    + cbn [rev]. now rewrite <- app_assoc.
    + intros z tail Hz. apply Hrd. now right.
    + cbn [length] in Hn. lia.
Qed.

End Items.

(** Objects *)

Section Members.
Variable rd : string -> option (pyvalue * string).
Variable level : nat.

Local Abbreviation more := (print_more level).

Lemma read_members_join (ms : list (string * pyvalue)) :
  forall (m : string * pyvalue) (acc : list (string * pyvalue)) (n : nat)
         (rest : string),
    (forall m' tail, In m' (m :: ms) -> value_end tail = true ->
       rd (String " " (print (S level) (snd m') ++ tail))
       = Some (snd m', tail)) ->
    (length ms < n)%nat ->
    read_members rd n
      (break (S level) ++ print_string (fst m)
       ++ String ":" (String " " (print (S level) (snd m) ++ join more ms
                                  ++ break level ++ String "}" rest))) acc
    = Some (PyDict (rev acc ++ m :: ms), rest).
Proof.
  induction ms as [|m1 ms IH]; intros [k x] acc n rest Hrd Hn;
    (destruct n as [|n]; [lia|]); cbn [read_members join];
    rewrite skip_ws_break; unfold print_string at 1; cbn [fst snd];
    rewrite !app_cons, !append_assoc, !app_cons, !app_nil;
    rewrite (skip_ws_opens dquote) by reflexivity;
    change (Ascii.eqb dquote dquote) with true; cbn iota;
    rewrite read_chars_escape;
    rewrite (skip_ws_opens ":") by reflexivity.
  - rewrite (Hrd (k, x)); [|now left|reflexivity]. cbn [snd].
    rewrite skip_ws_break. cbn [skip_ws].
    change (is_ws "}") with false. cbn iota. cbn [rev]. reflexivity.
  - unfold print_more at 1, print_member at 1.
    rewrite !append_assoc, !app_cons, !app_nil.
    rewrite (Hrd (k, x)); [|now left|reflexivity]. cbn [snd].
    rewrite (skip_ws_opens ",") by reflexivity.
    rewrite IH.
    + cbn [rev]. now rewrite <- app_assoc.
    + intros z tail Hz. apply Hrd. now right.
    + cbn [length] in Hn. lia.
Qed.

End Members.

(** Lengths *)

Lemma join_length {A} (f : A -> string) (l : list A) :
  (forall x, (1 <= String.length (f x))%nat) ->
  (length l <= String.length (join f l))%nat.
Proof.
  intros Hf. induction l as [|x l IH]; cbn [join length]; [lia|].
  rewrite length_append. specialize (Hf x). lia.
Qed.

Lemma join_length_in {A} (f : A -> string) (l : list A) (x : A) :
  In x l -> (String.length (f x) <= String.length (join f l))%nat.
Proof.
  induction l as [|y l IH]; [contradiction|]. intros [->|Hx]; cbn [join];
    rewrite length_append; [lia|]. specialize (IH Hx). lia.
Qed.

Lemma pyvalue_nested_ind (P : pyvalue -> Prop) :
  P PyNone -> (forall b, P (PyBool b)) -> (forall z, P (PyInt z)) ->
  (forall s, P (PyStr s)) ->
  (forall items, Forall P items -> P (PyList items)) ->
  (forall items, Forall (fun kv => P (snd kv)) items -> P (PyDict items)) ->
  forall v, P v.
Proof.
  intros HN HB HI HS HL HD. fix IH 1. intros [ |b|z|s|items|items].
  - exact HN.
  - apply HB.
  - apply HI.
  - apply HS.
  - apply HL.
    induction items as [|x items IHi]; constructor; [apply IH | exact IHi].
  - apply HD.
    induction items as [|[k x] items IHi]; constructor; [apply IH | exact IHi].
Qed.

Lemma read_space (fuel : nat) (s : string) :
  read fuel (String " " s) = read fuel s.
Proof. now rewrite <- read_skip_ws, <- (read_skip_ws fuel s). Qed.

Lemma value_end_comma (s : string) : value_end (String "," s) = true.
Proof. reflexivity. Qed.

Lemma value_end_break (level : nat) (s : string) :
  value_end (break level ++ s) = true.
Proof. reflexivity. Qed.

Lemma read_print (v : pyvalue) :
  forall (level : nat) (rest : string) (fuel : nat),
    (String.length (print level v) <= fuel)%nat ->
    value_end rest = true ->
    read fuel (print level v ++ rest) = Some (v, rest).
Proof.
  induction v as [ |b|z|s|items IH|items IH] using pyvalue_nested_ind;
    intros level rest fuel Hfuel Hrest.
  - destruct fuel as [|fuel]; [cbn in Hfuel; lia | reflexivity].
  - destruct fuel as [|fuel]; [destruct b; cbn in Hfuel; lia|].
    destruct b; reflexivity.
  - destruct (print_int_head z) as (c & r & E & Hc).
    cbn [print] in *. rewrite E in Hfuel.
    destruct fuel as [|fuel]; [cbn in Hfuel; lia|].
    pose proof (read_int_print_int z rest Hrest) as Hint.
    rewrite E in *. rewrite app_cons in *.
    now rewrite (read_number fuel c _ Hc), Hint.
  - destruct fuel as [|fuel]; [cbn in Hfuel; lia|].
    cbn [print]. unfold print_string.
    rewrite app_cons, append_assoc, app_cons, app_nil, read_quote.
    now rewrite read_chars_escape.
  - destruct items as [|x xs].
    { destruct fuel as [|fuel]; [cbn in Hfuel; lia | reflexivity]. }
    cbn [print] in *.
    set (item := fun y => "," ++ break (S level) ++ print (S level) y) in *.
    rewrite !append_assoc, !app_cons, !app_nil in *.
    cbn [String.length] in Hfuel. rewrite !length_append in Hfuel.
    destruct fuel as [|fuel]; [lia|].
    destruct (print_head (S level) x) as (c & r & E & Hc).
    erewrite read_bracket;
      [|rewrite skip_ws_break, E, app_cons; now apply skip_ws_opens|exact Hc].
    apply (read_items_join (read fuel) level xs x []).
    + intros y tail Hy Htail. rewrite read_break.
      rewrite Forall_forall in IH. apply IH; [now apply list_elem_of_In| |exact Htail].
      destruct Hy as [<-|Hy]; [lia|].
      pose proof (join_length_in item xs y Hy) as Hj.
      unfold item at 1 in Hj. rewrite !length_append in Hj. lia.
    + rewrite !length_append.
      pose proof (join_length item xs) as Hj.
      assert (Hitem : forall y, (1 <= String.length (item y))%nat).
      { intros y. unfold item. rewrite app_cons. cbn [String.length]. lia. }
      specialize (Hj Hitem). cbn [String.length]. lia.
  - destruct items as [|[k x] ms].
    { destruct fuel as [|fuel]; [cbn in Hfuel; lia | reflexivity]. }
    cbn [print] in *.
    rewrite !append_assoc, !app_cons, !app_nil in *.
    repeat (cbn [String.length] in Hfuel; rewrite ?length_append in Hfuel).
    destruct fuel as [|fuel]; [lia|].
    erewrite read_brace;
      [|rewrite skip_ws_break; unfold print_string; cbn [fst];
        rewrite !app_cons; now apply skip_ws_opens|reflexivity].
    match type of Hfuel with
    | context [join ?f ms] => pose proof (join_length f ms) as Hlen;
                              pose proof (join_length_in f ms) as Hin
    end.
    apply (read_members_join (read fuel) level ms (k, x) []).
    + intros m' tail Hm Htail. rewrite read_space.
      rewrite Forall_forall in IH.
      apply (IH m'); [now apply list_elem_of_In| |exact Htail].
      destruct Hm as [<-|Hm]; [cbn [snd] in *; lia|].
      specialize (Hin m' Hm). cbv beta in Hin.
      repeat (cbn [String.length] in Hin;
              rewrite ?app_cons, ?app_nil, ?length_append in Hin).
      lia.
    + repeat (cbn [String.length]; rewrite ?length_append).
      assert (Hmore : forall y : string * pyvalue,
                (1 <= String.length
                        ("," ++ break (S level) ++ print_string (fst y)
                         ++ ": " ++ print (S level) (snd y)))%nat).
      { intros y. rewrite app_cons. cbn [String.length]. lia. }
      specialize (Hlen Hmore). lia.
Qed.

Lemma json_loads_dumps (v : pyvalue) : json_loads (json_dumps v) = Some v.
Proof.
  unfold json_loads, json_dumps.
  pose proof (read_print v 0 EmptyString (String.length (print 0 v))
                (Nat.le_refl _) eq_refl) as H.
  assert (E : print 0 v ++ EmptyString = print 0 v).
  { generalize (print 0 v). intros s.
    induction s as [|c s IH]; rewrite ?app_nil, ?app_cons; [reflexivity|].
    now f_equal. }
  rewrite E in H. now rewrite H.
Qed.

Lemma json_load_dumps (v : pyvalue) : json_load (json_dumps v) = Py.Ok v.
Proof. unfold json_load. now rewrite json_loads_dumps. Qed.

End JsonTextSpec.

(** ** The theorems at sample inputs *)
Module Witnesses.
Import PyNum TimeUtils Config Cookies Examples.
Local Open Scope string_scope.


Lemma sync_all_rounds_fail_witness :
  (forall k, (k < 3)%nat -> round_fails world_offline k)
  /\ fst (fst (sync TimeSync_init world_offline))
     = Py.Ok (Int 5006, Int 5006, Int 0)
  /\ _time_diff (snd (fst (sync TimeSync_init world_offline))) = Int 0.
Proof.
  assert (Hfail : forall k, (k < 3)%nat -> round_fails world_offline k).
  { intros k _. left. reflexivity. }
  split; [exact Hfail|].
  destruct (TimeSyncSpec.sync_all_rounds_fail TimeSync_init world_offline
              Hfail) as (H1 & _ & _ & H4).
  split; [exact H1 | exact H4].
Defined.


Lemma get_remaining_parts_decomposition_witness :
  0 <= value (Int 90061500)
  /\ split_parts (Int 90061500) = (Int 1, Int 1, Int 1, Int 1, Int 500).
Proof.
  assert (H : 0 <= value (Int 90061500)) by (vm_compute; discriminate).
  split; [exact H|].
  exact (proj2 (proj2 (CountdownSpec.get_remaining_parts_decomposition
                         timer_open_at_100 world_offline (Int 90061500) H))).
Defined.

Lemma no_target_is_ready_witness :
  wait_until_ready 1 (CountdownTimer_init TimeSync_init) (Int 100) world_offline
  = (Some (Py.Ok tt), world_offline).
Proof.
  assert (H : 0 <= value (Int 100)) by (vm_compute; discriminate).
  exact (proj1 (proj2 (proj2 (CountdownSpec.no_target_is_ready
           (CountdownTimer_init TimeSync_init) world_offline (Int 100) 0
           eq_refl H)))).
Defined.


Lemma validate_thread_and_interval_witness :
  let cfg := set_thread cfg_minimal 50 in
  ProcessConfig.thread (process (app_config (validate cfg))) = 20%Z
  /\ In warn_thread (warnings (validate cfg))
  /\ errors (validate cfg) = field_errors cfg.
Proof.
  apply (proj1 (ValidateSpec.validate_thread_and_interval
                  (set_thread cfg_minimal 50))).
  reflexivity.
Defined.

Lemma validate_required_fields_witness : errors (validate cfg_minimal) = [].
Proof.
  destruct (ValidateSpec.validate_required_fields cfg_minimal)
    as (_ & _ & _ & _ & Hok & _).
  apply Hok; try discriminate; try reflexivity.
  - simpl. tauto.
  - split; discriminate.
Defined.



End Witnesses.

(** ** More on [TimeSync.sync] *)
Module TimeSyncMore.
Import Py PyNum TimeUtils SortFacts TimeSyncSpec.

Lemma in_round_sample (w : World) (k : nat) (s : sample) :
  In s (round_sample w k) ->
  exists srv : Z,
    server w (requests w + k) = Some srv /\ srv <> 0%Z
    /\ s = (Int srv,
            add (Int (clock w (clock_reads w + 2 * k)))
                (truediv (sub (Int (clock w (clock_reads w + 2 * k + 1)))
                              (Int (clock w (clock_reads w + 2 * k)))) (Int 2)),
            sub (add (Int (clock w (clock_reads w + 2 * k)))
                (truediv (sub (Int (clock w (clock_reads w + 2 * k + 1)))
                              (Int (clock w (clock_reads w + 2 * k)))) (Int 2)))
                (Int srv)).
Proof.
  unfold round_sample. destruct (server w (requests w + k)) as [srv|]; [|easy].
  rewrite truthy_Int. destruct (srv =? 0)%Z eqn:E; cbn [negb]; [easy|].
  intros [<-|[]]. exists srv. apply Z.eqb_neq in E. auto.
Qed.

Lemma in_collect_samples (w : World) (s : sample) :
  In s (fst (collect_samples w)) ->
  exists k, (k < 3)%nat /\ In s (round_sample w k).
Proof.
  rewrite collect_samples_eq. cbn [fst]. rewrite !in_app_iff.
  intros [H|[H|H]]; [exists 0%nat|exists 1%nat|exists 2%nat]; split; auto; lia.
Qed.

Lemma sample_diff_is_float (w : World) (s : sample) :
  In s (fst (collect_samples w)) -> is_float (sample_diff s) = true.
Proof.
  intros Hs. apply in_collect_samples in Hs as (k & _ & Hs).
  apply in_round_sample in Hs as (srv & _ & _ & ->). reflexivity.
Qed.

Lemma median_sample_in (first : sample) (rest : list sample) :
  In (median_sample first rest) (first :: rest).
Proof.
  unfold median_sample.
  destruct (nth_in_or_default (length (first :: rest) / 2)
              (sort_by_diff (first :: rest)) first) as [Hin | ->].
  - eapply Permutation_in; [apply sort_by_diff_perm | exact Hin].
  - now left.
Qed.

Lemma median_of_one (c : sample) : median_sample c [] = c.
Proof. reflexivity. Qed.

Lemma median_of_two (a b : sample) :
  median_sample a [b] = if lt (sample_diff b) (sample_diff a) then a else b.
Proof.
  unfold median_sample. cbn [sort_by_diff insert_by_diff length].
  change (2 / 2)%nat with 1%nat.
  destruct (lt (sample_diff b) (sample_diff a)); reflexivity.
Qed.

(** The stored offset after a [sync] in which some round gave a sample
    is a float. *)
Lemma sync_offset_is_float (self : TimeSync) (w : World) :
  fst (collect_samples w) <> [] ->
  is_float (_time_diff (snd (fst (sync self w)))) = true.
Proof.
  intros Hne. destruct (fst (collect_samples w)) as [|first rest] eqn:E;
    [contradiction|].
  rewrite (sync_some_samples self w first rest E). cbv zeta. cbn [fst snd _time_diff].
  apply (sample_diff_is_float w). rewrite E. apply median_sample_in.
Qed.




End TimeSyncMore.

(** ** [CountdownTimer.wait_until_ready] and [format_remaining] *)
Module WaitSpec.
Import Py PyNum TimeUtils SortFacts TimeSyncSpec CountdownSpec TimeSyncMore.
Local Open Scope string_scope.

Lemma get_remaining_ms_slept (self : CountdownTimer) (w : World) :
  slept (snd (get_remaining_ms self w)) = slept w.
Proof.
  unfold get_remaining_ms. destruct (_target_time self); reflexivity.
Qed.

Lemma format_remaining_world (self : CountdownTimer) (w : World) :
  snd (format_remaining self w) = snd (get_remaining_ms self w).
Proof.
  unfold format_remaining, get_remaining_parts, bind, ret.
  destruct (get_remaining_ms self w) as [r w1]. cbn [snd].
  destruct (split_parts r) as [[[[days hours] minutes] seconds] ms].
  reflexivity.
Qed.

(** With an [int] offset the remaining time is an [int]. *)
Lemma remaining_is_int (self : CountdownTimer) (w : World) :
  is_float (_time_diff (time_sync self)) = false ->
  is_float (fst (get_remaining_ms self w)) = false.
Proof.
  intros Hd. unfold get_remaining_ms. destruct (_target_time self); [|reflexivity].
  unfold get_server_time, _local_time, bind, ret. cbn [fst].
  destruct (_time_diff (time_sync self)) as [z|q]; [|discriminate].
  cbn [sub]. unfold py_max.
  match goal with |- context [lt ?a ?b] => destruct (lt a b) end; reflexivity.
Qed.

(** With a [float] offset a remaining time above 0 is a [float]. *)
Lemma remaining_is_float (self : CountdownTimer) (target : datetime)
    (w : World) :
  _target_time self = Some target ->
  is_float (_time_diff (time_sync self)) = true ->
  lt (Int 0) (fst (get_remaining_ms self w)) = true ->
  is_float (fst (get_remaining_ms self w)) = true.
Proof.
  intros Ht Hd. unfold get_remaining_ms. rewrite Ht.
  unfold get_server_time, _local_time, bind, ret. cbn [fst].
  destruct (_time_diff (time_sync self)) as [z|q]; [discriminate|].
  cbn [sub]. unfold py_max.
  match goal with |- context [if lt ?a ?b then _ else _] => destruct (lt a b) end.
  - discriminate.
  - reflexivity.
Qed.

Lemma format_remaining_of_int (self : CountdownTimer) (w : World) :
  is_float (fst (get_remaining_ms self w)) = false ->
  fst (format_remaining self w) = Ok tt.
Proof.
  unfold format_remaining, get_remaining_parts, bind, ret.
  destruct (get_remaining_ms self w) as [r w1]. cbn [fst].
  destruct r as [z|q]; [|discriminate]. intros _.
  cbn [split_parts floordiv pymod fst format_d is_float].
  match goal with |- context [if ?c then _ else _] => destruct c end;
    reflexivity.
Qed.

Lemma format_remaining_of_float (self : CountdownTimer) (w : World) :
  is_float (fst (get_remaining_ms self w)) = true ->
  fst (format_remaining self w) = Raise (ValueError "Unknown format code 'd'").
Proof.
  unfold format_remaining, get_remaining_parts, bind, ret.
  destruct (get_remaining_ms self w) as [r w1]. cbn [fst].
  destruct r as [z|q]; [discriminate|]. intros _.
  cbn [split_parts floordiv pymod fst format_d is_float].
  match goal with |- context [if ?c then _ else _] => destruct c end;
    reflexivity.
Qed.

Lemma lt_Int_mono (a b : Z) (r : num) :
  (b <= a)%Z -> lt (Int a) r = true -> lt (Int b) r = true.
Proof.
  unfold lt. rewrite !negb_true_iff. intros Hab H.
  destruct (Qle_bool (value r) (value (Int b))) eqn:E; [|reflexivity].
  apply Qle_bool_iff in E.
  assert (Hle : value r <= value (Int a)).
  { eapply Qle_trans; [exact E|]. cbn [value]. now rewrite <- Zle_Qle. }
  apply Qle_bool_iff in Hle. congruence.
Qed.

(** The pause of one pass of the loop on [remaining] milliseconds. *)
Lemma wait_step (fuel : nat) (self : CountdownTimer) (advance_ms : num)
    (w : World) :
  wait_until_ready (S fuel) self advance_ms w =
  let r := fst (get_remaining_ms self w) in
  let w1 := snd (get_remaining_ms self w) in
  if le r advance_ms then (Some (Ok tt), w1)
  else if lt (Int 1000) r then
    match fst (format_remaining self w1) with
    | Raise e => (Some (Raise e), snd (format_remaining self w1))
    | Ok _ =>
        wait_until_ready fuel self advance_ms
          (snd (sleep (if lt (Int 60000) r then 10
                       else if lt (Int 10000) r then 1 else 0.1)
                      (snd (format_remaining self w1))))
    end
  else wait_until_ready fuel self advance_ms (snd (sleep 0.001 w1)).
Proof.
  cbn [wait_until_ready]. unfold bind at 1.
  destruct (get_remaining_ms self w) as [r w1]. cbv zeta. cbn [fst snd].
  destruct (le r advance_ms); [reflexivity|].
  destruct (lt (Int 60000) r) eqn:L1.
  { rewrite (lt_Int_mono 60000 1000 r ltac:(lia) L1).
    unfold bind, ret. destruct (format_remaining self w1) as [[u|e] w2];
      reflexivity. }
  destruct (lt (Int 10000) r) eqn:L2.
  { rewrite (lt_Int_mono 10000 1000 r ltac:(lia) L2).
    unfold bind, ret. destruct (format_remaining self w1) as [[u|e] w2];
      reflexivity. }
  destruct (lt (Int 1000) r) eqn:L3.
  { unfold bind, ret. destruct (format_remaining self w1) as [[u|e] w2];
      reflexivity. }
  reflexivity.
Qed.


(** X5.  With an [int] offset (as before any successful [sync])
    [format_remaining] never raises, and neither does
    [wait_until_ready]. *)
Theorem wait_until_ready_int_offset (self : CountdownTimer)
    (advance_ms : num) :
  is_float (_time_diff (time_sync self)) = false ->
  (forall w, fst (format_remaining self w) = Ok tt)
  /\ forall fuel w e,
       fst (wait_until_ready fuel self advance_ms w) <> Some (Raise e).
Proof.
  intros Hd.
  assert (Hfmt : forall w, fst (format_remaining self w) = Ok tt)
    by (intros w; apply format_remaining_of_int, remaining_is_int, Hd).
  split; [exact Hfmt|].
  induction fuel as [|fuel IH]; intros w e; [discriminate|].
  rewrite wait_step. cbv zeta.
  destruct (le _ advance_ms); [discriminate|].
  destruct (lt (Int 1000) _); [|apply IH].
  rewrite Hfmt. apply IH.
Qed.

(** X6.  [wait_until_ready] returns only on a reading of the remaining
    time that is at most the advance, and every pause it made before is
    one of 10, 1, 0.1 and 0.001 seconds. *)
Theorem wait_until_ready_returns_when_due (self : CountdownTimer)
    (advance_ms : num) (fuel : nat) (w w' : World) :
  wait_until_ready fuel self advance_ms w = (Some (Ok tt), w') ->
  exists (w0 : World) (pauses : list Q),
    snd (get_remaining_ms self w0) = w'
    /\ le (fst (get_remaining_ms self w0)) advance_ms = true
    /\ slept w' = (pauses ++ slept w)%list
    /\ Forall (fun d => In d [10; 1; 0.1; 0.001]) pauses.
Proof.
  revert w. induction fuel as [|fuel IH]; intros w; [discriminate|].
  rewrite wait_step. cbv zeta.
  destruct (le (fst (get_remaining_ms self w)) advance_ms) eqn:Hle.
  { intros [= <-]. exists w, []. rewrite get_remaining_ms_slept. auto. }
  assert (Hstep : forall d w2,
            In d [10; 1; 0.1; 0.001] ->
            slept w2 = slept w ->
            wait_until_ready fuel self advance_ms (snd (sleep d w2))
            = (Some (Ok tt), w') ->
            exists (w0 : World) (pauses : list Q),
              snd (get_remaining_ms self w0) = w'
              /\ le (fst (get_remaining_ms self w0)) advance_ms = true
              /\ slept w' = (pauses ++ slept w)%list
              /\ Forall (fun d => In d [10; 1; 0.1; 0.001]) pauses).
  { intros d w2 Hd Hs Hrun. apply IH in Hrun as (w0 & pauses & H1 & H2 & H3 & H4).
    exists w0, (pauses ++ [d])%list. repeat split; try assumption.
    - rewrite H3. cbn [sleep snd slept]. rewrite Hs.
      now rewrite <- app_assoc.
    - apply Forall_app. split; [exact H4 | now constructor]. }
  destruct (lt (Int 1000) _).
  - destruct (fst (format_remaining self _)) eqn:Hf; [|discriminate].
    apply Hstep.
    + destruct (lt (Int 60000) _); [|destruct (lt (Int 10000) _)];
        simpl; tauto.
    + now rewrite format_remaining_world, !get_remaining_ms_slept.
  - apply Hstep; [simpl; tauto | apply get_remaining_ms_slept].
Qed.

(** X7.  The remaining time is never negative, so with a negative
    advance [wait_until_ready] never returns; with an [int] offset it
    does not raise either: every pass of the loop ends in a pause, for
    ever. *)
Theorem wait_until_ready_negative_advance (self : CountdownTimer)
    (advance_ms : num) :
  value advance_ms < 0 ->
  (forall fuel w, fst (wait_until_ready fuel self advance_ms w) <> Some (Ok tt))
  /\ (is_float (_time_diff (time_sync self)) = false ->
      forall fuel w,
        fst (wait_until_ready fuel self advance_ms w) = None
        /\ length (slept (snd (wait_until_ready fuel self advance_ms w)))
           = (length (slept w) + fuel)%nat).
Proof.
  intros Hneg.
  assert (Hle : forall w, le (fst (get_remaining_ms self w)) advance_ms = false).
  { intros w. unfold le. apply not_true_is_false. intros H.
    apply Qle_bool_iff in H.
    pose proof (get_remaining_ms_nonneg self w) as H0. lra. }
  split.
  - induction fuel as [|fuel IH]; intros w; [discriminate|].
    rewrite wait_step. cbv zeta. rewrite Hle.
    destruct (lt (Int 1000) _); [|apply IH].
    destruct (fst (format_remaining self _)); [apply IH | discriminate].
  - intros Hd.
    induction fuel as [|fuel IH]; intros w; [split; [reflexivity | cbn; lia]|].
    rewrite wait_step. cbv zeta. rewrite Hle.
    destruct (lt (Int 1000) _).
    + rewrite format_remaining_of_int by (apply remaining_is_int, Hd).
      match goal with
      | |- context [wait_until_ready fuel self advance_ms ?w2] =>
          destruct (IH w2) as [H1 H2]
      end.
      split; [exact H1|]. rewrite H2. cbn [sleep snd slept length].
      rewrite format_remaining_world, !get_remaining_ms_slept. lia.
    + match goal with
      | |- context [wait_until_ready fuel self advance_ms ?w2] =>
          destruct (IH w2) as [H1 H2]
      end.
      split; [exact H1|]. rewrite H2. cbn [sleep snd slept length].
      rewrite get_remaining_ms_slept. lia.
Qed.

End WaitSpec.

(** ** The estimate of the server time, and the old interface *)
Module ServerTimeSpec.
Import Py PyNum TimeUtils SortFacts TimeSyncSpec CountdownSpec TimeSyncMore.
Import TimeLegacy.
Local Open Scope string_scope.

Lemma median_is_round_sample (first : sample) (rest : list sample) (w : World) :
  fst (collect_samples w) = first :: rest ->
  exists (srv : Z) (l : num),
    median_sample first rest = (Int srv, l, sub l (Int srv)).
Proof.
  intros E. pose proof (median_sample_in first rest) as Hin.
  rewrite <- E in Hin. apply in_collect_samples in Hin as (k & _ & Hin).
  apply in_round_sample in Hin as (srv & _ & _ & ->). eauto.
Qed.

Lemma get_server_time_value (self : TimeSync) (w : World) :
  value (fst (get_server_time self w))
  == inject_Z (clock w (clock_reads w)) - value (_time_diff self).
Proof.
  unfold get_server_time, _local_time, bind, ret. cbn [fst].
  apply value_sub.
Qed.



(** X29.  The countdown never goes up while the clock goes forward: a
    later clock reading gives a remaining time that is not larger, and
    once [is_time_to_start] is true it stays true. *)
Theorem remaining_decreases_with_clock (self : CountdownTimer)
    (w1 w2 : World) :
  (clock w1 (clock_reads w1) <= clock w2 (clock_reads w2))%Z ->
  value (fst (get_remaining_ms self w2)) <= value (fst (get_remaining_ms self w1))
  /\ (fst (is_time_to_start self w1) = true ->
      fst (is_time_to_start self w2) = true).
Proof.
  intros Hclock.
  assert (Hle : value (fst (get_remaining_ms self w2))
                <= value (fst (get_remaining_ms self w1))).
  { destruct (_target_time self) as [target|] eqn:Ht.
    - rewrite !(get_remaining_ms_target self target) by exact Ht.
      rewrite !value_py_max, !value_sub, !get_server_time_value.
      apply Q.max_le_compat_r. rewrite Zle_Qle in Hclock. lra.
    - unfold get_remaining_ms. rewrite Ht. apply Qle_refl. }
  split; [exact Hle|].
  rewrite !is_time_to_start_eq, !Qle_bool_iff. intros H1.
  eapply Qle_trans; [exact Hle | exact H1].
Qed.

Lemma nth_error_skipn {A} (l : list A) (i : nat) (x : A) :
  nth_error l i = Some x -> skipn i l = x :: skipn (S i) l.
Proof.
  revert i. induction l as [|y l IH]; intros [|i]; cbn; try discriminate.
  - now intros [= ->].
  - apply IH.
Qed.

Lemma format_units_eq (countdown_times : list string) :
  forall i, (i <= 5)%nat ->
    format_units i countdown_times =
    if (length countdown_times + i <=? 5)%nat
    then Some (map (fun p => fst p ++ snd p)
                   (combine countdown_times (skipn i countdown_time_units)))
    else None.
Proof.
  induction countdown_times as [|t rest IH]; intros i Hi.
  - cbn [format_units length combine map Nat.add].
    now replace (i <=? 5)%nat with true by (symmetry; apply Nat.leb_le; lia).
  - cbn [format_units length].
    destruct (nth_error countdown_time_units i) as [unit|] eqn:E.
    + assert (Hlt : (i < 5)%nat)
        by (change 5%nat with (length countdown_time_units);
            apply nth_error_Some; congruence).
      rewrite (IH (S i)) by lia. rewrite (nth_error_skipn _ _ _ E).
      replace (S (length rest) + i)%nat with (length rest + S i)%nat by lia.
      destruct (length rest + S i <=? 5)%nat; reflexivity.
    + apply nth_error_None in E. change (length countdown_time_units) with 5%nat in E.
      now replace (S (length rest) + i <=? 5)%nat with false
        by (symmetry; apply Nat.leb_gt; lia).
Qed.

(** X10.  [format_countdown_time] puts the units day, hour, minute,
    second, millisecond after the parts in this order and joins them
    with spaces; fewer than five parts use the first units, and more
    than five parts raise the [IndexError] of the sixth unit. *)
Theorem format_countdown_time_bounds (countdown_times : list string) :
  format_countdown_time countdown_times =
  if (length countdown_times <=? 5)%nat
  then Some (String.concat " "
               (map (fun p => fst p ++ snd p)
                    (combine countdown_times countdown_time_units)))
  else None.
Proof.
  unfold format_countdown_time. rewrite (format_units_eq _ 0) by lia.
  rewrite Nat.add_0_r. cbn [skipn].
  destruct (length countdown_times <=? 5)%nat; reflexivity.
Qed.

End ServerTimeSpec.

(** ** More on the [retry] decorator *)
Module RetryMore.
Import Retry.

Section Facts.
Context {A E : Type}.
Variable max_attempts : Z.
Variable delay : Q.
Variable exceptions : E -> bool.

Local Abbreviation attempts :=
  (@Retry.attempts A E max_attempts delay exceptions).
Local Abbreviation wrapper :=
  (@Retry.wrapper A E max_attempts delay exceptions).
Local Abbreviation fails_at := (@Retry.fails_at A E exceptions).

(** The warnings of [k] failed passes from pass [attempt] on, latest
    first. *)
Local Abbreviation warnings_of attempt k :=
  (rev (map (fun j => Warning (attempt + Z.of_nat j)) (seq 0 k))).

Lemma warnings_shift (attempt : Z) (k : nat) (l : list log_record) :
  warnings_of (attempt + 1)%Z k ++ Warning attempt :: l
  = warnings_of attempt (S k) ++ l.
Proof.
  cbn [seq map rev]. rewrite <- seq_shift, map_map, <- app_assoc.
  cbn [app]. f_equal.
  - f_equal. apply map_ext. intros j. f_equal. lia.
  - f_equal. f_equal. lia.
Qed.

Lemma fails_at_shift (env env' : Env A E) (k : nat) :
  func env' = func env -> calls env' = S (calls env) ->
  (forall j, (j < S k)%nat -> fails_at env j) ->
  forall j, (j < k)%nat -> fails_at env' j.
Proof.
  intros Hf Hc Hfail j Hj.
  destruct (Hfail (S j) ltac:(lia)) as (e & He & Hx).
  exists e. split; [|exact Hx]. rewrite Hf, Hc.
  now replace (S (calls env) + j)%nat with (calls env + S j)%nat by lia.
Qed.

(** The pass that ends the loop early: the call returns, or raises an
    exception outside the filter. *)
Lemma attempts_stop (k : nat) (o : outcome A E) :
  forall todo attempt last env,
    (k < todo)%nat ->
    (attempt + Z.of_nat todo = max_attempts + 1)%Z ->
    (forall j, (j < k)%nat -> fails_at env j) ->
    match func env (calls env + k) with
    | inr a => o = Returned a
    | inl e => exceptions e = false /\ o = Raised e
    end ->
    let r := attempts todo attempt last env in
    fst r = o
    /\ calls (snd r) = (calls env + S k)%nat
    /\ slept (snd r) = repeat delay k ++ slept env
    /\ logged (snd r) = warnings_of attempt k ++ logged env.
Proof.
  induction k as [|k IH]; intros todo attempt last env Hk Hatt Hfail Hend;
    (destruct todo as [|todo]; [lia|]); cbn [Retry.attempts]; unfold call.
  - replace (calls env + 0)%nat with (calls env) in Hend by lia.
    destruct (func env (calls env)) as [e|a].
    + destruct Hend as [-> ->]. cbn. repeat split. lia.
    + subst o. cbn. repeat split. lia.
  - destruct (Hfail 0%nat ltac:(lia)) as (e & He & Hc).
    replace (calls env + 0)%nat with (calls env) in He by lia.
    rewrite He, Hc.
    replace (attempt <? max_attempts)%Z with true
      by (symmetry; apply Z.ltb_lt; lia).
    match goal with
    | |- context [Retry.attempts _ _ _ todo ?a' ?l ?env'] =>
        specialize (IH todo a' l env')
    end.
    cbn [calls func slept logged sleep log] in IH.
    destruct IH as (H1 & H2 & H3 & H4).
    + lia.
    + lia.
    + apply (fails_at_shift env); [reflexivity | reflexivity | exact Hfail].
    + replace (S (calls env) + k)%nat with (calls env + S k)%nat by lia.
      exact Hend.
    + cbv zeta. rewrite H1, H2, H3, H4. repeat split.
      * lia.
      * apply RetrySpec.repeat_shift.
      * apply warnings_shift.
Qed.

(** All the passes fail with exceptions of the filter. *)
Lemma attempts_exhausted (todo : nat) :
  forall attempt last env,
    (attempt + Z.of_nat (S todo) = max_attempts + 1)%Z ->
    (forall j, (j < S todo)%nat -> fails_at env j) ->
    logged (snd (attempts (S todo) attempt last env))
    = Error :: warnings_of attempt todo ++ logged env.
Proof.
  induction todo as [|todo IH]; intros attempt last env Hatt Hfail;
    destruct (Hfail 0%nat ltac:(lia)) as (e & He & Hc);
    replace (calls env + 0)%nat with (calls env) in He by lia.
  - cbn [Retry.attempts]. unfold call. rewrite He, Hc.
    replace (attempt <? max_attempts)%Z with false
      by (symmetry; apply Z.ltb_ge; lia).
    reflexivity.
  - remember (S todo) as n eqn:Hn.
    cbn [Retry.attempts]. unfold call. rewrite He, Hc.
    replace (attempt <? max_attempts)%Z with true
      by (symmetry; apply Z.ltb_lt; lia).
    subst n. rewrite IH.
    + cbn [logged sleep log]. f_equal. apply warnings_shift.
    + lia.
    + apply (fails_at_shift env); [reflexivity | reflexivity | exact Hfail].
Qed.

(** After a pass, [last_exception] is set: the loop cannot end in
    [raise None]. *)
Lemma attempts_last_set (todo : nat) :
  forall attempt (e : E) env,
    fst (attempts todo attempt (Some e) env) <> RaisedNone.
Proof.
  induction todo as [|todo IH]; intros attempt e env; cbn [Retry.attempts].
  - discriminate.
  - unfold call. destruct (func env (calls env)) as [e'|a]; [|discriminate].
    destruct (exceptions e'); [apply IH | discriminate].
Qed.


(** X12.  The wrapper ends in [raise None] (a [TypeError]) exactly when
    [max_attempts] is below 1, and then it has not called the function,
    slept or logged. *)
Theorem retry_without_attempts (env : Env A E) :
  (fst (wrapper env) = RaisedNone <-> (max_attempts < 1)%Z)
  /\ ((max_attempts < 1)%Z -> snd (wrapper env) = env).
Proof.
  unfold Retry.wrapper. split; [split|].
  - intros H. destruct (Z.to_nat max_attempts) as [|todo] eqn:EN; [lia|].
    exfalso. revert H. cbn [Retry.attempts]. unfold call.
    destruct (func env (calls env)) as [e|a]; [|discriminate].
    destruct (exceptions e); [apply attempts_last_set | discriminate].
  - intros H. now replace (Z.to_nat max_attempts) with 0%nat by lia.
  - intros H. now replace (Z.to_nat max_attempts) with 0%nat by lia.
Qed.


End Facts.

End RetryMore.

(** ** More on [CookieManager] *)
Module CookiesMore.
Import Py Cookies CookiesSpec CookiesLegacy.

Section Facts.
Context `{Json}.

Lemma write_lookup_ne (self : CookieManager) (v : pyvalue) (fs : filesystem)
    (path : string) :
  path <> cookie_file self -> snd (write self v fs) !! path = fs !! path.
Proof.
  intros Hne. unfold write, write_text.
  destruct (fs !! cookie_file self) as [[text|]|]; cbn [snd];
    try reflexivity; now apply lookup_insert_ne.
Qed.

Lemma delete_lookup_ne (self : CookieManager) (fs : filesystem)
    (path : string) :
  path <> cookie_file self -> snd (delete_ self fs) !! path = fs !! path.
Proof.
  intros Hne. unfold delete_, exists_, remove.
  destruct (fs !! cookie_file self) as [[text|]|]; cbn [snd];
    try reflexivity; now apply lookup_delete_ne.
Qed.

(** [read] looks at the cookie path only. *)
Lemma read_ext (self : CookieManager) (fs fs' : filesystem) :
  fs' !! cookie_file self = fs !! cookie_file self ->
  read self fs' = read self fs.
Proof. intros E. unfold read, exists_, read_text. now rewrite E. Qed.

Lemma delete_regular (self : CookieManager) (fs : filesystem) :
  fs !! cookie_file self <> Some Dir ->
  delete_ self fs = (true, delete (cookie_file self) fs).
Proof.
  intros Hd. unfold delete_, exists_, remove.
  destruct (fs !! cookie_file self) as [[text|]|] eqn:E;
    [reflexivity | congruence |].
  now rewrite delete_id.
Qed.


(** X15.  [write] and [delete] touch the cookie path only: every other
    path keeps what it held, so a manager on another file reads what it
    read before. *)
Theorem cookie_other_paths_untouched (self other : CookieManager)
    (v : pyvalue) (fs : filesystem) :
  cookie_file other <> cookie_file self ->
  (forall path, path <> cookie_file self ->
     snd (write self v fs) !! path = fs !! path
     /\ snd (delete_ self fs) !! path = fs !! path)
  /\ read other (snd (write self v fs)) = read other fs
  /\ read other (snd (delete_ self fs)) = read other fs.
Proof.
  intros Hne. repeat apply conj.
  - intros path Hp. split; [now apply write_lookup_ne | now apply delete_lookup_ne].
  - apply read_ext. now apply write_lookup_ne.
  - apply read_ext. now apply delete_lookup_ne.
Qed.

(** X16.  When the cookie path is a directory every operation fails
    softly: [write] and [delete] return false and [read] returns None,
    and the file system is left as it was. *)
Theorem cookie_path_is_directory (self : CookieManager) (v : pyvalue)
    (fs : filesystem) :
  fs !! cookie_file self = Some Dir ->
  write self v fs = (false, fs)
  /\ read self fs = PyNone
  /\ delete_ self fs = (false, fs).
Proof.
  intros Hd. repeat apply conj.
  - unfold write, write_text. now rewrite Hd.
  - now apply read_directory.
  - unfold delete_, exists_, remove. now rewrite Hd.
Qed.

(** X17.  [delete] returns true exactly when the cookie path is not a
    directory; then nothing is left at the path, and a second [delete]
    returns true and changes nothing. *)
Theorem cookie_delete_twice (self : CookieManager) (fs : filesystem) :
  (fst (delete_ self fs) = true <-> fs !! cookie_file self <> Some Dir)
  /\ (fst (delete_ self fs) = true ->
      exists_ (snd (delete_ self fs)) (cookie_file self) = false
      /\ delete_ self (snd (delete_ self fs)) = (true, snd (delete_ self fs))).
Proof.
  assert (Hiff : fst (delete_ self fs) = true <-> fs !! cookie_file self <> Some Dir).
  { split.
    - unfold delete_, exists_, remove.
      destruct (fs !! cookie_file self) as [[text|]|]; cbn [fst]; congruence.
    - intros Hd. now rewrite delete_regular. }
  split; [exact Hiff|].
  intros Ht. apply Hiff in Ht. rewrite (delete_regular self fs Ht). cbn [snd].
  split.
  - unfold exists_. now rewrite lookup_delete_eq.
  - rewrite delete_regular by (rewrite lookup_delete_eq; discriminate).
    now rewrite delete_delete_eq.
Qed.

Variable COOKIES_FILE : string.


End Facts.

End CookiesMore.

(** ** [get_profile_path] and [Statistics] *)
Module UtilsSpec.
Import Py PyNum Utils.
Local Open Scope string_scope.

Lemma append_cancel_l (p a b : string) : p ++ a = p ++ b -> a = b.
Proof.
  induction p as [|c p IH]; rewrite ?JsonTextSpec.app_nil, ?JsonTextSpec.app_cons.
  - auto.
  - intros [= E]. auto.
Qed.

Lemma print_int_inj (n m : Z) :
  JsonText.print_int n = JsonText.print_int m -> n = m.
Proof.
  intros E.
  pose proof (JsonTextSpec.int_of_string_print_int n) as Hn.
  rewrite E, JsonTextSpec.int_of_string_print_int in Hn.
  injection Hn as Hn.
  rewrite <- (DecimalZ.of_to n), <- (DecimalZ.of_to m). now rewrite Hn.
Qed.

(** Joining a relative name appends it after a prefix that depends on
    the directory only. *)
Lemma path_join_relative (a : string) (c : ascii) (b : string) :
  c <> "/"%char ->
  path_join a (String c b)
  = (if (String.eqb a "" || endswith_sep a)%bool then a else a ++ "/")
    ++ String c b.
Proof.
  intros Hc. unfold path_join.
  assert (E : (if Ascii.eqb c "/" then true else false) = false)
    by (apply Ascii.eqb_neq in Hc; now rewrite Hc).
  destruct (String.eqb a "" || endswith_sep a)%bool.
  - destruct c as [[] [] [] [] [] [] [] []]; try reflexivity.
    now contradiction Hc.
  - rewrite JsonTextSpec.append_assoc.
    destruct c as [[] [] [] [] [] [] [] []]; try reflexivity.
    now contradiction Hc.
Qed.

(** X19.  Different serial numbers give different profile paths under
    the same base path and browser type, and every profile path ends
    with [profile_] and the serial number. *)
Theorem get_profile_path_serial (base_profile_path browser_type : string)
    (n m : Z) :
  (get_profile_path base_profile_path browser_type n
   = get_profile_path base_profile_path browser_type m -> n = m)
  /\ exists dir,
       get_profile_path base_profile_path browser_type n
       = dir ++ "profile_" ++ JsonText.print_int n.
Proof.
  unfold get_profile_path. cbv zeta.
  change ("profile_" ++ JsonText.print_int n)
    with (String "p" ("rofile_" ++ JsonText.print_int n)).
  change ("profile_" ++ JsonText.print_int m)
    with (String "p" ("rofile_" ++ JsonText.print_int m)).
  rewrite !path_join_relative by discriminate.
  split.
  - intros E. apply append_cancel_l in E. injection E as E.
    apply (append_cancel_l "") in E. now apply print_int_inj.
  - eexists. reflexivity.
Qed.

Lemma do_calls_app (cs1 cs2 : list call) (self : Statistics) (clk : Clock) :
  do_calls (cs1 ++ cs2) self clk
  = do_calls cs2 (fst (do_calls cs1 self clk)) (snd (do_calls cs1 self clk)).
Proof.
  revert self clk. induction cs1 as [|c cs1 IH]; intros self clk; cbn.
  - reflexivity.
  - destruct (do_call c self clk) as [self' clk']. apply IH.
Qed.

(** What calls other than [start] do. *)
Lemma do_calls_no_start (cs : list call) :
  forallb (fun c => negb (is_start c)) cs = true ->
  forall self clk,
    let self' := fst (do_calls cs self clk) in
    snd (do_calls cs self clk) = clk
    /\ start_time self' = start_time self
    /\ attempt_count self'
       = (attempt_count self + Z.of_nat (length (List.filter is_attempt cs)))%Z
    /\ error_count self'
       = (error_count self + Z.of_nat (length (List.filter is_error cs)))%Z
    /\ success self' = (success self || existsb is_success cs)%bool
    /\ last_error self' = last_recorded cs (last_error self).
Proof.
  induction cs as [|c cs IH]; intros Hcs self clk.
  - cbn. rewrite !Z.add_0_r, orb_false_r. repeat split.
  - cbn [forallb] in Hcs. apply andb_true_iff in Hcs as [Hc Hcs].
    specialize (IH Hcs).
    destruct c as [| |error|]; [discriminate Hc| | |];
      cbn [do_calls do_call]; cbv zeta;
      match goal with
      | |- context [do_calls cs ?s clk] => destruct (IH s clk) as (H1 & H2 & H3 & H4 & H5 & H6)
      end;
      rewrite H1, H2, H3, H4, H5, H6;
      cbn [List.filter is_attempt is_error is_success existsb length last_recorded
           record_attempt record_error record_success start_time attempt_count
           error_count success last_error];
      repeat split; try lia;
      try (destruct (success self); reflexivity).
Qed.

(** X20.  After any use of a [Statistics] object, the attempt count and
    the error count are the numbers of attempts and errors recorded
    since the last [start], [success] tells whether a success was
    recorded since then, and the start time is the clock reading of that
    [start]; but [last_error] is still the last error ever recorded:
    [start] does not clear it. *)
Theorem statistics_since_last_start (before after : list call)
    (self : Statistics) (clk : Clock) :
  forallb (fun c => negb (is_start c)) after = true ->
  let s0 := fst (do_calls before self clk) in
  let clk0 := snd (do_calls before self clk) in
  let s := fst (do_calls (before ++ Start :: after) self clk) in
  start_time s = Some (time clk0 (time_reads clk0))
  /\ attempt_count s = Z.of_nat (length (List.filter is_attempt after))
  /\ error_count s = Z.of_nat (length (List.filter is_error after))
  /\ success s = existsb is_success after
  /\ last_error s = last_recorded after (last_error s0)
  /\ snd (do_calls (before ++ Start :: after) self clk)
     = mkClock (time clk0) (S (time_reads clk0)).
Proof.
  intros Hafter. cbv zeta. rewrite do_calls_app.
  cbn [do_calls do_call]. unfold start, time_time.
  match goal with
  | |- context [do_calls after ?s ?c] =>
      destruct (do_calls_no_start after Hafter s c) as (H1 & H2 & H3 & H4 & H5 & H6)
  end.
  rewrite H1, H2, H3, H4, H5, H6. repeat split.
Qed.

(** X21.  [get_elapsed_time] on an object that was never started is 0,
    whatever was recorded, and reads no clock; once started (at a time
    other than 0.0) it is the clock reading minus the reading of the
    last [start]. *)
Theorem statistics_elapsed (before after : list call) (clk : Clock) :
  forallb (fun c => negb (is_start c)) after = true ->
  get_elapsed_time (fst (do_calls after Statistics_init clk)) clk = (Int 0, clk)
  /\ forall self,
       let clk0 := snd (do_calls before self clk) in
       let r := do_calls (before ++ Start :: after) self clk in
       Qeq_bool (time clk0 (time_reads clk0)) 0 = false ->
       get_elapsed_time (fst r) (snd r)
       = (Float (time clk0 (S (time_reads clk0)) - time clk0 (time_reads clk0)),
          mkClock (time clk0) (S (S (time_reads clk0)))).
Proof.
  intros Hafter. split.
  - destruct (do_calls_no_start after Hafter Statistics_init clk) as (_ & H2 & _).
    unfold get_elapsed_time. now rewrite H2.
  - intros self. cbv zeta. intros Hnz. rewrite do_calls_app.
    cbn [do_calls do_call]. unfold start, time_time.
    match goal with
    | |- context [do_calls after ?s ?c] =>
        destruct (do_calls_no_start after Hafter s c) as (H1 & H2 & _)
    end.
    unfold get_elapsed_time. rewrite H1, H2. cbn [start_time].
    rewrite Hnz. reflexivity.
Qed.

End UtilsSpec.

(** ** More on [Config] *)
Module ConfigMore.
Import Py PyStr Config ConfigReport ConfigDefaults ConfigGetSpec ValidateSpec.
Local Open Scope string_scope.

(** A configuration within the bounds is left as it is. *)
Lemma validate_within_bounds (cfg : AppConfig) :
  (MAX_THREADS <? ProcessConfig.thread (process cfg))%Z = false ->
  float_lt (ProcessConfig.interval (process cfg)) MIN_INTERVAL = false ->
  app_config (validate cfg) = cfg
  /\ ~ In warn_thread (warnings (validate cfg))
  /\ ~ In warn_interval (warnings (validate cfg)).
Proof.
  intros Ht Hi. unfold validate, add_if. cbv zeta. rewrite Ht.
  destruct (ProcessConfig.thread (process cfg) <? 1)%Z; rewrite Hi;
    destruct (str_empty (ProductConfig.color (product cfg)));
    destruct (str_empty (ProductConfig.version (product cfg)));
    destruct (BrowserConfig.headless (browser cfg)
              && str_empty (BrowserConfig.user_agent (browser cfg)));
    cbn [app_config warnings app In]; repeat split; intros H;
    repeat (destruct H as [H|H]; [discriminate H|]); exact H.
Qed.

(** What [validate] leaves is within the bounds. *)
Lemma validate_bounds (cfg : AppConfig) :
  (MAX_THREADS <? ProcessConfig.thread (process (app_config (validate cfg))))%Z
  = false
  /\ float_lt (ProcessConfig.interval (process (app_config (validate cfg))))
              MIN_INTERVAL = false.
Proof.
  rewrite validate_thread, validate_interval. cbv zeta. split.
  - destruct (ProcessConfig.thread (process cfg) <? 1)%Z eqn:E1.
    + apply Z.ltb_lt in E1. apply Z.ltb_ge. unfold MAX_THREADS. lia.
    + destruct (MAX_THREADS <? ProcessConfig.thread (process cfg))%Z eqn:E2;
        [reflexivity | exact E2].
  - destruct (float_lt (ProcessConfig.interval (process cfg)) MIN_INTERVAL) eqn:E;
      [reflexivity | exact E].
Qed.

Lemma validate_other_fields (cfg : AppConfig) :
  let cfg' := app_config (validate cfg) in
  user cfg' = user cfg /\ product cfg' = product cfg
  /\ browser cfg' = browser cfg /\ notify cfg' = notify cfg
  /\ ProcessConfig.retry_times (process cfg')
     = ProcessConfig.retry_times (process cfg)
  /\ ProcessConfig.timeout (process cfg') = ProcessConfig.timeout (process cfg).
Proof.
  unfold validate. cbv zeta.
  destruct (ProcessConfig.thread (process cfg) <? 1)%Z;
    [|destruct (MAX_THREADS <? ProcessConfig.thread (process cfg))%Z];
    match goal with
    | |- context [float_lt ?a ?b] => destruct (float_lt a b)
    end; repeat split.
Qed.

(** X22.  [validate] changes nothing but the thread count and the
    interval, and it is idempotent: on the configuration it left, a
    second run returns the same errors, changes nothing and warns about
    neither the thread count nor the interval. *)
Theorem validate_idempotent (cfg : AppConfig) :
  let v1 := validate cfg in
  let v2 := validate (app_config v1) in
  (user (app_config v1) = user cfg /\ product (app_config v1) = product cfg
   /\ browser (app_config v1) = browser cfg /\ notify (app_config v1) = notify cfg
   /\ ProcessConfig.retry_times (process (app_config v1))
      = ProcessConfig.retry_times (process cfg)
   /\ ProcessConfig.timeout (process (app_config v1))
      = ProcessConfig.timeout (process cfg))
  /\ app_config v2 = app_config v1
  /\ errors v2 = errors v1
  /\ ~ In warn_thread (warnings v2)
  /\ ~ In warn_interval (warnings v2).
Proof.
  cbv zeta. split; [apply validate_other_fields|].
  destruct (validate_bounds cfg) as [Ht Hi].
  destruct (validate_within_bounds _ Ht Hi) as (H1 & H2 & H3).
  repeat split; try assumption.
  rewrite !validate_errors.
  destruct (validate_other_fields cfg) as (Hu & Hp & Hb & _).
  unfold field_errors. rewrite Hu, Hp, Hb. f_equal.
  rewrite validate_thread. cbv zeta.
  destruct (ProcessConfig.thread (process cfg) <? 1)%Z eqn:E1.
  - now rewrite E1.
  - destruct (MAX_THREADS <? ProcessConfig.thread (process cfg))%Z;
      [reflexivity | now rewrite E1].
Qed.

(** X23.  [validate_and_display] returns true exactly when the user
    name, the password and the product id are not empty, the browser
    type is a supported one and the thread count is at least 1; the
    other fields, the upper bound of the thread count and the interval
    never make it fail. *)
Theorem validate_and_display_passes (cfg : AppConfig) :
  fst (validate_and_display cfg) = true
  <-> (UserConfig.name (user cfg) <> ""
       /\ UserConfig.password (user cfg) <> ""
       /\ ProductConfig.id (product cfg) <> ""
       /\ In (BrowserConfig.type (browser cfg)) SUPPORTED_BROWSERS
       /\ (1 <= ProcessConfig.thread (process cfg))%Z).
Proof.
  unfold validate_and_display. cbv zeta. cbn [fst].
  rewrite validate_errors. unfold field_errors.
  rewrite <- (str_in_In (BrowserConfig.type (browser cfg))).
  assert (He : forall s, s <> "" <-> str_empty s = false).
  { intros s. rewrite <- str_empty_true. now destruct (str_empty s). }
  rewrite !He, <- Z.ltb_ge.
  destruct (str_empty (UserConfig.name (user cfg)));
    destruct (str_empty (UserConfig.password (user cfg)));
    destruct (str_empty (ProductConfig.id (product cfg)));
    destruct (str_in (BrowserConfig.type (browser cfg)) SUPPORTED_BROWSERS);
    destruct (ProcessConfig.thread (process cfg) <? 1)%Z;
    cbn [app]; intuition congruence.
Qed.

(** A section that the file does not have gives every getter its
    default. *)
Lemma getters_missing_section (config : ConfigParser.t) (section opt : string)
    (ds : string) (db : bool) (di : Z) (df : pyfloat) :
  ConfigParser._sections config !! section = None ->
  section <> ConfigParser.default_section ->
  get config section opt (Some ds) = ds
  /\ getboolean config section opt (Some db) = db
  /\ getint config section opt (Some di) = di
  /\ getfloat config section opt (Some df) = df.
Proof.
  intros Hs Hd. eapply getters_on_raise, get_missing_section; eassumption.
Qed.

(** X24.  The defaults that [_parse_config] passes to the getters are
    those of the dataclasses: each section the file does not have gives
    the default object of its dataclass, and a file with none of the
    five sections gives [AppConfig()], for which [validate] returns the
    three errors of the empty name, password and product id. *)
Theorem missing_sections_give_defaults (config : ConfigParser.t) :
  let missing section := ConfigParser._sections config !! section = None in
  let cfg := _parse_config config in
  (missing "user" -> user cfg = UserConfig_default)
  /\ (missing "product" -> product cfg = ProductConfig_default)
  /\ (missing "browser" -> browser cfg = BrowserConfig_default)
  /\ (missing "process" -> process cfg = ProcessConfig_default)
  /\ (missing "notify" -> notify cfg = NotifyConfig_default)
  /\ (missing "user" -> missing "product" -> missing "browser" ->
      missing "process" -> missing "notify" ->
      cfg = AppConfig_default
      /\ errors (validate cfg) = [err_name; err_password; err_product_id]
      /\ app_config (validate cfg) = AppConfig_default).
Proof.
  cbv zeta.
  assert (Hu : ConfigParser._sections config !! "user" = None ->
               user (_parse_config config) = UserConfig_default).
  { intros Hm. unfold _parse_config. cbn [user].
    now rewrite !(proj1 (getters_missing_section config "user" _ _ false 0%Z
                           (Finite 0) Hm ltac:(discriminate))). }
  assert (Hp : ConfigParser._sections config !! "product" = None ->
               product (_parse_config config) = ProductConfig_default).
  { intros Hm. unfold _parse_config. cbn [product].
    now rewrite !(proj1 (getters_missing_section config "product" _ _ false 0%Z
                           (Finite 0) Hm ltac:(discriminate))). }
  assert (Hb : ConfigParser._sections config !! "browser" = None ->
               browser (_parse_config config) = BrowserConfig_default).
  { intros Hm. unfold _parse_config. cbn [browser].
    rewrite !(proj1 (getters_missing_section config "browser" _ _ false 0%Z
                       (Finite 0) Hm ltac:(discriminate))).
    now rewrite (proj1 (proj2 (getters_missing_section config "browser" _ ""
                                 false 0%Z (Finite 0) Hm ltac:(discriminate)))). }
  assert (Hpr : ConfigParser._sections config !! "process" = None ->
                process (_parse_config config) = ProcessConfig_default).
  { intros Hm. unfold _parse_config. cbn [process].
    pose proof (fun opt di =>
      proj1 (proj2 (proj2 (getters_missing_section config "process" opt ""
                 false di (Finite 0) Hm ltac:(discriminate))))) as Hi.
    pose proof (fun opt df =>
      proj2 (proj2 (proj2 (getters_missing_section config "process" opt ""
                 false 0%Z df Hm ltac:(discriminate))))) as Hf.
    now rewrite !Hi, Hf. }
  assert (Hn : ConfigParser._sections config !! "notify" = None ->
               notify (_parse_config config) = NotifyConfig_default).
  { intros Hm. unfold _parse_config. cbn [notify].
    pose proof (fun opt ds =>
      proj1 (getters_missing_section config "notify" opt ds
                 false 0%Z (Finite 0) Hm ltac:(discriminate))) as Hs.
    pose proof (fun opt db =>
      proj1 (proj2 (getters_missing_section config "notify" opt ""
                 db 0%Z (Finite 0) Hm ltac:(discriminate)))) as Hbo.
    now rewrite !Hs, !Hbo. }
  repeat apply conj; try assumption.
  intros H1 H2 H3 H4 H5.
  assert (E : _parse_config config = AppConfig_default).
  { specialize (Hu H1). specialize (Hp H2). specialize (Hb H3).
    specialize (Hpr H4). specialize (Hn H5).
    destruct (_parse_config config) as [u p b pr n]. cbn in *.
    now subst. }
  rewrite E. repeat split.
Qed.

Lemma cut_at_plain (v : string) :
  ConfigParser.has_percent v = false ->
  cut_at ConfigParser.is_percent v = (v, None).
Proof.
  induction v as [|c v IH]; cbn [ConfigParser.has_percent cut_at];
    [reflexivity|].
  intros H. apply orb_false_iff in H as [Hc Hv]. rewrite Hc, (IH Hv).
  reflexivity.
Qed.

Lemma cut_at_percent (pre tail : string) :
  ConfigParser.has_percent pre = false ->
  cut_at ConfigParser.is_percent (pre ++ String "%" tail) = (pre, Some tail).
Proof.
  induction pre as [|c pre IH]; intros H.
  - reflexivity.
  - cbn [ConfigParser.has_percent] in H. apply orb_false_iff in H as [Hc Hv].
    rewrite JsonTextSpec.app_cons. cbn [cut_at]. rewrite Hc, (IH Hv).
    reflexivity.
Qed.

(** A value without a percent sign is returned as it is. *)
Lemma interpolate_plain (depth : nat) (opt section v : string)
    (m : gmap string string) :
  ConfigParser.has_percent v = false ->
  ConfigParser._interpolate_some (S depth) opt section m v "" = Ok v.
Proof.
  intros Hv. cbn [ConfigParser._interpolate_some].
  now rewrite (cut_at_plain v Hv).
Qed.

Lemma before_get_plain (opt section v : string) (m : gmap string string) :
  ConfigParser.has_percent v = false ->
  ConfigParser.before_get opt section v m = Ok v.
Proof. apply (interpolate_plain 9). Qed.

(** What stands after a percent sign that is neither doubled nor opens
    a reference. *)
Lemma lone_percent_cases (tail : string) :
  (tail = "" \/ exists c t, tail = String c t /\ c <> "%"%char /\ c <> "("%char) ->
  match tail with
  | String "%" _ | String "(" _ => False
  | _ => True
  end.
Proof.
  intros [-> | (c & t & -> & H1 & H2)]; [exact I|].
  destruct c as [[] [] [] [] [] [] [] []]; try exact I; congruence.
Qed.

Lemma interpolate_lone_percent (depth : nat) (opt section pre tail : string)
    (m : gmap string string) :
  ConfigParser.has_percent pre = false ->
  (tail = "" \/ exists c t, tail = String c t /\ c <> "%"%char /\ c <> "("%char) ->
  ConfigParser._interpolate_some (S depth) opt section m
    (pre ++ String "%" tail) ""
  = Raise (InterpolationError opt section).
Proof.
  intros Hpre Htail. apply lone_percent_cases in Htail.
  cbn [ConfigParser._interpolate_some]. rewrite (cut_at_percent pre tail Hpre).
  destruct tail as [|c t]; [reflexivity|].
  destruct c as [[] [] [] [] [] [] [] []]; try reflexivity; contradiction.
Qed.

Lemma before_get_lone_percent (opt section pre tail : string)
    (m : gmap string string) :
  ConfigParser.has_percent pre = false ->
  (tail = "" \/ exists c t, tail = String c t /\ c <> "%"%char /\ c <> "("%char) ->
  ConfigParser.before_get opt section (pre ++ String "%" tail) m
  = Raise (InterpolationError opt section).
Proof. apply (interpolate_lone_percent 9). Qed.

Lemma interpolate_double_percent (depth : nat) (opt section pre tail : string)
    (m : gmap string string) :
  ConfigParser.has_percent pre = false ->
  ConfigParser.has_percent tail = false ->
  ConfigParser._interpolate_some (S depth) opt section m
    (pre ++ String "%" (String "%" tail)) ""
  = Ok (pre ++ String "%" tail).
Proof.
  intros Hpre Htail.
  cbn [ConfigParser._interpolate_some].
  rewrite (cut_at_percent pre _ Hpre).
  rewrite JsonTextSpec.length_append. cbn [String.length].
  replace (String.length pre + S (S (String.length tail)))%nat
    with (S (String.length pre + S (String.length tail)))%nat by lia.
  rewrite (cut_at_plain tail Htail).
  rewrite !JsonTextSpec.app_nil, JsonTextSpec.append_assoc.
  reflexivity.
Qed.

Lemma before_get_double_percent (opt section pre tail : string)
    (m : gmap string string) :
  ConfigParser.has_percent pre = false ->
  ConfigParser.has_percent tail = false ->
  ConfigParser.before_get opt section (pre ++ String "%" (String "%" tail)) m
  = Ok (pre ++ String "%" tail).
Proof. apply (interpolate_double_percent 9). Qed.

Lemma get_value (config : ConfigParser.t) (section opt v : string)
    (m : gmap string string) :
  ConfigParser._unify_values config section = Ok m ->
  m !! ConfigParser.optionxform opt = Some v ->
  ConfigParser.get config section opt
  = ConfigParser.before_get (ConfigParser.optionxform opt) section v m.
Proof. intros Hm Hv. unfold ConfigParser.get. now rewrite Hm, Hv. Qed.

(** X25.  Percent signs in a value.  A value without one is returned
    as it is; a doubled one stands for one percent sign; a percent sign
    followed by anything but a percent sign or an opening parenthesis
    makes the lookup fail, so [get] returns the default and not the
    value. *)
Theorem get_percent_sign (config : ConfigParser.t) (section opt : string)
    (m : gmap string string) (pre tail d : string) :
  ConfigParser._unify_values config section = Ok m ->
  ConfigParser.has_percent pre = false ->
  (m !! ConfigParser.optionxform opt = Some pre ->
   get config section opt (Some d) = pre)
  /\ (ConfigParser.has_percent tail = false ->
      m !! ConfigParser.optionxform opt = Some (pre ++ "%%" ++ tail) ->
      get config section opt (Some d) = pre ++ "%" ++ tail)
  /\ ((tail = "" \/ exists c t, tail = String c t /\ c <> "%"%char /\ c <> "("%char) ->
      m !! ConfigParser.optionxform opt = Some (pre ++ "%" ++ tail) ->
      get config section opt (Some d) = d).
Proof.
  intros Hm Hpre. unfold get. repeat apply conj.
  - intros Hv. rewrite (get_value _ _ _ _ _ Hm Hv).
    now rewrite before_get_plain.
  - intros Htail Hv. rewrite (get_value _ _ _ _ _ Hm Hv).
    change (pre ++ "%%" ++ tail) with (pre ++ String "%" (String "%" tail)).
    now rewrite before_get_double_percent.
  - intros Htail Hv. rewrite (get_value _ _ _ _ _ Hm Hv).
    change (pre ++ "%" ++ tail) with (pre ++ String "%" tail).
    now rewrite before_get_lone_percent.
Qed.

(** X26.  A password with such a percent sign is lost: [_parse_config]
    reads it as empty, [validate] returns the error of the empty
    password and [validate_and_display] fails. *)
Theorem password_with_percent_sign (config : ConfigParser.t)
    (options : gmap string string) (pre tail : string) :
  ConfigParser._sections config !! "user" = Some options ->
  (options ∪ ConfigParser._defaults config) !! "password"
  = Some (pre ++ "%" ++ tail) ->
  ConfigParser.has_percent pre = false ->
  (tail = "" \/ exists c t, tail = String c t /\ c <> "%"%char /\ c <> "("%char) ->
  let cfg := _parse_config config in
  UserConfig.password (user cfg) = ""
  /\ In err_password (errors (validate cfg))
  /\ fst (validate_and_display cfg) = false.
Proof.
  intros Hs Hv Hpre Htail. cbv zeta.
  assert (E : UserConfig.password (user (_parse_config config)) = "").
  { unfold _parse_config. cbn [user UserConfig.password]. unfold get.
    rewrite (get_value config "user" "password" (pre ++ "%" ++ tail)
               (options ∪ ConfigParser._defaults config)).
    - change (pre ++ "%" ++ tail) with (pre ++ String "%" tail).
      now rewrite before_get_lone_percent.
    - unfold ConfigParser._unify_values. now rewrite Hs.
    - exact Hv. }
  assert (Hin : In err_password (errors (validate (_parse_config config)))).
  { apply in_field_errors. unfold field_errors. rewrite E. cbn [str_empty].
    rewrite !in_app_iff. right. left. now left. }
  repeat split; try assumption.
  unfold validate_and_display. cbv zeta. cbn [fst].
  destruct (errors (validate (_parse_config config))); [contradiction | reflexivity].
Qed.

End ConfigMore.

(** ** The options of [ChromeBrowser.setting] *)
Module ChromeSpec.
Import Py PyStr Cookies Config Chrome ConfigGetSpec.
Local Open Scope string_scope.

(** The arguments, part by part. *)
Lemma setting_arguments (config : option ConfigParser.t)
    (user_data_dir : string) :
  arguments (setting_options config user_data_dir)
  = List.app
      (if str_empty user_data_dir then []
       else ["--user-data-dir=" ++ user_data_dir; "--profile-directory=Default"])
      (List.app
         match config with
         | Some c =>
             List.app
               (if getboolean c "browser" "headless" (Some false)
                then ["--headless=new";
                      "user-agent="
                      ++ get c "browser" "userAgent" (Some USER_AGENT);
                      "--window-size=1920,1080"]
                else [])
               (if str_empty (get c "browser" "proxy" (Some "")) then []
                else ["--proxy-server=" ++ get c "browser" "proxy" (Some "")])
         | None => []
         end
         fixed_arguments).
Proof.
  unfold setting_options. cbv zeta.
  destruct (str_empty user_data_dir); cbn [negb];
    (destruct config as [c|];
     [destruct (getboolean c "browser" "headless" (Some false));
      destruct (str_empty (get c "browser" "proxy" (Some ""))); cbn [negb]|]);
    reflexivity.
Qed.

Lemma fixed_arguments_eq :
  fixed_arguments
  = ["--disable-gpu"; "--disable-extensions"; "--disable-dev-shm-usage";
     "--no-sandbox"; "--disable-infobars"; "--disable-background-networking";
     "--no-default-browser-check"; "--disable-translate"; "--disable-sync";
     "--ignore-certificate-errors"; "--ignore-certificate-errors-spki-list";
     "--ignore-ssl-errors"; "--ignore-ssl-error"; "--log-level=3";
     "--allow-running-insecure-content"].
Proof. reflexivity. Qed.

(** Two texts that differ within their literal beginnings. *)
Ltac differ H :=
  exfalso; rewrite ?JsonTextSpec.app_cons, ?JsonTextSpec.app_nil in H;
  discriminate H.

Ltac not_fixed H :=
  exfalso; rewrite fixed_arguments_eq in H; cbn [In] in H;
  repeat (destruct H as [H|H]; [differ H|]); exact H.

(** X27.  Which command-line arguments [setting] passes to Chrome.  The
    fifteen arguments of the three helper methods always come last, in
    the same order, after at most six others, and the page load strategy
    is eager; the headless flag is there exactly when there is a
    configuration whose [headless] reads as true, a proxy argument
    exactly when there is a configuration with a non-empty [proxy], and
    the user data directory exactly when one is given. *)
Theorem chrome_option_flags (config : option ConfigParser.t)
    (user_data_dir : string) :
  let options := setting_options config user_data_dir in
  (exists front,
     arguments options = (front ++ fixed_arguments)%list
     /\ (length front <= 6)%nat)
  /\ length fixed_arguments = 15%nat
  /\ page_load_strategy options = "eager"
  /\ (In "--headless=new" (arguments options)
      <-> exists c, config = Some c
                    /\ getboolean c "browser" "headless" (Some false) = true)
  /\ ((exists proxy, In ("--proxy-server=" ++ proxy) (arguments options))
      <-> exists c, config = Some c
                    /\ get c "browser" "proxy" (Some "") <> "")
  /\ ((exists dir, In ("--user-data-dir=" ++ dir) (arguments options))
      <-> user_data_dir <> "").
Proof.
  cbv zeta. rewrite setting_arguments.
  assert (Hempty : forall s, str_empty s = false <-> s <> "").
  { intros s. rewrite <- ValidateSpec.str_empty_true. now destruct (str_empty s). }
  split; [|split; [|split; [|split; [|split]]]].
  - eexists. rewrite app_assoc. split; [reflexivity|].
    rewrite length_app.
    destruct (str_empty user_data_dir); (destruct config as [c|];
      [rewrite length_app;
       destruct (getboolean c "browser" "headless" (Some false));
       destruct (str_empty (get c "browser" "proxy" (Some "")))|]);
      cbn [length]; lia.
  - reflexivity.
  - unfold setting_options. cbv zeta.
    destruct (str_empty user_data_dir); cbn [negb];
      (destruct config as [c|];
       [destruct (getboolean c "browser" "headless" (Some false));
        destruct (str_empty (get c "browser" "proxy" (Some ""))); cbn [negb]|]);
      reflexivity.
  - rewrite !in_app_iff. split.
    + intros [H|[H|H]].
      * destruct (str_empty user_data_dir); cbn [In] in H;
          repeat (destruct H as [H|H]; [differ H|]); contradiction.
      * destruct config as [c|]; [|contradiction].
        exists c. split; [reflexivity|].
        destruct (getboolean c "browser" "headless" (Some false));
          [reflexivity|].
        rewrite in_app_iff in H. destruct H as [H|H]; [contradiction|].
        destruct (str_empty (get c "browser" "proxy" (Some ""))); cbn [In] in H;
          repeat (destruct H as [H|H]; [differ H|]); contradiction.
      * not_fixed H.
    + intros (c & -> & Hh). right. left. rewrite Hh, in_app_iff. left. now left.
  - split.
    + intros (proxy & H). rewrite !in_app_iff in H. destruct H as [H|[H|H]].
      * destruct (str_empty user_data_dir); cbn [In] in H;
          repeat (destruct H as [H|H]; [differ H|]); contradiction.
      * destruct config as [c|]; [|contradiction].
        exists c. split; [reflexivity|]. apply Hempty.
        destruct (str_empty (get c "browser" "proxy" (Some ""))); [|reflexivity].
        rewrite in_app_iff in H. destruct H as [H|H]; [|contradiction].
        destruct (getboolean c "browser" "headless" (Some false)); cbn [In] in H;
          repeat (destruct H as [H|H]; [differ H|]); contradiction.
      * not_fixed H.
    + intros (c & -> & Hp). apply Hempty in Hp.
      exists (get c "browser" "proxy" (Some "")).
      rewrite !in_app_iff. right. left. right. rewrite Hp. now left.
  - split.
    + intros (dir & H). rewrite !in_app_iff in H. apply Hempty.
      destruct (str_empty user_data_dir); [|reflexivity].
      destruct H as [H|[H|H]]; [contradiction| |not_fixed H].
      destruct config as [c|]; [|contradiction].
      rewrite in_app_iff in H. destruct H as [H|H].
      * destruct (getboolean c "browser" "headless" (Some false)); cbn [In] in H;
          repeat (destruct H as [H|H]; [differ H|]); contradiction.
      * destruct (str_empty (get c "browser" "proxy" (Some ""))); cbn [In] in H;
          repeat (destruct H as [H|H]; [differ H|]); contradiction.
    + intros Hd. apply Hempty in Hd. exists user_data_dir.
      rewrite in_app_iff. left. rewrite Hd. now left.
Qed.

Lemma validate_warn_headless (cfg : AppConfig) :
  BrowserConfig.headless (browser cfg) = true ->
  BrowserConfig.user_agent (browser cfg) = "" ->
  In warn_headless (warnings (validate cfg)).
Proof.
  intros Hh Hu. unfold validate, add_if. cbv zeta. rewrite Hh, Hu.
  cbn [str_empty String.eqb andb].
  destruct (ProcessConfig.thread (process cfg) <? 1)%Z;
    [|destruct (MAX_THREADS <? ProcessConfig.thread (process cfg))%Z];
    match goal with
    | |- context [float_lt ?a ?b] => destruct (float_lt a b)
    end; cbn [warnings]; rewrite ?in_app_iff; cbn [In]; tauto.
Qed.

(** X28.  The user agent of a headless Chrome.  With [headless] on,
    [setting] adds the window size and a user agent: the configured
    one, even when it is empty, and the default one only when the option
    cannot be read.  In the last two cases [validate] has warned that
    headless mode should have a [userAgent]. *)
Theorem chrome_headless_user_agent (c : ConfigParser.t)
    (user_data_dir : string) :
  getboolean c "browser" "headless" (Some false) = true ->
  let args := arguments (setting_options (Some c) user_data_dir) in
  let warned := In warn_headless (warnings (validate (_parse_config c))) in
  In "--window-size=1920,1080" args
  /\ (forall ua, ConfigParser.get c "browser" "userAgent" = Ok ua ->
       In ("user-agent=" ++ ua) args)
  /\ (ConfigParser.get c "browser" "userAgent" = Ok "" ->
      In "user-agent=" args /\ warned)
  /\ (forall e, ConfigParser.get c "browser" "userAgent" = Raise e ->
       In ("user-agent=" ++ USER_AGENT) args /\ warned).
Proof.
  intros Hh. cbv zeta. rewrite setting_arguments, Hh.
  assert (Hua : In ("user-agent=" ++ get c "browser" "userAgent" (Some USER_AGENT))
                   (List.app
                      (if str_empty user_data_dir then []
                       else ["--user-data-dir=" ++ user_data_dir;
                             "--profile-directory=Default"])
                      (List.app
                         (List.app
                            ["--headless=new";
                             "user-agent="
                             ++ get c "browser" "userAgent" (Some USER_AGENT);
                             "--window-size=1920,1080"]
                            (if str_empty (get c "browser" "proxy" (Some ""))
                             then []
                             else ["--proxy-server="
                                   ++ get c "browser" "proxy" (Some "")]))
                         fixed_arguments))).
  { rewrite !in_app_iff. right. left. left. right. now left. }
  assert (Hwarn : get c "browser" "userAgent" (Some "") = "" ->
                  In warn_headless (warnings (validate (_parse_config c)))).
  { intros E. apply validate_warn_headless.
    - exact Hh.
    - exact E. }
  split; [|split; [|split]].
  - rewrite !in_app_iff. right. left. left. right. right. now left.
  - intros ua E. revert Hua. unfold get at 1. now rewrite E.
  - intros E. split.
    + revert Hua. unfold get at 1. now rewrite E.
    + apply Hwarn. unfold get. now rewrite E.
  - intros e E. split.
    + revert Hua. unfold get at 1. now rewrite E.
    + apply Hwarn. unfold get. now rewrite E.
Qed.

End ChromeSpec.

(** ** The further theorems at sample inputs *)
Module MoreWitnesses.
Import Py PyNum TimeUtils TimeLegacy Config ConfigReport Cookies CookiesLegacy.
Import Utils Chrome Examples MoreExamples.
Local Open Scope string_scope.




Lemma wait_until_ready_int_offset_witness :
  is_float (_time_diff (time_sync timer_open_at_100)) = false
  /\ fst (format_remaining timer_open_at_100 world_offline) = Ok tt.
Proof.
  split; [reflexivity|].
  exact (proj1 (WaitSpec.wait_until_ready_int_offset timer_open_at_100 (Int 100)
                  eq_refl) world_offline).
Defined.

Lemma wait_until_ready_returns_when_due_witness :
  let res := wait_until_ready 2 timer_open_at_100 (Int 100) world_countdown in
  res = (Some (Ok tt), snd res)
  /\ slept (snd res) = [0.1]
  /\ exists w0 : World,
       snd (get_remaining_ms timer_open_at_100 w0) = snd res
       /\ le (fst (get_remaining_ms timer_open_at_100 w0)) (Int 100) = true.
Proof.
  intros res.
  assert (H : res = (Some (Ok tt), snd res)) by (vm_compute; reflexivity).
  split; [exact H|]. split; [vm_compute; reflexivity|].
  destruct (WaitSpec.wait_until_ready_returns_when_due timer_open_at_100
              (Int 100) 2 world_countdown (snd res) H)
    as (w0 & pauses & H1 & H2 & _).
  exists w0. split; assumption.
Defined.

Lemma wait_until_ready_negative_advance_witness :
  value (Int (-1)) < 0
  /\ fst (wait_until_ready 5 timer_open_at_100 (Int (-1)) world_offline) = None.
Proof.
  assert (H : value (Int (-1)) < 0) by (vm_compute; reflexivity).
  split; [exact H|].
  exact (proj1 (proj2 (WaitSpec.wait_until_ready_negative_advance
                         timer_open_at_100 (Int (-1)) H) eq_refl 5%nat
                      world_offline)).
Defined.



Lemma remaining_decreases_with_clock_witness :
  (clock world_offline (clock_reads world_offline)
   <= clock world_countdown (clock_reads world_countdown))%Z
  /\ value (fst (get_remaining_ms timer_open_at_100 world_countdown))
     <= value (fst (get_remaining_ms timer_open_at_100 world_offline)).
Proof.
  assert (H : (clock world_offline (clock_reads world_offline)
               <= clock world_countdown (clock_reads world_countdown))%Z)
    by (vm_compute; discriminate).
  split; [exact H|].
  exact (proj1 (ServerTimeSpec.remaining_decreases_with_clock timer_open_at_100
                  world_offline world_countdown H)).
Defined.




Lemma cookie_other_paths_untouched_witness :
  let J := Build_Json JsonText.json_dumps JsonText.json_load
                      JsonTextSpec.json_load_dumps in
  let self := mkCookieManager "hw_cookies.txt" in
  let other := mkCookieManager "backup.txt" in
  cookie_file other <> cookie_file self
  /\ @read J other (snd (@write J self (cookie_list two_cookies) ∅))
     = @read J other ∅.
Proof.
  intros J self other.
  assert (H : cookie_file other <> cookie_file self) by discriminate.
  split; [exact H|].
  exact (proj1 (proj2 (@CookiesMore.cookie_other_paths_untouched J self other
                         (cookie_list two_cookies) ∅ H))).
Defined.

Lemma cookie_path_is_directory_witness :
  let J := Build_Json JsonText.json_dumps JsonText.json_load
                      JsonTextSpec.json_load_dumps in
  let self := mkCookieManager "hw_cookies.txt" in
  let fs : filesystem := {[ "hw_cookies.txt" := Dir ]} in
  fs !! cookie_file self = Some Dir
  /\ @write J self (cookie_list two_cookies) fs = (false, fs)
  /\ @read J self fs = PyNone.
Proof.
  intros J self fs.
  assert (H : fs !! cookie_file self = Some Dir) by apply lookup_singleton_eq.
  split; [exact H|].
  destruct (@CookiesMore.cookie_path_is_directory J self
              (cookie_list two_cookies) fs H) as (H1 & H2 & _).
  split; assumption.
Defined.

Lemma statistics_since_last_start_witness :
  let before := [RecordError "timeout"; RecordAttempt] in
  let after := [RecordAttempt; RecordError "sold out"; RecordAttempt] in
  let s := fst (do_calls (before ++ Start :: after) Statistics_init
                  clock_from_100) in
  forallb (fun c => negb (is_start c)) after = true
  /\ attempt_count s = 2%Z /\ error_count s = 1%Z
  /\ last_error s = "sold out".
Proof.
  intros before after s.
  assert (H : forallb (fun c => negb (is_start c)) after = true) by reflexivity.
  split; [exact H|].
  destruct (UtilsSpec.statistics_since_last_start before after Statistics_init
              clock_from_100 H) as (_ & H2 & H3 & _ & H5 & _).
  repeat split; assumption.
Defined.

Lemma statistics_elapsed_witness :
  let after := [RecordAttempt; RecordError "sold out"] in
  forallb (fun c => negb (is_start c)) after = true
  /\ get_elapsed_time (fst (do_calls after Statistics_init clock_from_100))
       clock_from_100
     = (Int 0, clock_from_100).
Proof.
  intros after.
  assert (H : forallb (fun c => negb (is_start c)) after = true) by reflexivity.
  split; [exact H|].
  exact (proj1 (UtilsSpec.statistics_elapsed [] after clock_from_100 H)).
Defined.

Lemma missing_sections_give_defaults_witness :
  _parse_config (ConfigParser.mk ∅ ∅) = ConfigDefaults.AppConfig_default
  /\ errors (validate (_parse_config (ConfigParser.mk ∅ ∅)))
     = [err_name; err_password; err_product_id].
Proof.
  destruct (ConfigMore.missing_sections_give_defaults (ConfigParser.mk ∅ ∅))
    as (_ & _ & _ & _ & _ & H).
  destruct H as (H1 & H2 & _); try apply lookup_empty.
  split; assumption.
Defined.

Lemma get_percent_sign_witness :
  let m : gmap string string :=
    {[ "name" := "user"; "password" := "abc%" ]} ∪ ∅ in
  ConfigParser._unify_values file_password_percent "user" = Ok m
  /\ ConfigParser.has_percent "abc" = false
  /\ get file_password_percent "user" "name" (Some "nobody") = "user"
  /\ get file_password_percent "user" "password" (Some "secret") = "secret".
Proof.
  intros m.
  assert (Hm : ConfigParser._unify_values file_password_percent "user" = Ok m)
    by (vm_compute; reflexivity).
  split; [exact Hm|]. split; [reflexivity|]. split.
  - apply (proj1 (ConfigMore.get_percent_sign file_password_percent "user"
                    "name" m "user" "" "nobody" Hm eq_refl)).
    vm_compute. reflexivity.
  - apply (proj2 (proj2 (ConfigMore.get_percent_sign file_password_percent
                           "user" "password" m "abc" "" "secret" Hm eq_refl))).
    + now left.
    + vm_compute. reflexivity.
Defined.

Lemma password_with_percent_sign_witness :
  UserConfig.password (user (_parse_config file_password_percent)) = ""
  /\ fst (validate_and_display (_parse_config file_password_percent)) = false.
Proof.
  destruct (ConfigMore.password_with_percent_sign file_password_percent
              {[ "name" := "user"; "password" := "abc%" ]} "abc" "")
    as (H1 & _ & H3).
  - vm_compute. reflexivity.
  - vm_compute. reflexivity.
  - reflexivity.
  - now left.
  - split; assumption.
Defined.

Lemma chrome_headless_user_agent_witness :
  getboolean file_headless "browser" "headless" (Some false) = true
  /\ In ("user-agent=" ++ USER_AGENT)
        (arguments (setting_options (Some file_headless) "")).
Proof.
  assert (H : getboolean file_headless "browser" "headless" (Some false) = true)
    by (vm_compute; reflexivity).
  split; [exact H|].
  destruct (ChromeSpec.chrome_headless_user_agent file_headless "" H)
    as (_ & _ & _ & H4).
  apply (H4 (NoOptionError "useragent" "browser")).
  vm_compute. reflexivity.
Defined.

End MoreWitnesses.
